(** * DemartAI: the stock-recommendation core, its request handler, the
      chatbot keyword fallback, the analytics aggregation and the offers
      script, embedded from the Python sources.

    Python values are modelled as the interpreter has them:
    - [int] is an unbounded integer ([Z]);
    - [float] is IEEE-754 binary64, taken from the Standard Library's
      [SpecFloat] with [prec = 53] and [emax = 1024]; a decimal literal
      such as [0.2] is the correctly rounded quotient [2 / 10];
    - [int * float] converts the integer to binary64 (round to nearest
      even, [OverflowError] when it does not fit) and multiplies;
    - [int(float)] truncates toward zero;
    - [int > float] compares the two numbers exactly;
    - exceptions are the [Raise] branch of a result type. *)

From Stdlib Require Import ZArith Lia Bool List String Ascii.
From Stdlib Require Import DecimalString Sorted.
From Stdlib Require Import Floats.SpecFloat.
From stdpp Require Import gmap strings.

Open Scope Z_scope.

(** ** Exceptions and results *)

Inductive exn : Type :=
| ValueError
| TypeError
| OverflowError
| OperationalError.

Inductive res (A : Type) : Type :=
| Ok (a : A)
| Raise (e : exn).

Arguments Ok {A} a.
Arguments Raise {A} e.

#[export] Instance res_ret : MRet res := @Ok.
#[export] Instance res_bind : MBind res :=
  fun A B f m => match m with Ok a => f a | Raise e => Raise e end.

(** [str(n)] for an integer, as used by the f-strings of the advice. *)
Definition string_of_Z (z : Z) : string := NilZero.string_of_int (Z.to_int z).

(** ** Binary64 arithmetic as Python performs it *)

Module Binary64.

Definition prec : Z := 53.
Definition emax : Z := 1024.

Definition b64_of_Z (n : Z) : spec_float := binary_normalize prec emax n 0 false.
Definition b64_mul : spec_float -> spec_float -> spec_float := SFmul prec emax.

(** The binary64 value of the decimal literal [n/d] (for instance
    [b64_lit 2 10] for [0.2]): numerator and denominator are exact, the
    division rounds once. *)
Definition b64_lit (n d : Z) : spec_float := SFdiv prec emax (b64_of_Z n) (b64_of_Z d).

(** Truncation toward zero of a finite value. *)
Definition b64_trunc (f : spec_float) : option Z :=
  match f with
  | S754_zero _ => Some 0
  | S754_finite s m e =>
      Some (cond_Zopp s (if 0 <=? e then Zpos m * 2 ^ e else Zpos m / 2 ^ (- e)))
  | _ => None
  end.

(** [n > f] for an integer and a float: exact, no conversion of [n]. *)
Definition int_gt_b64 (n : Z) (f : spec_float) : bool :=
  match f with
  | S754_nan => false
  | S754_infinity s => s
  | S754_zero _ => 0 <? n
  | S754_finite s m e =>
      if 0 <=? e then cond_Zopp s (Zpos m) * 2 ^ e <? n
      else cond_Zopp s (Zpos m) <? n * 2 ^ (- e)
  end.

Definition b64_two_tenths : spec_float := Eval vm_compute in b64_lit 2 10.
Definition b64_three_halves : spec_float := Eval vm_compute in b64_lit 15 10.
(** [1.0] is [2^52 * 2^-52]. *)
Definition b64_one : spec_float := S754_finite false 4503599627370496 (-52).

(** Python's operators on top of the binary64 operations. *)

Definition py_float_of_int (n : Z) : res spec_float :=
  match b64_of_Z n with
  | S754_infinity _ => Raise OverflowError
  | f => Ok f
  end.

Definition py_mul_int_float (n : Z) (f : spec_float) : res spec_float :=
  x ← py_float_of_int n; Ok (b64_mul x f).

Definition py_int_of_float (f : spec_float) : res Z :=
  match f with
  | S754_nan => Raise ValueError
  | S754_infinity _ => Raise OverflowError
  | _ => match b64_trunc f with Some z => Ok z | None => Raise ValueError end
  end.

Definition py_int_gt_float (n : Z) (f : spec_float) : bool := int_gt_b64 n f.

(** [int(n * f)]: the shape of [int(predicted_demand * 0.2)]. *)
Definition py_int_of_mul (n : Z) (f : spec_float) : res Z :=
  x ← py_mul_int_float n f; py_int_of_float x.

(** [shifted M q mrs]: [mrs] is [M] shifted right by [q] bits, its round
    bit is the last bit shifted out and its sticky bit tells whether
    anything below was non-zero. *)
Definition shifted (M q : Z) (mrs : shr_record) : Prop :=
  0 <= q /\ shr_m mrs = M / 2 ^ q /\
  Z.b2z (shr_r mrs) * 2 ^ q <= 2 * (M mod 2 ^ q) < Z.b2z (shr_r mrs) * 2 ^ q + 2 ^ q /\
  (shr_s mrs = false <-> 2 * (M mod 2 ^ q) = Z.b2z (shr_r mrs) * 2 ^ q).

(** [sign_is sx f]: [f] is a NaN or has sign bit [sx]. *)
Definition sign_is (sx : bool) (f : spec_float) : Prop :=
  match f with
  | S754_zero s | S754_infinity s | S754_finite s _ _ => s = sx
  | S754_nan => True
  end.

End Binary64.
(** ** models/predictor.py *)

Module Predictor.
Import Binary64.

Inductive stock_decision : Type := MAINTAIN | ADD_STOCK | REDUCE_STOCK.

(** The strings the code stores under ['decision']. *)
Definition decision_label (d : stock_decision) : string :=
  match d with
  | MAINTAIN => "MAINTAIN"
  | ADD_STOCK => "ADD STOCK"
  | REDUCE_STOCK => "REDUCE STOCK"
  end.

Record Recommendation : Type := {
  decision : stock_decision;
  advice : string;
  quantity_action : Z;
  optimal_level : Z;
  reorder_point : Z;
  safety_stock : Z;
  required_stock : Z;
  stock_gap : Z
}.

(** [InventoryPredictor._generate_recommendation]. The second product,
    [optimal_stock * 1.5], is only evaluated when the first test fails. *)
Definition _generate_recommendation
    (current_stock predicted_demand : Z) (season : string) : res Recommendation :=
  safety_stock ← py_int_of_mul predicted_demand b64_two_tenths;
  let reorder_point := predicted_demand in
  let optimal_stock := predicted_demand + safety_stock in
  let required_stock := optimal_stock in
  let stock_gap := Z.max 0 (required_stock - current_stock) in
  let result decision quantity_action advice :=
    {| decision := decision; advice := advice; quantity_action := quantity_action;
       optimal_level := optimal_stock; reorder_point := reorder_point;
       safety_stock := safety_stock; required_stock := required_stock;
       stock_gap := stock_gap |} in
  if current_stock <? reorder_point then
    let quantity_action := optimal_stock - current_stock in
    Ok (result ADD_STOCK quantity_action
          ("Add " ++ string_of_Z quantity_action ++ " units")%string)
  else
    threshold ← py_mul_int_float optimal_stock b64_three_halves;
    if py_int_gt_float current_stock threshold then
      let quantity_action := current_stock - optimal_stock in
      Ok (result REDUCE_STOCK quantity_action
            ("Reduce by " ++ string_of_Z quantity_action ++ " units")%string)
    else
      Ok (result MAINTAIN current_stock
            ("Maintain " ++ string_of_Z current_stock ++ " units")%string).

(** A decimal literal with one digit after the point, [t/10]. *)
Definition tenths (t : Z) : spec_float := b64_lit t 10.

(** [InventoryPredictor._get_default_seasonal_patterns]. *)
Definition _get_default_seasonal_patterns : gmap string (gmap string spec_float) :=
  list_to_map
    [ ("Summer"%string,
        list_to_map [ ("Beverages"%string, tenths 15); ("Fruits"%string, tenths 14);
                      ("Vegetables"%string, tenths 13); ("Groceries"%string, tenths 10);
                      ("Personal Care"%string, tenths 12) ]);
      ("Winter"%string,
        list_to_map [ ("Beverages"%string, tenths 8); ("Fruits"%string, tenths 9);
                      ("Vegetables"%string, tenths 12); ("Groceries"%string, tenths 11);
                      ("Personal Care"%string, tenths 10) ]);
      ("Monsoon"%string,
        list_to_map [ ("Beverages"%string, tenths 12); ("Fruits"%string, tenths 11);
                      ("Vegetables"%string, tenths 10); ("Groceries"%string, tenths 13);
                      ("Personal Care"%string, tenths 14) ]);
      ("Regular"%string,
        list_to_map [ ("Beverages"%string, tenths 10); ("Fruits"%string, tenths 10);
                      ("Vegetables"%string, tenths 10); ("Groceries"%string, tenths 10);
                      ("Personal Care"%string, tenths 10) ]) ].

(** [InventoryPredictor._load_seasonal_patterns]: the JSON file when it can
    be opened, the built-in table on [FileNotFoundError]. *)
Definition _load_seasonal_patterns
    (file : option (gmap string (gmap string spec_float))) :
    gmap string (gmap string spec_float) :=
  match file with
  | Some patterns => patterns
  | None => _get_default_seasonal_patterns
  end.

(** [self.seasonal_patterns.get(season, {}).get(category, 1.0)], on a
    table that maps seasons to tables of multipliers. *)
Definition multiplier (seasonal_patterns : gmap string (gmap string spec_float))
    (season category : string) : spec_float :=
  default (tenths 10) (default ∅ (seasonal_patterns !! season) !! category).

(** [InventoryPredictor._get_category_base_demand]. *)
Definition category_demands : gmap string Z :=
  list_to_map
    [ ("Groceries"%string, 150); ("Dairy"%string, 200); ("Beverages"%string, 180);
      ("Fruits"%string, 120); ("Vegetables"%string, 140); ("Personal Care"%string, 90);
      ("Snacks"%string, 160); ("Frozen"%string, 80); ("Condiments"%string, 70);
      ("Miscellaneous"%string, 100) ].

Definition _get_category_base_demand (category : string) : Z :=
  default 100 (category_demands !! category).

(** A JSON number. *)
Inductive number : Type :=
| Int (z : Z)
| Float (f : spec_float).

(** A catalog entry of [data/products.json]: ['name'] is read with
    [p['name']], so every entry has one; the other fields are read with
    [.get] and a default, so they may be absent. *)
Record Product : Type := {
  p_name : string;
  p_category : option string;
  p_current_price : option number;
  p_unit : option string
}.

Record PredictionResult : Type := {
  product : string;
  category : string;
  current_stock : Z;
  season : string;
  predicted_demand : Z;
  seasonal_multiplier : spec_float;
  recommendation : Recommendation;
  price : number;
  unit_name : string
}.

Record InventoryPredictor : Type := {
  seasonal_patterns : gmap string (gmap string spec_float);
  products_data : list Product
}.

Definition seasonal_factors : gmap string spec_float :=
  list_to_map
    [ ("Summer"%string, tenths 13); ("Winter"%string, tenths 9);
      ("Monsoon"%string, tenths 12); ("Regular"%string, tenths 10) ].

(** [InventoryPredictor._get_default_prediction]. *)
Definition _get_default_prediction
    (product_name : string) (current_stock : Z) (season : string) : res PredictionResult :=
  let factor := default (tenths 10) (seasonal_factors !! season) in
  predicted_demand ← py_int_of_mul 100 factor;
  recommendation ← _generate_recommendation current_stock predicted_demand season;
  Ok {| product := product_name; category := "Miscellaneous";
        current_stock := current_stock; season := season;
        predicted_demand := predicted_demand; seasonal_multiplier := factor;
        recommendation := recommendation; price := Int 0; unit_name := "pack" |}.

(** [InventoryPredictor.predict_stock_requirement]. *)
Definition predict_stock_requirement (self : InventoryPredictor)
    (product_name : string) (current_stock : Z) (season : string) : res PredictionResult :=
  match List.find (fun p => String.eqb (p_name p) product_name) (products_data self) with
  | None => _get_default_prediction product_name current_stock season
  | Some product =>
      let category := default "Groceries"%string (p_category product) in
      let seasonal_multiplier := multiplier (seasonal_patterns self) season category in
      let base_demand := _get_category_base_demand category in
      predicted_demand ← py_int_of_mul base_demand seasonal_multiplier;
      recommendation ← _generate_recommendation current_stock predicted_demand season;
      Ok {| product := product_name; category := category;
            current_stock := current_stock; season := season;
            predicted_demand := predicted_demand;
            seasonal_multiplier := seasonal_multiplier;
            recommendation := recommendation;
            price := default (Int 0) (p_current_price product);
            unit_name := default "pack"%string (p_unit product) |}
  end.


(** A catalog entry of the kind [data/products.json] holds. *)
Definition milk : Product :=
  {| p_name := "Milk 1L"; p_category := Some "Dairy"%string;
     p_current_price := Some (Int 60); p_unit := Some "pack"%string |}.

End Predictor.

(** ** app.py: the analysis handler and the chatbot keyword fallback *)

Module App.
Import Binary64 Predictor.

(** A JSON value as [request.get_json()] delivers it. Arrays and objects
    are kept without their contents: [int()] rejects both by type. *)
Inductive json : Type :=
| JNull
| JBool (b : bool)
| JInt (z : Z)
| JFloat (f : spec_float)
| JStr (s : string)
| JArr
| JObj.

(** The body of a POST to [/api/analyze]: a JSON object whose ['product']
    and ['season'] members, when present, are strings; [None] stands for
    an absent key. *)
Record analyze_body : Type := {
  body_product : option string;
  body_season : option string;
  body_stock : option json
}.

(** What the handler does with a request, up to and including the call
    of the predictor: a JSON error with its status, an exception that
    escapes the handler, or the call [predict_stock_requirement(product,
    stock, season)] with its result. Saving and logging come after the
    call and do not change its arguments. *)
Inductive outcome : Type :=
| Rejected (status : Z) (error : string)
| Escaped (e : exn)
| Analyzed (product : string) (stock : Z) (season : string)
           (result : res PredictionResult).

Section Handler.

(** Python's [int(s)] on a string: [None] when it raises [ValueError]. *)
Variable int_of_str : string -> option Z.

(** [int(v)] on a JSON value. *)
Definition py_int (v : json) : res Z :=
  match v with
  | JInt z => Ok z
  | JBool b => Ok (Z.b2z b)
  | JFloat f => py_int_of_float f
  | JStr s => match int_of_str s with Some z => Ok z | None => Raise ValueError end
  | JNull | JArr | JObj => Raise TypeError
  end.

(** [api_analyze]. *)
Definition api_analyze (predictor : InventoryPredictor) (data : analyze_body) : outcome :=
  match body_product data, body_season data, body_stock data with
  | Some product, Some season, Some stock_value =>
      match py_int stock_value with
      | Raise ValueError | Raise TypeError => Rejected 400 "Invalid stock value"
      | Raise e => Escaped e
      | Ok stock =>
          Analyzed product stock season
            (predict_stock_requirement predictor product stock season)
      end
  | _, _, _ => Rejected 400 "Missing required fields"
  end.

End Handler.

(** [key in query_lower] for strings. *)
Fixpoint contains (key s : string) : bool :=
  if String.prefix key s then true
  else match s with
       | EmptyString => false
       | String _ s' => contains key s'
       end.

Definition responses : list (string * string) :=
  [ ("seasonal trends dairy",
       "Dairy products have stable demand year-round with slight increases during winter months. Yogurt and flavored milk see higher demand in summer. Plan inventory considering festivals like Diwali and Holi.");
    ("seasonal trends vegetable",
       "Vegetables follow strong seasonal patterns. Summer vegetables: tomatoes, cucumber, bell peppers peak. Winter: root vegetables, leafy greens dominate. Monsoon brings better shelf life for stored vegetables.");
    ("seasonal trends fruit",
       "Fruits are highly seasonal. Mangoes: summer peak. Apples/grapes: winter. Monsoon: stone fruits, citrus. Plan sourcing 2-3 weeks ahead. Consider storage capacity.");
    ("festival demand",
       "Festival seasons (Diwali, Holi, NewYear) see 1.5-2x demand increases. Stock special items 3 weeks before. Snacks and dry goods see highest demand. Plan bulk purchases.");
    ("summer inventory",
       "Summer strategy: Stock beverages at 1.5x normal levels. Increase fruits/vegetables daily. Reduce dairy shelf life considerations. Push ice-cream and cold beverages. Monitor expiry dates closely.");
    ("winter inventory",
       "Winter strategy: Increase dairy products. Stock warm beverages (tea, coffee). Promote bakery items. Increase storage for longer shelf-life items. Plan for holiday shopping rush.");
    ("inventory management",
       "Best practices: Monitor reorder points closely. Maintain 20% safety stock. Track fast-moving items weekly. Implement FIFO. Use inventory management system. Regular stock audits.");
    ("pricing strategy",
       "Peak season: maintain or increase prices slightly. Off-season: run promotions. Monitor competitor pricing. Bundle slow items. Use dynamic pricing for perishables. Plan seasonal discounts.");
    ("demand forecast",
       "Use historical data from same season last year. Adjust for growth (5-10% annual). Consider local events and festivals. Track weather patterns. Update forecasts weekly.");
    ("reorder point",
       "Calculate: (Average Daily Sales × Lead Time) + Safety Stock. Review monthly. Adjust for seasonality. Set alerts in system. Monitor supplier reliability.");
    ("hello",
       "Hello! I'm your D-Mart AI Assistant. I can help with inventory management, seasonal planning, pricing strategies, and product insights. What would you like to know?");
    ("hi",
       "Hi there! Ask me about inventory optimization, seasonal trends, pricing, or product categories. How can I help today?");
    ("help",
       "I can assist with: inventory management, seasonal demand forecasting, pricing strategies, category insights, stock optimization, and retail best practices. What's your question?") ]%string.

Definition keywords : list (string * string) :=
  [ ("dairy",
       "Dairy products are staple items with consistent demand. Winter sees 1.3x demand. Consider storage capacity and shelf life.");
    ("vegetable",
       "Vegetables are seasonal. Fresh sourcing critical. Monsoon: 1.0x. Summer: 1.3x. Winter: 1.2x demand.");
    ("beverage",
       "Beverages peak in summer (1.5x demand). Winter demand drops. Keep cold drinks well-stocked in summer.");
    ("season",
       "Seasons significantly impact inventory. Summer: beverages, fruits up. Winter: dairy, bakery up. Monsoon: groceries up.");
    ("price",
       "Pricing depends on seasonality and demand. Peak season: maintain/increase. Off-season: promote. Monitor costs.");
    ("stock",
       "Monitor stock levels closely. Set reorder points based on demand. Keep safety stock at 20%.");
    ("forecast",
       "Demand forecasting uses historical data, seasonality, and growth projections. Update weekly.") ]%string.

Definition default_response : string :=
  "I'd be happy to help! Ask me about inventory management, seasonal trends, pricing strategies, demand forecasting, or product categories. For real-time AI responses, please configure a Google Gemini API key in the .env file."%string.

(** The loop [for key, response in table.items(): if key in query_lower:
    return response], over a dict in insertion order. *)
Fixpoint first_match (table : list (string * string)) (query_lower : string) : option string :=
  match table with
  | [] => None
  | (key, response) :: rest =>
      if contains key query_lower then Some response else first_match rest query_lower
  end.

Section Chatbot.

(** [str.lower]. *)
Variable lower : string -> string.

(** [get_fallback_response]. *)
Definition get_fallback_response (query : string) : string :=
  let query_lower := lower query in
  match first_match responses query_lower with
  | Some response => response
  | None =>
      match first_match keywords query_lower with
      | Some response => response
      | None => default_response
      end
  end.

End Chatbot.

(** [str.lower] and [str.upper] on ASCII text. *)
Definition ascii_lower (c : ascii) : ascii :=
  let n := nat_of_ascii c in
  if ((65 <=? n) && (n <=? 90))%nat then ascii_of_nat (n + 32) else c.

Definition ascii_upper (c : ascii) : ascii :=
  let n := nat_of_ascii c in
  if ((97 <=? n) && (n <=? 122))%nat then ascii_of_nat (n - 32) else c.

Fixpoint map_string (f : ascii -> ascii) (s : string) : string :=
  match s with
  | EmptyString => EmptyString
  | String c s' => String (f c) (map_string f s')
  end.

Definition lower_ascii (s : string) : string := map_string ascii_lower s.
Definition upper_ascii (s : string) : string := map_string ascii_upper s.

End App.

(** ** database.py: the history store and its aggregation *)

Module Database.

(** A row of [inventory_analysis], one field per column of the table. *)
Record analysis_row : Type := {
  row_id : Z;
  product_name : string;
  category : option string;
  season : string;
  current_stock : Z;
  predicted_demand : option Z;
  recommendation : option string;
  decision : option string;
  price : option Predictor.number;
  unit_name : option string;
  optimal_level : option Z;
  created_at : Z;
  updated_at : Z
}.

(** A row of [chatbot_conversations]. *)
Record chat_row : Type := {
  chat_id : Z;
  user_message : string;
  bot_response : string;
  source : option string;
  chat_created_at : Z
}.

(** The SQLite file as one call of a function sees it: whether it can be
    opened, which of the statements the function executes (numbered from
    0 in program order) fail, and the contents of the two tables. *)
Record store : Type := {
  open_error : option exn;
  query_error : nat -> option exn;
  inventory_analysis : list analysis_row;
  chatbot_conversations : list chat_row
}.

(** [get_db_connection]: [sqlite3.connect] raises when the file cannot be
    opened. *)
Definition get_db_connection (st : store) : res store :=
  match open_error st with
  | Some e => Raise e
  | None => Ok st
  end.

(** [cursor.execute(...)] followed by the fetch: statement number [k] of
    the function either raises or delivers [rows]. *)
Definition execute {A : Type} (conn : store) (k : nat) (rows : A) : res A :=
  match query_error conn k with
  | Some e => Raise e
  | None => Ok rows
  end.

(** Binding a Python [int] to a statement: SQLite integers have 64 bits,
    anything else is an [OverflowError]. *)
Definition sqlite_int (z : Z) : res Z :=
  if (- 2 ^ 63 <=? z) && (z <? 2 ^ 63) then Ok z else Raise OverflowError.

(** [SELECT key, COUNT( * ) ... GROUP BY key], read into a dict. *)
Definition count_by `{Countable K} {A : Type} (key : A -> K) (rows : list A) : gmap K Z :=
  foldr (fun row counts => <[key row := default 0 (counts !! key row) + 1]> counts) ∅ rows.

(** [ORDER BY key DESC]: [x] is a row stored before the rows of
    [sorted], so it goes in front of the rows whose key is not larger,
    and rows of equal key stay in their stored order. *)
Fixpoint insert_desc {A : Type} (key : A -> Z) (x : A) (sorted : list A) : list A :=
  match sorted with
  | [] => [x]
  | y :: rest => if key y <=? key x then x :: y :: rest else y :: insert_desc key x rest
  end.

Definition order_by_desc {A : Type} (key : A -> Z) (rows : list A) : list A :=
  foldr (insert_desc key) [] rows.

(** [LIMIT n]; a negative limit means no limit in SQLite. *)
Definition limit {A : Type} (n : Z) (rows : list A) : list A :=
  if n <? 0 then rows else take (Z.to_nat n) rows.

(** [SELECT product_name, COUNT( * ) ... GROUP BY product_name]: one pair
    per product, in order of first appearance. *)
Definition product_counts (rows : list analysis_row) : list (string * Z) :=
  let counts := count_by product_name rows in
  map (fun name => (name, default 0 (counts !! name))) (remove_dups (map product_name rows)).

Record summary : Type := {
  total_analyses : Z;
  categories : gmap (option string) Z;
  seasons : gmap string Z;
  decisions : gmap string Z;
  top_products : list (string * Z);
  recent_analyses : list analysis_row;
  total_chats : Z;
  chat_sources : gmap (option string) Z
}.

(** What [get_analytics_data] returns: the summary dict, or the empty
    dict [{}] of its [except] branch. *)
Inductive analytics : Type :=
| Summary (s : summary)
| EmptyDict.

(** The [try] block of [get_analytics_data]. *)
Definition analytics_queries (conn : store) : res summary :=
  let analyses := inventory_analysis conn in
  let chats := chatbot_conversations conn in
  total_analyses ← execute conn 0 (Z.of_nat (length analyses));
  categories ← execute conn 1 (count_by category analyses);
  seasons ← execute conn 2 (count_by season analyses);
  decisions ← execute conn 3 (count_by (fun d : string => d) (omap decision analyses));
  top_products ← execute conn 4 (limit 10 (order_by_desc snd (product_counts analyses)));
  recent_analyses ← execute conn 5 (limit 20 (order_by_desc created_at analyses));
  total_chats ← execute conn 6 (Z.of_nat (length chats));
  chat_sources ← execute conn 7 (count_by source chats);
  Ok {| total_analyses := total_analyses; categories := categories; seasons := seasons;
        decisions := decisions; top_products := top_products;
        recent_analyses := recent_analyses; total_chats := total_chats;
        chat_sources := chat_sources |}.

(** [get_analytics_data]: the connection is opened before the [try]; the
    [except Exception] branch closes it and returns [{}]. *)
Definition get_analytics_data (st : store) : res analytics :=
  conn ← get_db_connection st;
  match analytics_queries conn with
  | Ok s => Ok (Summary s)
  | Raise _ => Ok EmptyDict
  end.

(** [get_recent_analyses]: the limit is bound to the statement inside the
    [try], so a limit outside 64 bits ends in the [except] branch like a
    failing query. *)
Definition get_recent_analyses (n : Z) (st : store) : res (list analysis_row) :=
  conn ← get_db_connection st;
  match
    bound ← sqlite_int n;
    execute conn 0 (limit bound (order_by_desc created_at (inventory_analysis conn)))
  with
  | Ok analyses => Ok analyses
  | Raise _ => Ok []
  end.

End Database.

(** ** scripts/list_offers.py *)

Module ListOffers.
Import Binary64 Database.

Inductive offer : Type :=
| DISCOUNT (discount_percent : Z) (message : string)
| BOGO (message : string).

Definition is_discount (o : offer) : bool :=
  match o with DISCOUNT _ _ => true | BOGO _ => false end.

Definition is_bogo (o : offer) : bool :=
  match o with DISCOUNT _ _ => false | BOGO _ => true end.

Record offer_entry : Type := {
  entry_product_name : string;
  entry_category : option string;
  entry_current_stock : Z;
  entry_predicted_demand : Z;
  entry_offers : list offer
}.

(** The two [if] statements that fill [item_offers]. The product
    [predicted * 1.5] is evaluated only when [predicted > 0]. *)
Definition item_offers_of (product : string) (current predicted : Z) : res (list offer) :=
  let discount :=
    if (0 <? predicted) && (predicted <? current)
    then [DISCOUNT 20 ("Apply 20% discount on " ++ product ++ " to boost sales.")%string]
    else [] in
  bogo ←
    (if 0 <? predicted then
       threshold ← py_int_of_mul predicted b64_three_halves;
       Ok (if threshold <=? current
           then [BOGO ("Offer Buy-One-Get-One for " ++ product ++ " to clear excess stock.")%string]
           else [])
     else Ok []);
  Ok (discount ++ bogo).

(** The dict appended to [offers] for a row and its offers. *)
Definition entry_of (a : analysis_row) (item_offers : list offer) : offer_entry :=
  {| entry_product_name := product_name a;
     entry_category := category a;
     entry_current_stock := current_stock a;
     entry_predicted_demand := default 0 (predicted_demand a);
     entry_offers := item_offers |}.

(** The loop over [analyses], with its two accumulators [seen] and
    [offers]. A row of the table has no ['product'] key, so
    [a.get('product_name') or a.get('product')] is the product name, or
    [None] when the name is empty. *)
Fixpoint offers_loop (analyses : list analysis_row) (seen : gset string)
    (offers : list offer_entry) : res (list offer_entry) :=
  match analyses with
  | [] => Ok offers
  | a :: rest =>
      let product := product_name a in
      if String.eqb product "" || bool_decide (product ∈ seen) then
        offers_loop rest seen offers
      else
        let seen := {[ product ]} ∪ seen in
        let current := current_stock a in
        let predicted := default 0 (predicted_demand a) in
        item_offers ← item_offers_of product current predicted;
        match item_offers with
        | [] => offers_loop rest seen offers
        | _ :: _ => offers_loop rest seen (offers ++ [entry_of a item_offers])
        end
  end.

(** The script: the offers it goes on to print, one block per entry. *)
Definition main (st : store) : res (list offer_entry) :=
  analyses ← get_recent_analyses 1000 st;
  offers_loop analyses ∅ [].

End ListOffers.

(** ** Sample data used in the examples below *)

Module Examples.
Import Predictor App Database.

(** A predictor with the built-in pattern table and a one-product catalog. *)
Definition demo_predictor : InventoryPredictor :=
  {| seasonal_patterns := _get_default_seasonal_patterns; products_data := [milk] |}.

(** A toy [int(str)]: it knows the literal "12" only. *)
Definition toy_int_of_str (t : string) : option Z :=
  if String.eqb t "12" then Some 12 else None.

Definition request_with_stock (stock : json) : analyze_body :=
  {| body_product := Some "Milk 1L"%string; body_season := Some "Summer"%string;
     body_stock := Some stock |}.

Definition winter_dairy : gmap string spec_float := {[ "Dairy"%string := tenths 11 ]}.
Definition winter_only : gmap string (gmap string spec_float) :=
  {[ "Winter"%string := winter_dairy ]}.

Definition empty_store : store :=
  {| open_error := None; query_error := fun _ => None;
     inventory_analysis := []; chatbot_conversations := [] |}.

Definition unreachable_store : store :=
  {| open_error := Some OperationalError; query_error := fun _ => None;
     inventory_analysis := []; chatbot_conversations := [] |}.

Definition analysis (n : Z) (name : string) (stock demand : Z) (time : Z) : analysis_row :=
  {| row_id := n; product_name := name; category := Some "Dairy"%string;
     season := "Summer"; current_stock := stock; predicted_demand := Some demand;
     recommendation := None; decision := None; price := None; unit_name := None;
     optimal_level := None; created_at := time; updated_at := time |}.

(** Milk was analysed twice, overstocked the first time and short of
    stock the second time; Rice once, overstocked. *)
Definition history_store : store :=
  {| open_error := None; query_error := fun _ => None;
     inventory_analysis :=
       [ analysis 1 "Milk 1L" 400 200 10; analysis 2 "Rice" 150 100 20;
         analysis 3 "Milk 1L" 50 200 30 ];
     chatbot_conversations := [] |}.


End Examples.

(** ** The specification's reading of the core

    Definitions written from the specification's words, in exact integer
    arithmetic, to be compared with the code above. *)

Module Spec.
Import Predictor.

(** The recommendation as the specification words it, in exact integer
    arithmetic: [floor(pd * 0.2)] is [pd * 2 / 10] and
    [cs > optimal * 1.5] is [2 * cs > 3 * optimal]. *)
Definition recommend_spec (cs pd : Z) : Recommendation :=
  let safety := pd * 2 / 10 in
  let optimal := pd + safety in
  let gap := Z.max 0 (optimal - cs) in
  if cs <? pd then
    {| decision := ADD_STOCK;
       advice := ("Add " ++ string_of_Z (optimal - cs) ++ " units")%string;
       quantity_action := optimal - cs;
       optimal_level := optimal; reorder_point := pd; safety_stock := safety;
       required_stock := optimal; stock_gap := gap |}
  else if 3 * optimal <? 2 * cs then
    {| decision := REDUCE_STOCK;
       advice := ("Reduce by " ++ string_of_Z (cs - optimal) ++ " units")%string;
       quantity_action := cs - optimal;
       optimal_level := optimal; reorder_point := pd; safety_stock := safety;
       required_stock := optimal; stock_gap := gap |}
  else
    {| decision := MAINTAIN;
       advice := ("Maintain " ++ string_of_Z cs ++ " units")%string;
       quantity_action := cs;
       optimal_level := optimal; reorder_point := pd; safety_stock := safety;
       required_stock := optimal; stock_gap := gap |}.

(** The season-only factor of the fallback path, in tenths: Summer 1.3,
    Winter 0.9, Monsoon 1.2, Regular 1.0, anything else 1.0. *)
Definition fallback_factor_tenths (season : string) : Z :=
  if String.eqb season "Summer" then 13
  else if String.eqb season "Winter" then 9
  else if String.eqb season "Monsoon" then 12
  else if String.eqb season "Regular" then 10
  else 10.

(** The default pattern table, in tenths, [None] where the table has no
    entry. *)
Definition category_row (beverages fruits vegetables groceries personal_care : Z)
    (category : string) : option Z :=
  if String.eqb category "Beverages" then Some beverages
  else if String.eqb category "Fruits" then Some fruits
  else if String.eqb category "Vegetables" then Some vegetables
  else if String.eqb category "Groceries" then Some groceries
  else if String.eqb category "Personal Care" then Some personal_care
  else None.

Definition configured_tenths (season category : string) : option Z :=
  if String.eqb season "Summer" then category_row 15 14 13 10 12 category
  else if String.eqb season "Winter" then category_row 8 9 12 11 10 category
  else if String.eqb season "Monsoon" then category_row 12 11 10 13 14 category
  else if String.eqb season "Regular" then category_row 10 10 10 10 10 category
  else None.

(** The ten categories of the base-demand table. *)
Definition known_categories : list string :=
  [ "Groceries"; "Dairy"; "Beverages"; "Fruits"; "Vegetables"; "Personal Care";
    "Snacks"; "Frozen"; "Condiments"; "Miscellaneous" ]%string.

(** Row [i] of [analyses] is the first one of its product whose name is
    neither empty nor in [seen]. *)
Definition first_unseen (analyses : list Database.analysis_row) (seen : gset string)
    (i : nat) (a : Database.analysis_row) : Prop :=
  analyses !! i = Some a /\
  Database.product_name a <> ""%string /\
  (Database.product_name a ∉ seen) /\
  forall (j : nat) b, (j < i)%nat -> analyses !! j = Some b ->
    Database.product_name b <> Database.product_name a.

(** The offers the script computes for a row. *)
Definition items_of (a : Database.analysis_row) : res (list ListOffers.offer) :=
  ListOffers.item_offers_of (Database.product_name a) (Database.current_stock a)
    (default 0 (Database.predicted_demand a)).

(** When a DISCOUNT and when a BOGO offer is due; the BOGO threshold once
    as the binary64 product the script computes and once as
    [floor(predicted * 15 / 10)]. *)
Definition discount_due (current predicted : Z) : Prop :=
  0 < predicted /\ predicted < current.

Definition bogo_due (current predicted : Z) : Prop :=
  0 < predicted /\
  exists threshold,
    Binary64.py_int_of_mul predicted Binary64.b64_three_halves = Ok threshold /\
    threshold <= current.

Definition bogo_due_exact (current predicted : Z) : Prop :=
  0 < predicted /\ predicted * 15 / 10 <= current.



(** A list in descending order of [key]. *)
Definition descending {A : Type} (key : A -> Z) (l : list A) : Prop :=
  forall (i j : nat) a b, (i < j)%nat -> l !! i = Some a -> l !! j = Some b -> key b <= key a.

End Spec.

(** ** Further reference definitions for the predictor *)

Module PredictorSpec.
Import Predictor Spec.

(** The demand the built-in tables give for a season and a category:
    [floor(base_demand * multiplier)] in exact decimal arithmetic, except
    that the binary64 product [90 * 1.4] of (Monsoon, Personal Care) is
    [125.99999999999999], truncated to 125. *)
Definition table_demand (season category : string) : Z :=
  if String.eqb season "Monsoon" && String.eqb category "Personal Care" then 125
  else _get_category_base_demand category * default 10 (configured_tenths season category) / 10.

(** ADD_STOCK < MAINTAIN < REDUCE_STOCK. *)
Definition decision_rank (d : stock_decision) : Z :=
  match d with
  | ADD_STOCK => 0
  | MAINTAIN => 1
  | REDUCE_STOCK => 2
  end.

End PredictorSpec.

(** ** database.py: the statements that write, and the product history *)

Module Storage.
Import Binary64 Predictor Database.

(** A row of [user_activity]. *)
Record activity_row : Type := {
  activity_id : Z;
  activity_type : string;
  description : string;
  details : option string;
  activity_created_at : Z
}.

(** The contents of the three tables the request handlers write. *)
Record tables : Type := {
  analyses : list analysis_row;
  chats : list chat_row;
  activities : list activity_row
}.

(** The condition of the database file during one call of a function of
    [database.py]: whether [sqlite3.connect] fails, and which of the
    statements of the call (numbered from 0; [conn.commit()] counts as a
    statement) fail. *)
Record faults : Type := {
  open_fault : option exn;
  statement_fault : nat -> option exn
}.

(** The file as the reading functions see it during such a call. *)
Definition connect (f : faults) (t : tables) : store :=
  {| open_error := open_fault f; query_error := statement_fault f;
     inventory_analysis := analyses t; chatbot_conversations := chats t |}.

(** A number stored in a [REAL] column: integers are turned into floating
    point, a NaN is stored as [NULL]. *)
Definition sqlite_real (x : number) : res (option number) :=
  match x with
  | Int z => z ← sqlite_int z; Ok (Some (Float (b64_of_Z z)))
  | Float S754_nan => Ok None
  | Float f => Ok (Some (Float f))
  end.

(** The id an [AUTOINCREMENT] key gives to a new row: one more than the
    largest id in use (no statement of the repository deletes rows), and
    a failure once the 64-bit ids are used up. *)
Definition next_rowid {A : Type} (rowid : A -> Z) (rows : list A) : res Z :=
  let n := foldr (fun row m => Z.max (rowid row) m) 0 rows + 1 in
  if n <? 2 ^ 63 then Ok n else Raise OperationalError.

(** [save_analysis]. The connection is opened before the [try]; inside
    it, the [INSERT] is statement 0 and the commit statement 1, and any
    failure leaves the table as it was and yields [None]. [created] and
    [updated] are the two readings of [datetime.now()]. *)
Definition save_analysis (f : faults) (created updated : Z) (t : tables)
    (product_name category season : string) (current_stock : Z)
    (prediction_result : PredictionResult) : res (option Z * tables) :=
  conn ← get_db_connection (connect f t);
  let inserted : res (Z * tables) :=
    stock ← sqlite_int current_stock;
    demand ← sqlite_int (Predictor.predicted_demand prediction_result);
    cost ← sqlite_real (Predictor.price prediction_result);
    optimal ← sqlite_int (Predictor.optimal_level (Predictor.recommendation prediction_result));
    analysis_id ← next_rowid row_id (inventory_analysis conn);
    _ ← execute conn 0 tt;
    _ ← execute conn 1 tt;
    Ok (analysis_id,
        {| analyses :=
             analyses t ++
             [ {| row_id := analysis_id;
                  Database.product_name := product_name;
                  Database.category := Some category;
                  Database.season := season;
                  Database.current_stock := stock;
                  Database.predicted_demand := Some demand;
                  Database.recommendation :=
                    Some (advice (Predictor.recommendation prediction_result));
                  Database.decision :=
                    Some (decision_label
                            (Predictor.decision (Predictor.recommendation prediction_result)));
                  Database.price := cost;
                  Database.unit_name := Some (Predictor.unit_name prediction_result);
                  Database.optimal_level := Some optimal;
                  created_at := created;
                  updated_at := updated |} ];
           chats := chats t;
           activities := activities t |}) in
  match inserted with
  | Ok (analysis_id, t') => Ok (Some analysis_id, t')
  | Raise _ => Ok (None, t)
  end.

(** [save_chat]. *)
Definition save_chat (f : faults) (now : Z) (t : tables)
    (user_message bot_response source : string) : res (bool * tables) :=
  conn ← get_db_connection (connect f t);
  let inserted : res tables :=
    new_id ← next_rowid chat_id (chatbot_conversations conn);
    _ ← execute conn 0 tt;
    _ ← execute conn 1 tt;
    Ok {| analyses := analyses t;
          chats :=
            chats t ++
            [ {| chat_id := new_id; Database.user_message := user_message;
                 Database.bot_response := bot_response;
                 Database.source := Some source; chat_created_at := now |} ];
          activities := activities t |} in
  match inserted with
  | Ok t' => Ok (true, t')
  | Raise _ => Ok (false, t)
  end.

(** [log_activity]. *)
Definition log_activity (f : faults) (now : Z) (t : tables)
    (activity_type description : string) (details : option string) : res (bool * tables) :=
  conn ← get_db_connection (connect f t);
  let inserted : res tables :=
    new_id ← next_rowid activity_id (activities t);
    _ ← execute conn 0 tt;
    _ ← execute conn 1 tt;
    Ok {| analyses := analyses t;
          chats := chats t;
          activities :=
            activities t ++
            [ {| activity_id := new_id; Storage.activity_type := activity_type;
                 Storage.description := description; Storage.details := details;
                 activity_created_at := now |} ] |} in
  match inserted with
  | Ok t' => Ok (true, t')
  | Raise _ => Ok (false, t)
  end.

(** [get_product_history]. *)
Definition get_product_history (f : faults) (t : tables) (product_name : string)
    : res (list analysis_row) :=
  conn ← get_db_connection (connect f t);
  match execute conn 0
          (order_by_desc created_at
             (filter (fun a => Database.product_name a = product_name)
                     (inventory_analysis conn))) with
  | Ok history => Ok history
  | Raise _ => Ok []
  end.

(** The condition of a healthy file. *)
Definition no_faults : faults := {| open_fault := None; statement_fault := fun _ => None |}.

Definition no_tables : tables := {| analyses := []; chats := []; activities := [] |}.

(** The states the three writers can produce, starting from the empty
    tables [init_db] creates. *)
Inductive reachable : tables -> Prop :=
| reachable_init : reachable no_tables
| reachable_save_analysis f created updated t name cat sn stock result out t' :
    reachable t ->
    save_analysis f created updated t name cat sn stock result = Ok (out, t') ->
    reachable t'
| reachable_save_chat f now t message response src out t' :
    reachable t ->
    save_chat f now t message response src = Ok (out, t') ->
    reachable t'
| reachable_log_activity f now t type descr det out t' :
    reachable t ->
    log_activity f now t type descr det = Ok (out, t') ->
    reachable t'.

End Storage.

(** ** Notions used to state what the store keeps *)

Module StorageSpec.
Import Binary64 Predictor Database Storage.

(** A number a [REAL] column accepts: any float, and the integers of 64
    bits. *)
Definition stored_price (x : number) : Prop :=
  match x with
  | Int z => - 2 ^ 63 <= z < 2 ^ 63
  | Float _ => True
  end.

(** The ids of [rows] are 1, 2, 3, ... in table order. *)
Definition consecutive {A : Type} (rowid : A -> Z) (rows : list A) : Prop :=
  map rowid rows = map Z.of_nat (seq 1 (length rows)).

(** The number of [rows] whose [key] is [k]. *)
Definition rows_with `{EqDecision K} {A : Type} (key : A -> K) (k : K) (rows : list A) : Z :=
  Z.of_nat (length (filter (fun a => key a = k) rows)).

(** The sum of the counts of a distribution. *)
Definition total `{Countable K} (counts : gmap K Z) : Z :=
  map_fold (fun _ n acc => n + acc) 0 counts.

End StorageSpec.

Module StorageExamples.
Import Binary64 Predictor Database Storage Spec Examples.

Definition history_tables : tables :=
  {| analyses := inventory_analysis history_store; chats := []; activities := [] |}.

(** What the predictor answers for 50 packs of milk in summer. *)
Definition milk_prediction : PredictionResult :=
  {| product := "Milk 1L"; Predictor.category := "Dairy";
     Predictor.current_stock := 50; Predictor.season := "Summer";
     Predictor.predicted_demand := 200; seasonal_multiplier := b64_one;
     Predictor.recommendation := recommend_spec 50 200;
     Predictor.price := Int 60; Predictor.unit_name := "pack" |}.

(** A file whose commits fail. *)
Definition commit_fails : faults :=
  {| open_fault := None;
     statement_fault := fun k => if Nat.eqb k 1 then Some OperationalError else None |}.

(** The tables after the first chat. *)
Definition first_chat : tables :=
  match save_chat no_faults 10 no_tables "hi" "Hi there" "fallback" with
  | Ok (_, t1) => t1
  | Raise _ => no_tables
  end.

(** Three chats are saved in turn; the second one meets a failing commit. *)
Definition two_chats_one_failed : bool * tables :=
  match save_chat no_faults 10 no_tables "hi" "Hi there" "fallback" with
  | Ok (_, t1) =>
      match save_chat commit_fails 20 t1 "lost" "Hi there" "fallback" with
      | Ok (_, t2) =>
          match save_chat no_faults 30 t2 "again" "Hi there" "fallback" with
          | Ok r => r
          | Raise _ => (false, t2)
          end
      | Raise _ => (false, t1)
      end
  | Raise _ => (false, no_tables)
  end.

(** Milk is analysed a third time, at time 40. *)
Definition milk_saved : option Z * tables :=
  match save_analysis no_faults 40 41 history_tables "Milk 1L" "Dairy" "Summer" 50
          milk_prediction with
  | Ok r => r
  | Raise _ => (None, history_tables)
  end.

(** What the predictor answers for a stock of [2^63] packs of milk. *)
Definition overstocked_prediction : PredictionResult :=
  match predict_stock_requirement demo_predictor "Milk 1L" (2 ^ 63) "Summer" with
  | Ok r => r
  | Raise _ => milk_prediction
  end.

End StorageExamples.

(** ** app.py: the handlers together with the store they write *)

Module Server.
Import Binary64 Predictor Database Storage App.

(** What a view function hands back to Flask: [jsonify] of a prediction,
    a JSON error with its status, or an exception that leaves the view. *)
Inductive analyze_response : Type :=
| Prediction (status : Z) (body : PredictionResult)
| AnalyzeError (status : Z) (error : string)
| AnalyzeFailure (e : exn).

(** The double quote. *)
Definition quote : string := String (ascii_of_nat 34) EmptyString.

(** [json.dumps({'stock': stock, 'decision': decision})] for an integer
    and one of the three decision labels. *)
Definition analysis_details (stock : Z) (decision : string) : string :=
  ("{" ++ quote ++ "stock" ++ quote ++ ": " ++ string_of_Z stock ++ ", " ++
   quote ++ "decision" ++ quote ++ ": " ++ quote ++ decision ++ quote ++ "}")%string.

Section Analyze.

Variable int_of_str : string -> option Z.

(** [api_analyze], from the request to the response, with the tables it
    leaves behind. [saving] and [logging] are the conditions of the file
    during the calls of [save_analysis] and [log_activity]; [created],
    [updated] and [logged] are the readings of the clock. The call of
    [save_analysis] sits in a [try] that swallows every exception; the
    call of [log_activity] does not. *)
Definition api_analyze_request (predictor : InventoryPredictor)
    (saving logging : faults) (created updated logged : Z)
    (t : tables) (data : analyze_body) : analyze_response * tables :=
  match api_analyze int_of_str predictor data with
  | Rejected status error => (AnalyzeError status error, t)
  | Escaped e => (AnalyzeFailure e, t)
  | Analyzed product stock season (Raise e) => (AnalyzeFailure e, t)
  | Analyzed product stock season (Ok prediction) =>
      let t1 :=
        match save_analysis saving created updated t product
                (Predictor.category prediction) season stock prediction with
        | Ok (_, t1) => t1
        | Raise _ => t
        end in
      match log_activity logging logged t1 "inventory_analysis"
              ("Analyzed " ++ product ++ " for " ++ season ++ " season")
              (Some (analysis_details stock
                       (decision_label
                          (Predictor.decision (Predictor.recommendation prediction))))) with
      | Ok (_, t2) => (Prediction 200 prediction, t2)
      | Raise e => (AnalyzeFailure e, t1)
      end
  end.

End Analyze.

(** The body of a POST to [/api/chat]; [None] stands for an absent
    ['message'], which [data.get('message', '')] reads as [''] . *)
Record chat_body : Type := { body_message : option string }.

(** What [generate_content] returned: whether the object is truthy, its
    [text] property, whose reading may raise, and its [str()]. *)
Record gemini_reply : Type := {
  reply_truthy : bool;
  reply_text : res string;
  reply_str : string
}.

(** The JSON answers of [api_chat]. *)
Inductive chat_response : Type :=
| ChatReply (status : Z) (response : string) (status_text : string) (source : string)
| ChatError (status : Z) (error : string).

Definition placeholder_key : string := "your-google-api-key-here".

Definition apology : string :=
  "I apologize for the technical difficulty. Please try asking your question again or contact support.".

(** The [print] calls of [api_chat] whose text comes from outside the
    program: the echo of the message (line 273), the description of the
    remote error (line 304) and the fallback notice with the message
    (line 309). [print] raises when [stdout] cannot encode the text, as
    with a lone surrogate in the message. The other calls print fixed
    ASCII text, a length, or the description of an exception of the
    interpreter or of SQLite, and are taken to succeed. *)
Inductive print_site : Type :=
| EchoMessage
| RemoteError
| FallbackNotice.

Section Chat.

(** [str.strip], [str.lower] and the slice [s[:n]]. *)
Variable strip : string -> string.
Variable lower : string -> string.
Variable first_chars : nat -> string -> string.

(** [print(...)] at one of these sites: [printing site] is the
    exception it raises, if any. *)
Definition py_print (printing : print_site -> option exn) (site : print_site) : res unit :=
  match printing site with
  | Some e => Raise e
  | None => Ok tt
  end.

(** The answer extracted from a reply:
    [response.text.strip() if response and response.text else
     (str(response) if response else "No response from API")]. *)
Definition answer_of (reply : gemini_reply) : res string :=
  if reply_truthy reply then
    text ← reply_text reply;
    if negb (String.eqb text "") then Ok (strip text) else Ok (reply_str reply)
  else Ok "No response from API"%string.

(** The [try] that stores a chat and logs it: an exception of
    [save_chat] skips [log_activity], and every exception is swallowed. *)
Definition save_and_log (saving logging : faults) (saved logged : Z) (t : tables)
    (message response source description : string) : tables :=
  match save_chat saving saved t message response source with
  | Raise _ => t
  | Ok (_, t1) =>
      match log_activity logging logged t1 "chatbot_interaction" description
              (Some (first_chars 50 message)) with
      | Ok (_, t2) => t2
      | Raise _ => t1
      end
  end.

(** [api_chat]. [api_key] is the outcome of
    [app.config.get('GOOGLE_API_KEY', '').strip()], and [remote] that of
    [load_products()] and [generate_content(...)], between which the
    message is echoed; all of them may raise. An exception inside the
    remote block is caught and described, and the fallback follows; an
    exception of that description, of the fallback notice or of the
    reading of the key reaches the outer [except], which answers with
    the apology and status 500 after trying to store it. *)
Definition api_chat (api_key : res string) (remote : res gemini_reply)
    (printing : print_site -> option exn)
    (saving logging : faults) (saved logged : Z)
    (t : tables) (data : chat_body) : chat_response * tables :=
  let message := strip (default ""%string (body_message data)) in
  if String.eqb message "" then (ChatError 400 "Empty message", t)
  else
    let last_resort :=
      (ChatReply 500 apology "error" "error-fallback",
       match save_chat saving saved t message apology "error" with
       | Ok (_, t1) => t1
       | Raise _ => t
       end) in
    let fallback :=
      match py_print printing FallbackNotice with
      | Raise _ => last_resort
      | Ok _ =>
          let fallback_response := get_fallback_response lower message in
          (ChatReply 200 fallback_response "success" "fallback",
           save_and_log saving logging saved logged t message fallback_response
             "fallback" "Fallback response sent")
      end in
    match api_key with
    | Raise _ => last_resort
    | Ok key =>
        if negb (String.eqb key "") && negb (String.eqb key placeholder_key) then
          match (_ ← py_print printing EchoMessage; remote ≫= answer_of) with
          | Ok answer =>
              (ChatReply 200 answer "success" "google-gemini",
               save_and_log saving logging saved logged t message answer
                 "google-gemini" "AI response generated")
          | Raise _ =>
              match py_print printing RemoteError with
              | Raise _ => last_resort
              | Ok _ => fallback
              end
          end
        else fallback
    end.

End Chat.

End Server.

Module ServerExamples.
Import Binary64 Predictor Database Storage ListOffers App Server Examples StorageExamples.

(** 500 packs of milk are analysed in summer, at time 40, on top of the
    sample history. *)
Definition overstock_request : analyze_response * tables :=
  api_analyze_request toy_int_of_str demo_predictor no_faults no_faults 40 41 42
    history_tables (request_with_stock (JInt 500)).

Definition overstock_prediction : PredictionResult :=
  match fst overstock_request with
  | Prediction _ r => r
  | _ => milk_prediction
  end.

(** What the offers script finds afterwards. *)
Definition overstock_offers : list offer_entry :=
  match main (connect no_faults (snd overstock_request)) with
  | Ok offers => offers
  | Raise _ => []
  end.

(** A predictor whose patterns file holds a NaN for dairy in summer. *)
Definition broken_predictor : InventoryPredictor :=
  {| seasonal_patterns :=
       {[ "Summer"%string := {[ "Dairy"%string := S754_nan ]} ]};
     products_data := [milk] |}.

(** A [strip] for text without surrounding blanks. *)
Definition no_strip (s : string) : string := s.

(** [s[:n]] on ASCII text. *)
Definition ascii_first_chars (n : nat) (s : string) : string := String.substring 0 n s.

Definition chat_about_stock : chat_body := {| body_message := Some "Which stock?"%string |}.

(** The tables after that chat was answered from the keyword table. *)
Definition chat_logged : tables :=
  snd (api_chat no_strip lower_ascii ascii_first_chars (Ok placeholder_key)
         (Raise OperationalError) (fun _ => None) no_faults no_faults 10 11 no_tables
         chat_about_stock).

(** A [stdout] that cannot encode the message: the two lines that carry
    it raise ([UnicodeEncodeError] is a [ValueError]). *)
Definition message_unprintable (site : print_site) : option exn :=
  match site with
  | EchoMessage | FallbackNotice => Some ValueError
  | RemoteError => None
  end.

End ServerExamples.

(** ** app.py: the session, the login and the guarded routes *)

Module Auth.
Import Database Storage App.

(** Flask's [session], a dict of strings. *)
Abbreviation session := (gmap string string).

(** The body of a POST to [/api/login]; [None] stands for an absent key,
    which [data.get(key, '')] reads as [''] . *)
Record login_body : Type := {
  login_email : option string;
  login_password : option string
}.

(** The body of a POST to [/api/update-profile]. *)
Record profile_body : Type := {
  profile_username : option string;
  profile_email : option string
}.

(** [jsonify({'status': 'success', 'message': ...}), 200] and
    [jsonify({'error': ...}), 401]. *)
Inductive login_response : Type :=
| LoginSuccess (status : Z) (message : string)
| LoginError (status : Z) (error : string).

(** The answers of [/api/update-profile]: the JSON object with its
    status, where [updated] holds ['username'] and ['email'] when they
    are part of the object, or an exception that leaves the view. *)
Inductive profile_response : Type :=
| ProfileReply (status : Z) (success : bool) (message : string)
               (updated : option (string * string))
| ProfileFailure (e : exn).

(** The answers of a page route. *)
Inductive page_response : Type :=
| Redirect (endpoint : string)
| Render (template : string)
| PageFailure (e : exn).

(** [s.replace(a, b)] for single characters. *)
Definition replace_char (a b : ascii) (s : string) : string :=
  map_string (fun c => if Ascii.eqb c a then b else c) s.

(** [s.split(a)[0]]: the text before the first [a], all of it when
    there is none. *)
Fixpoint before_char (a : ascii) (s : string) : string :=
  match s with
  | EmptyString => EmptyString
  | String c s' => if Ascii.eqb c a then EmptyString else String c (before_char a s')
  end.

Section Routes.

(** [str.strip] and [str.title]. *)
Variable strip : string -> string.
Variable title : string -> string.

(** [api_login]. *)
Definition api_login (sess : session) (data : login_body) : login_response * session :=
  let email := strip (default ""%string (login_email data)) in
  let password := strip (default ""%string (login_password data)) in
  if String.eqb email "demo@dmart.com" && String.eqb password "demo123" then
    (LoginSuccess 200 "Logged in successfully",
     <["username"%string := "Demo User"%string]>
       (<["email"%string := email]> (<["user_id"%string := "demo_user"%string]> sess)))
  else if negb (String.eqb email "") && negb (String.eqb password "") then
    (LoginSuccess 200 "Logged in successfully",
     <["username"%string := title (before_char "@" email)]>
       (<["email"%string := email]>
          (<["user_id"%string :=
               ("user_" ++ replace_char "." "_" (replace_char "@" "_" email))%string]> sess)))
  else (LoginError 401 "Invalid email or password", sess).

(** [logout]: [session.clear()] and a redirect to the login page. *)
Definition logout (sess : session) : page_response * session :=
  (Redirect "login", ∅).

(** [api_update_profile]. The session is updated before
    [log_activity] is called, and that call is not guarded. *)
Definition api_update_profile (logging : faults) (now : Z) (sess : session) (t : tables)
    (data : profile_body) : profile_response * session * tables :=
  match sess !! "user_id"%string with
  | None => (ProfileReply 401 false "Not authenticated" None, sess, t)
  | Some _ =>
      let username := strip (default ""%string (profile_username data)) in
      let email := strip (default ""%string (profile_email data)) in
      if String.eqb username "" || String.eqb email "" then
        (ProfileReply 400 false "Username and email are required" None, sess, t)
      else
        let sess' := <["email"%string := email]> (<["username"%string := username]> sess) in
        match log_activity logging now t "profile_update" "User updated profile" (Some email) with
        | Ok (_, t') =>
            (ProfileReply 200 true "Profile updated successfully" (Some (username, email)),
             sess', t')
        | Raise e => (ProfileFailure e, sess', t)
        end
  end.

(** A page behind the login: the views [analytics] and [settings] differ
    in the logged description and in the template only. *)
Definition guarded_page (description template : string)
    (logging : faults) (now : Z) (sess : session) (t : tables) : page_response * tables :=
  match sess !! "user_id"%string with
  | None => (Redirect "login", t)
  | Some _ =>
      match log_activity logging now t "page_visit" description None with
      | Ok (_, t') => (Render template, t')
      | Raise e => (PageFailure e, t)
      end
  end.

(** The view [analytics]. *)
Definition analytics_page : faults -> Z -> session -> tables -> page_response * tables :=
  guarded_page "User visited analytics page" "analytics.html".

(** The view [settings]. *)
Definition settings_page : faults -> Z -> session -> tables -> page_response * tables :=
  guarded_page "User visited settings page" "settings.html".

End Routes.

End Auth.

Module AuthSpec.
Import App Auth.

(** The character [c] occurs in [s]. *)
Fixpoint occurs (c : ascii) (s : string) : Prop :=
  match s with
  | EmptyString => False
  | String d s' => d = c \/ occurs c s'
  end.

(** A [strip] for text without surrounding blanks, and a [title] that
    capitalises nothing; enough to run the routes on such text. *)
Definition plain (s : string) : string := s.

Definition visitor : login_body :=
  {| login_email := Some "ravi.k@shop.in"%string; login_password := Some "x"%string |}.

Definition visitor_session : session := snd (api_login plain plain ∅ visitor).

End AuthSpec.

(** * Properties *)

(** ** Binary64: rounding of the products the code computes *)

Module Binary64Facts.
Import Binary64.

(** *** Number of binary digits *)

Lemma digits2_pos_bounds (p : positive) :
  2 ^ (Zpos (digits2_pos p) - 1) <= Zpos p < 2 ^ Zpos (digits2_pos p).
Proof.
  induction p as [p IH | p IH | ]; cbn [digits2_pos].
  - rewrite Pos2Z.inj_succ, Z.pow_succ_r by lia.
    replace (Z.succ (Zpos (digits2_pos p)) - 1)
      with (Z.succ (Zpos (digits2_pos p) - 1)) by lia.
    rewrite Z.pow_succ_r by lia. lia.
  - rewrite Pos2Z.inj_succ, Z.pow_succ_r by lia.
    replace (Z.succ (Zpos (digits2_pos p)) - 1)
      with (Z.succ (Zpos (digits2_pos p) - 1)) by lia.
    rewrite Z.pow_succ_r by lia. lia.
  - cbn. lia.
Qed.

Lemma Zdigits2_unique (m d : Z) :
  2 ^ (d - 1) <= m < 2 ^ d -> 0 < m -> Zdigits2 m = d.
Proof.
  intros Hb Hm. destruct m as [ | p | p]; try lia. cbn [Zdigits2].
  pose proof (digits2_pos_bounds p) as Hp.
  set (k := Zpos (digits2_pos p)) in *.
  assert (0 < d).
  { destruct (Z_lt_le_dec 0 d); auto.
    rewrite (Z.pow_neg_r 2 (d - 1)) in Hb by lia.
    assert (2 ^ d <= 1).
    { destruct (Z.eq_dec d 0) as [-> | ]; [cbn; lia | ].
      rewrite Z.pow_neg_r by lia. lia. }
    lia. }
  destruct (Z_lt_le_dec k d), (Z_lt_le_dec d k); try lia.
  - assert (2 ^ k <= 2 ^ (d - 1)) by (apply Z.pow_le_mono_r; lia). lia.
  - assert (2 ^ d <= 2 ^ (k - 1)) by (apply Z.pow_le_mono_r; lia). lia.
Qed.

(** *** Right shifts keep track of the discarded bits *)

Lemma shifted_init M : 0 <= M -> shifted M 0 (shr_record_of_loc M loc_Exact).
Proof.
  intros. unfold shifted; cbn. rewrite Z.div_1_r, Z.mod_1_r. repeat split; lia.
Qed.

Lemma shr_1_fields mrs :
  0 <= shr_m mrs ->
  shr_m (shr_1 mrs) = shr_m mrs / 2 /\
  Z.b2z (shr_r (shr_1 mrs)) = shr_m mrs mod 2 /\
  shr_s (shr_1 mrs) = shr_r mrs || shr_s mrs.
Proof.
  destruct mrs as [m r s]; cbn [shr_m shr_r shr_s]. intros Hm.
  destruct m as [ | [p | p | ] | p]; try lia; cbn [shr_1 shr_m shr_r shr_s Z.b2z].
  - repeat split.
  - rewrite Pos2Z.inj_xI. split; [ | split]; auto.
    + apply Z.div_unique with 1; lia.
    + apply Z.mod_unique with (Zpos p); lia.
  - rewrite Pos2Z.inj_xO. split; [ | split]; auto.
    + apply Z.div_unique with 0; lia.
    + apply Z.mod_unique with (Zpos p); lia.
  - repeat split.
Qed.

Lemma shifted_step M q mrs :
  0 <= M -> shifted M q mrs -> shifted M (q + 1) (shr_1 mrs).
Proof.
  intros HM (Hq & Hm & Hr & Hs).
  assert (Hpos : 0 < 2 ^ q) by (apply Z.pow_pos_nonneg; lia).
  assert (Hm0 : 0 <= shr_m mrs) by (rewrite Hm; apply Z.div_pos; lia).
  destruct (shr_1_fields mrs Hm0) as (Em & Er & Es).
  pose proof (Z.div_mod M (2 ^ q) ltac:(lia)) as HD.
  pose proof (Z.mod_pos_bound M (2 ^ q) Hpos) as HB.
  pose proof (Z.div_mod (shr_m mrs) 2 ltac:(lia)) as HD2.
  pose proof (Z.mod_pos_bound (shr_m mrs) 2 ltac:(lia)) as HB2.
  rewrite <- Hm in HD.
  set (m := shr_m mrs) in *. set (rem := M mod 2 ^ q) in *.
  set (P := 2 ^ q) in *.
  assert (EP : 2 ^ (q + 1) = 2 * P) by (unfold P; rewrite Z.pow_add_r by lia; lia).
  assert (Ediv : M / 2 ^ (q + 1) = m / 2).
  { rewrite EP. symmetry. apply Z.div_unique with (rem + P * (m mod 2)); nia. }
  assert (Emod : M mod 2 ^ (q + 1) = rem + P * (m mod 2)).
  { rewrite EP. symmetry. apply Z.mod_unique with (m / 2); nia. }
  unfold shifted. rewrite Em, Er, Es, Ediv, Emod, EP.
  split; [lia | ]. split; [reflexivity | ]. split; [nia | ].
  rewrite orb_false_iff.
  destruct (shr_r mrs), (shr_s mrs); cbn [Z.b2z] in *; split; intros;
    try (intuition congruence); try nia.
Qed.

Lemma shifted_iter M (HM : 0 <= M) (p : positive) :
  forall q mrs, shifted M q mrs -> shifted M (q + Zpos p) (SpecFloat.iter_pos shr_1 p mrs).
Proof.
  induction p as [p IH | p IH | ]; intros q mrs H; cbn [SpecFloat.iter_pos].
  - replace (q + Zpos p~1) with (q + 1 + Zpos p + Zpos p) by lia.
    apply IH, IH, shifted_step; assumption.
  - replace (q + Zpos p~0) with (q + Zpos p + Zpos p) by lia.
    apply IH, IH; assumption.
  - apply shifted_step; assumption.
Qed.

Lemma shifted_shr M (HM : 0 <= M) e k :
  0 <= k ->
  exists mrs, shr (shr_record_of_loc M loc_Exact) e k = (mrs, e + k) /\ shifted M k mrs.
Proof.
  intros Hk. destruct k as [ | p | p]; try lia; cbn [shr].
  - eexists; split; [f_equal; lia | apply shifted_init; assumption].
  - eexists; split; [reflexivity | ].
    apply (shifted_iter M HM p 0), shifted_init; assumption.
Qed.

(** Rounding to nearest even moves the shifted mantissa by at most half
    a unit, upwards. *)
Lemma round_nearest_even_bounds M q mrs :
  0 <= M -> shifted M q mrs ->
  let mr := round_nearest_even (shr_m mrs) (loc_of_shr_record mrs) in
  M / 2 ^ q <= mr /\ 2 * mr * 2 ^ q <= 2 * M + 2 ^ q.
Proof.
  intros HM (Hq & Hm & Hr & Hs).
  assert (Hpos : 0 < 2 ^ q) by (apply Z.pow_pos_nonneg; lia).
  pose proof (Z.div_mod M (2 ^ q) ltac:(lia)) as HD.
  pose proof (Z.mod_pos_bound M (2 ^ q) Hpos) as HB.
  rewrite <- Hm in *.
  destruct mrs as [m r s]; cbn [shr_m shr_r shr_s] in *.
  destruct r, s; cbn [loc_of_shr_record round_nearest_even Z.b2z] in *;
    try destruct (Z.even m); split; nia.
Qed.

(** *** One rounding step of [binary_round_aux] on a positive mantissa *)

Lemma binary_round_aux_spec sx M e k :
  0 <= k -> 2 ^ (52 + k) <= M < 2 ^ (53 + k) ->
  -1074 <= e + k -> e + k + 1 <= 971 ->
  exists m c,
    binary_round_aux prec emax sx M e loc_Exact = S754_finite sx m (e + k + c) /\
    0 <= c <= 1 /\
    2 ^ 52 <= Zpos m < 2 ^ 53 /\
    M / 2 ^ k <= Zpos m * 2 ^ c /\
    2 * (Zpos m * 2 ^ c) * 2 ^ k <= 2 * M + 2 ^ k.
Proof.
  intros Hk HM He1 He2.
  assert (Hpk : 0 < 2 ^ k) by (apply Z.pow_pos_nonneg; lia).
  assert (HM0 : 0 < M).
  { assert (0 < 2 ^ (52 + k)) by (apply Z.pow_pos_nonneg; lia). lia. }
  unfold binary_round_aux, shr_fexp.
  rewrite (Zdigits2_unique M (53 + k)) by (replace (53 + k - 1) with (52 + k) by lia; auto).
  replace (fexp prec emax (53 + k + e) - e) with k
    by (unfold fexp, emin, prec, emax; lia).
  destruct (shifted_shr M ltac:(lia) e k Hk) as (mrs & -> & Hsh).
  pose proof (round_nearest_even_bounds M k mrs ltac:(lia) Hsh) as [Hlo Hhi].
  set (mr := round_nearest_even (shr_m mrs) (loc_of_shr_record mrs)) in *.
  assert (E52 : 2 ^ (52 + k) = 2 ^ 52 * 2 ^ k) by (apply Z.pow_add_r; lia).
  assert (E53 : 2 ^ (53 + k) = 2 ^ 53 * 2 ^ k) by (apply Z.pow_add_r; lia).
  assert (Hq : 2 ^ 52 <= M / 2 ^ k) by (apply Z.div_le_lower_bound; lia).
  assert (Hmr : 2 ^ 52 <= mr <= 2 ^ 53) by (split; [lia | nia]).
  destruct (Z_lt_le_dec mr (2 ^ 53)) as [Hlt | Hge].
  - rewrite (Zdigits2_unique mr 53) by lia.
    replace (fexp prec emax (53 + (e + k)) - (e + k)) with 0
      by (unfold fexp, emin, prec, emax; lia).
    cbn [shr shr_record_of_loc shr_m].
    destruct mr as [ | m | m] eqn:Emr; try lia.
    replace (e + k <=? emax - prec) with true by (unfold emax, prec; symmetry; apply Z.leb_le; lia).
    exists m, 0. rewrite Z.add_0_r, Z.pow_0_r, Z.mul_1_r. repeat split; try lia.
  - assert (Emr : mr = 2 ^ 53) by lia.
    rewrite Emr.
    replace (Zdigits2 (2 ^ 53)) with 54 by reflexivity.
    replace (fexp prec emax (54 + (e + k)) - (e + k)) with 1
      by (unfold fexp, emin, prec, emax; lia).
    cbn [shr].
    change (shr_m (SpecFloat.iter_pos shr_1 1 (shr_record_of_loc (2 ^ 53) loc_Exact))) with (Zpos (Z.to_pos (2 ^ 52))).
    replace (e + k + 1 <=? emax - prec) with true by (unfold emax, prec; symmetry; apply Z.leb_le; lia).
    exists (Z.to_pos (2 ^ 52)), 1.
    change (Zpos (Z.to_pos (2 ^ 52)) * 2 ^ 1) with (2 ^ 53).
    rewrite <- Emr. repeat split; try lia; try (cbn; lia).
Qed.

(** *** Integers below [2^53] convert exactly *)

Lemma Pos_iter_xO (p d : positive) : Zpos (Pos.iter xO p d) = Zpos p * 2 ^ Zpos d.
Proof.
  induction d as [ | d IH] using Pos.peano_ind.
  - cbn. lia.
  - rewrite Pos.iter_succ, Pos2Z.inj_xO, IH, Pos2Z.inj_succ, Z.pow_succ_r by lia. lia.
Qed.

Lemma b64_of_Z_exact (n : Z) :
  0 < n < 2 ^ 53 ->
  exists j m, 0 <= j <= 52 /\ Zpos m = n * 2 ^ j /\ 2 ^ 52 <= Zpos m < 2 ^ 53 /\
              b64_of_Z n = S754_finite false m (- j).
Proof.
  intros Hn. destruct n as [ | p | p]; try lia.
  unfold b64_of_Z, binary_normalize, binary_round.
  pose proof (digits2_pos_bounds p) as Hd.
  set (d := Zpos (digits2_pos p)) in *.
  assert (Hd53 : 1 <= d <= 53).
  { split; [unfold d; lia|]. destruct (Z_lt_le_dec 53 d); [|lia].
    assert (2 ^ 53 <= 2 ^ (d - 1)) by (apply Z.pow_le_mono_r; lia). lia. }
  replace (fexp prec emax (d + 0)) with (d - 53) by (unfold fexp, emin, prec, emax; lia).
  assert (Epow : 2 ^ (d - 1) * 2 ^ (53 - d) = 2 ^ 52)
    by (rewrite <- Z.pow_add_r by lia; f_equal; lia).
  assert (Epow' : 2 ^ d * 2 ^ (53 - d) = 2 ^ 53)
    by (rewrite <- Z.pow_add_r by lia; f_equal; lia).
  assert (Hpj : 0 < 2 ^ (53 - d)) by (apply Z.pow_pos_nonneg; lia).
  assert (exists mz, shl_align p 0 (d - 53) = (mz, d - 53) /\ Zpos mz = Zpos p * 2 ^ (53 - d))
    as (mz & -> & Emz).
  { unfold shl_align. destruct (d - 53 - 0) as [ | q | q] eqn:E; try lia.
    - exists p. replace (d - 53) with 0 by lia. replace (53 - d) with 0 by lia.
      split; [reflexivity | lia].
    - exists (Pos.iter xO p q). split; [reflexivity|].
      rewrite Pos_iter_xO. f_equal. f_equal. lia. }
  destruct (binary_round_aux_spec false (Zpos mz) (d - 53) 0) as (m & c & -> & Hc & Hm & Hlo & Hhi);
    try lia.
  { rewrite Emz. cbn [Z.add]. change (52 + 0) with 52. change (53 + 0) with 53. nia. }
  rewrite Z.pow_0_r, Z.div_1_r in *.
  assert (c = 0).
  { destruct (Z.eq_dec c 0); auto. replace c with 1 in * by lia. change (2 ^ 1) with 2 in *. nia. }
  subst c. rewrite Z.pow_0_r in *.
  exists (53 - d), m. split; [lia|]. split; [lia|]. split; [lia|]. f_equal. lia.
Qed.

Lemma b64_mul_of_Z_spec (n : Z) (my : positive) (ey : Z) :
  0 < n < 2 ^ 53 -> 2 ^ 52 <= Zpos my < 2 ^ 53 -> -1074 <= ey <= 917 ->
  exists j k m c,
    0 <= j <= 52 /\ 2 ^ 52 <= n * 2 ^ j < 2 ^ 53 /\ 52 <= k <= 53 /\
    2 ^ (52 + k) <= n * 2 ^ j * Zpos my < 2 ^ (53 + k) /\
    0 <= c <= 1 /\ 2 ^ 52 <= Zpos m < 2 ^ 53 /\
    (n * 2 ^ j * Zpos my) / 2 ^ k <= Zpos m * 2 ^ c /\
    2 * (Zpos m * 2 ^ c) * 2 ^ k <= 2 * (n * 2 ^ j * Zpos my) + 2 ^ k /\
    b64_mul (b64_of_Z n) (S754_finite false my ey) = S754_finite false m (ey - j + k + c).
Proof.
  intros Hn Hmy Hey.
  destruct (b64_of_Z_exact n Hn) as (j & mx & Hj & Emx & Hmx & ->).
  unfold b64_mul, SFmul. cbn [xorb]. rewrite Pos2Z.inj_mul, Emx in *.
  set (M := n * 2 ^ j * Zpos my) in *.
  assert (HM : 2 ^ 104 <= M < 2 ^ 106).
  { unfold M. split.
    - change (2 ^ 104) with (2 ^ 52 * 2 ^ 52). apply Z.mul_le_mono_nonneg; lia.
    - change (2 ^ 106) with (2 ^ 53 * 2 ^ 53). apply Z.mul_lt_mono_nonneg; lia. }
  assert (exists k, 52 <= k <= 53 /\ 2 ^ (52 + k) <= M < 2 ^ (53 + k)) as (k & Hk & HMk).
  { destruct (Z_lt_le_dec M (2 ^ 105)); [exists 52 | exists 53]; cbn; lia. }
  destruct (binary_round_aux_spec false M (- j + ey) k) as (m & c & -> & Hc & Hm & Hlo & Hhi);
    try lia.
  exists j, k, m, c. repeat split; try lia; try exact Hlo; try exact Hhi.
  f_equal. lia.
Qed.

(** *** The two products the recommendation engine computes *)

(** [int(n * 0.2)] is [n // 5] for every [n] below [3 * 2^51]; this bound is
    sharp, see [b64_two_tenths_first_divergence]. *)
Lemma b64_mul_two_tenths_trunc (n : Z) :
  0 <= n < 3 * 2 ^ 51 ->
  b64_trunc (b64_mul (b64_of_Z n) b64_two_tenths) = Some (n / 5).
Proof.
  intros Hn. destruct (Z.eq_dec n 0) as [-> | Hn0]; [reflexivity|].
  unfold b64_two_tenths.
  destruct (b64_mul_of_Z_spec n 7205759403792794 (-55)) as
    (j & k & m & c & Hj & Hmx & Hk & HM & Hc & Hm & Hlo & Hhi & ->); try lia.
  assert (HJ : 0 < 2 ^ j) by (apply Z.pow_pos_nonneg; lia).
  cbn [b64_trunc cond_Zopp].
  replace (0 <=? -55 - j + k + c) with false by (symmetry; apply Z.leb_gt; lia).
  f_equal.
  pose proof (Z.div_mod n 5 ltac:(lia)) as Hdiv.
  pose proof (Z.mod_pos_bound n 5 ltac:(lia)) as Hmod.
  set (q := n / 5) in *. set (r := n mod 5) in *.
  set (J := 2 ^ j) in *.
  assert (ET : 2 ^ (- (-55 - j + k + c)) * 2 ^ c * 2 ^ k = J * 2 ^ 55).
  { unfold J. rewrite <- !Z.pow_add_r by lia. f_equal. lia. }
  assert (HT : 0 < 2 ^ (- (-55 - j + k + c))) by (apply Z.pow_pos_nonneg; lia).
  set (T := 2 ^ (- (-55 - j + k + c))) in *.
  assert (Hlo' : n * J * 7205759403792794 < (Zpos m * 2 ^ c + 1) * 2 ^ k).
  { assert (0 < 2 ^ k) by (apply Z.pow_pos_nonneg; lia).
    pose proof (Z.div_mod (n * J * 7205759403792794) (2 ^ k) ltac:(lia)).
    pose proof (Z.mod_pos_bound (n * J * 7205759403792794) (2 ^ k) ltac:(lia)). nia. }
  assert (Hc' : c = 0 \/ c = 1) by lia.
  assert (Hk' : k = 52 \/ k = 53) by lia.
  symmetry. apply Z.div_unique with (Zpos m - T * q).
  2: lia.
  left.
  destruct Hc' as [-> | ->], Hk' as [-> | ->];
    change (2 ^ 0) with 1 in *; change (2 ^ 1) with 2 in *;
    change (2 ^ 52) with 4503599627370496 in *;
    change (2 ^ 53) with 9007199254740992 in *;
    change (2 ^ 55) with 36028797018963968 in *;
    change (2 ^ 51) with 2251799813685248 in *;
    change (2 ^ (52 + 52)) with 20282409603651670423947251286016 in *;
    change (2 ^ (53 + 52)) with 40564819207303340847894502572032 in *;
    change (2 ^ (52 + 53)) with 40564819207303340847894502572032 in *;
    change (2 ^ (53 + 53)) with 81129638414606681695789005144064 in *.
  all: assert (EQJ : n * J = 5 * (q * J) + r * J) by nia.
  all: assert (HRJ : 0 <= r * J <= 4 * J) by nia.
  all: assert (HJ1 : (J = 1 /\ n * J = n /\ q * J = q) \/ 2 <= J)
    by (destruct (Z.eq_dec j 0) as [Ej | Ej];
        [ left; unfold J; rewrite Ej; cbn; lia
        | right; change 2 with (2 ^ 1); apply Z.pow_le_mono_r; lia ]).
  all: set (QJ := q * J) in *; set (RJ := r * J) in *.
  - assert (ETJ : T = 8 * J) by lia.
    replace (T * q) with (8 * QJ) by (rewrite ETJ; unfold QJ; ring). lia.
  - assert (ETJ : T = 4 * J) by lia.
    replace (T * q) with (4 * QJ) by (rewrite ETJ; unfold QJ; ring). lia.
  - assert (ETJ : T = 4 * J) by lia.
    replace (T * q) with (4 * QJ) by (rewrite ETJ; unfold QJ; ring). lia.
  - assert (ETJ : T = 2 * J) by lia.
    replace (T * q) with (2 * QJ) by (rewrite ETJ; unfold QJ; ring). lia.
Qed.

(** [n * 1.5] is exact as long as [3 * n] fits in 53 bits. *)
Lemma b64_mul_three_halves_exact (n : Z) :
  0 < n -> 3 * n < 2 ^ 53 ->
  exists m t, 1 <= t /\ 2 * Zpos m = 3 * n * 2 ^ t /\
              b64_mul (b64_of_Z n) b64_three_halves = S754_finite false m (- t).
Proof.
  intros Hn0 Hn. unfold b64_three_halves.
  destruct (b64_mul_of_Z_spec n 6755399441055744 (-52)) as
    (j & k & m & c & Hj & Hmx & Hk & HM & Hc & Hm & Hlo & Hhi & ->); try lia.
  assert (HJ : 0 < 2 ^ j) by (apply Z.pow_pos_nonneg; lia).
  assert (Hpk : 0 < 2 ^ k) by (apply Z.pow_pos_nonneg; lia).
  assert (Hlo' : n * 2 ^ j * 6755399441055744 < (Zpos m * 2 ^ c + 1) * 2 ^ k).
  { pose proof (Z.div_mod (n * 2 ^ j * 6755399441055744) (2 ^ k) ltac:(lia)).
    pose proof (Z.mod_pos_bound (n * 2 ^ j * 6755399441055744) (2 ^ k) ltac:(lia)). nia. }
  clear Hlo.
  set (t := 52 + j - k - c).
  assert (Ht0 : 0 <= t \/ t < 0) by lia.
  exists m, t.
  assert (Ej : j = 0 \/ j = 1 \/ 2 <= j) by lia.
  assert (Hc' : c = 0 \/ c = 1) by lia.
  assert (Hk' : k = 52 \/ k = 53) by lia.
  assert (Key : 1 <= t /\ 2 * Zpos m = 3 * n * 2 ^ t).
  { destruct Ej as [-> | [-> | Ej]].
    - exfalso. change (2 ^ 0) with 1 in *. lia.
    - change (2 ^ 1) with 2 in *.
      destruct Hc' as [-> | ->], Hk' as [-> | ->]; unfold t;
        change (2 ^ 0) with 1 in *; change (2 ^ 1) with 2 in *;
        change (2 ^ 52) with 4503599627370496 in *;
        change (2 ^ 53) with 9007199254740992 in *;
        change (2 ^ (52 + 52)) with 20282409603651670423947251286016 in *;
        change (2 ^ (53 + 52)) with 40564819207303340847894502572032 in *;
        change (2 ^ (52 + 53)) with 40564819207303340847894502572032 in *;
        change (2 ^ (53 + 53)) with 81129638414606681695789005144064 in *;
        try (exfalso; lia);
        match goal with |- context [2 ^ ?e] =>
          let v := eval vm_compute in (2 ^ e) in change (2 ^ e) with v end;
        lia.
    - assert (EJ : 2 ^ j = 4 * 2 ^ (j - 2)).
      { change 4 with (2 ^ 2). rewrite <- Z.pow_add_r by lia. f_equal. lia. }
      assert (HJ2 : 0 < 2 ^ (j - 2)) by (apply Z.pow_pos_nonneg; lia).
      assert (ET : 2 ^ t * 2 ^ c * 2 ^ k = 2 ^ (j - 2) * 2 ^ 54 \/ t < 0).
      { destruct Ht0; [left | right; assumption].
        unfold t. rewrite <- !Z.pow_add_r by lia. f_equal. lia. }
      rewrite EJ in *. set (J2 := 2 ^ (j - 2)) in *.
      set (NJ := n * J2) in *.
      replace (n * (4 * J2)) with (4 * NJ) in * by (unfold NJ; ring).
      destruct Hc' as [-> | ->], Hk' as [-> | ->]; fold t in ET |- *;
        change (2 ^ 0) with 1 in *; change (2 ^ 1) with 2 in *;
        change (2 ^ 52) with 4503599627370496 in *;
        change (2 ^ 53) with 9007199254740992 in *;
        change (2 ^ 54) with 18014398509481984 in *;
        change (2 ^ (52 + 52)) with 20282409603651670423947251286016 in *;
        change (2 ^ (53 + 52)) with 40564819207303340847894502572032 in *;
        change (2 ^ (52 + 53)) with 40564819207303340847894502572032 in *;
        change (2 ^ (53 + 53)) with 81129638414606681695789005144064 in *.
      all: destruct ET as [ET | ET]; [ | exfalso; unfold t in ET; lia ].
      all: split; [ unfold t; lia | ].
      + assert (2 ^ t = 4 * J2) by lia.
        replace (3 * n * 2 ^ t) with (12 * NJ) by (unfold NJ; nia). lia.
      + assert (2 ^ t = 2 * J2) by lia.
        replace (3 * n * 2 ^ t) with (6 * NJ) by (unfold NJ; nia). lia.
      + assert (2 ^ t = 2 * J2) by lia.
        replace (3 * n * 2 ^ t) with (6 * NJ) by (unfold NJ; nia). lia.
      + assert (2 ^ t = J2) by lia.
        replace (3 * n * 2 ^ t) with (3 * NJ) by (unfold NJ; nia). lia. }
  destruct Key as [Ht Key]. split; [assumption|]. split; [assumption|].
  f_equal. unfold t. lia.
Qed.

(** *** Consequences for Python's operators *)

Lemma py_float_of_int_exact (n : Z) :
  0 <= n < 2 ^ 53 -> py_float_of_int n = Ok (b64_of_Z n).
Proof.
  intros Hn. unfold py_float_of_int.
  destruct (Z.eq_dec n 0) as [-> | Hn0]; [reflexivity | ].
  destruct (b64_of_Z_exact n ltac:(lia)) as (j & m & _ & _ & _ & ->). reflexivity.
Qed.

Lemma py_int_of_mul_two_tenths (n : Z) :
  0 <= n < 3 * 2 ^ 51 -> py_int_of_mul n b64_two_tenths = Ok (n / 5).
Proof.
  intros Hn. unfold py_int_of_mul, py_mul_int_float.
  rewrite py_float_of_int_exact by lia. cbn [mbind res_bind].
  pose proof (b64_mul_two_tenths_trunc n Hn) as H.
  unfold py_int_of_float.
  destruct (b64_mul (b64_of_Z n) b64_two_tenths); cbn in H |- *;
    try discriminate; injection H as <-; reflexivity.
Qed.

Lemma py_mul_three_halves (n : Z) :
  0 <= n -> 3 * n < 2 ^ 53 ->
  exists f, py_mul_int_float n b64_three_halves = Ok f /\
            py_int_of_float f = Ok (3 * n / 2) /\
            forall cs, py_int_gt_float cs f = (3 * n <? 2 * cs).
Proof.
  intros Hn0 Hn. unfold py_mul_int_float.
  rewrite py_float_of_int_exact by lia. cbn [mbind res_bind].
  eexists; split; [reflexivity | ].
  destruct (Z.eq_dec n 0) as [-> | Hne].
  { split; [reflexivity | ]. intros cs. cbn.
    destruct (Z.ltb_spec 0 cs), (Z.ltb_spec 0 (2 * cs)); try reflexivity; lia. }
  destruct (b64_mul_three_halves_exact n ltac:(lia) Hn) as (m & t & Ht & Key & ->).
  assert (HT : 0 < 2 ^ t) by (apply Z.pow_pos_nonneg; lia).
  unfold py_int_of_float, py_int_gt_float, b64_trunc, int_gt_b64. cbn [cond_Zopp].
  replace (0 <=? - t) with false by (symmetry; apply Z.leb_gt; lia).
  rewrite Z.opp_involutive. split.
  - f_equal. rewrite <- (Z.div_mul_cancel_l (Zpos m) (2 ^ t) 2) by lia.
    rewrite Key. replace (3 * n * 2 ^ t) with (3 * n * 2 ^ t + 0) by lia.
    replace (3 * n * 2 ^ t + 0) with (2 ^ t * (3 * n)) by lia.
    replace (2 * 2 ^ t) with (2 ^ t * 2) by lia.
    apply Z.div_mul_cancel_l; lia.
  - intros cs.
    destruct (Z.ltb_spec (Zpos m) (cs * 2 ^ t)), (Z.ltb_spec (3 * n) (2 * cs));
      try reflexivity; exfalso; nia.
Qed.

(** Results of rounding carry the sign they were given. *)
Lemma binary_round_aux_sign sx mx ex lx :
  sign_is sx (binary_round_aux prec emax sx mx ex lx).
Proof.
  unfold binary_round_aux.
  destruct (shr_fexp prec emax mx ex lx) as [mrs' e'].
  destruct (shr_fexp prec emax _ e' loc_Exact) as [mrs'' e''].
  destruct (shr_m mrs''); cbn; auto.
  destruct (e'' <=? emax - prec); cbn; auto.
Qed.

Lemma b64_of_Z_sign (n : Z) : 0 <= n -> sign_is false (b64_of_Z n).
Proof.
  intros Hn. destruct n as [ | p | p]; try lia; cbn; auto.
  unfold binary_round. destruct (shl_align _ _ _) as [mz ez].
  apply binary_round_aux_sign.
Qed.

Lemma py_int_of_mul_nonneg (n : Z) (my : positive) (ey z : Z) :
  0 <= n -> py_int_of_mul n (S754_finite false my ey) = Ok z -> 0 <= z.
Proof.
  intros Hn. unfold py_int_of_mul, py_mul_int_float, py_float_of_int.
  pose proof (b64_of_Z_sign n Hn) as Hs.
  destruct (b64_of_Z n) as [s | s | | s m e]; cbn in Hs |- *; try discriminate; subst s.
  - intros [= <-]. lia.
  - pose proof (binary_round_aux_sign false (Zpos (m * my)) (e + ey) loc_Exact) as Hr.
    destruct (binary_round_aux _ _ _ _ _ _) as [s | s | | s m' e'];
      cbn in Hr |- *; try discriminate.
    + intros [= <-]. lia.
    + subst s. cbn [cond_Zopp]. intros [= <-].
      destruct (Z.leb_spec 0 e').
      * assert (0 <= 2 ^ e') by (apply Z.pow_nonneg; lia). lia.
      * apply Z.div_pos; [lia | ]. apply Z.pow_pos_nonneg; lia.
Qed.

(** Beyond [3 * 2^51] the binary64 product can land on the next integer. *)
Lemma b64_two_tenths_first_divergence :
  py_int_of_mul (3 * 2 ^ 51) b64_two_tenths = Ok ((3 * 2 ^ 51) / 5 + 1).
Proof. vm_compute. reflexivity. Qed.


(** *** The products stay finite far beyond the exact range *)

Lemma b64_of_Z_finite (n D : Z) :
  53 <= D <= 1023 -> 0 < n < 2 ^ D ->
  exists m e, b64_of_Z n = S754_finite false m e /\
              2 ^ 52 <= Zpos m < 2 ^ 53 /\ -52 <= e <= D - 52.
Proof.
  intros HD Hn.
  destruct (Z_lt_le_dec n (2 ^ 53)) as [Hsmall | Hbig].
  { destruct (b64_of_Z_exact n ltac:(lia)) as (j & m & Hj & _ & Hm & ->).
    exists m, (- j). split; [reflexivity | ]. split; [exact Hm | lia]. }
  destruct n as [ | p | p]; try lia.
  unfold b64_of_Z, binary_normalize, binary_round.
  pose proof (digits2_pos_bounds p) as Hd.
  set (d := Zpos (digits2_pos p)) in *.
  assert (Hd53 : 54 <= d <= D).
  { split.
    - destruct (Z_lt_le_dec d 54); [ | lia].
      assert (2 ^ d <= 2 ^ 53) by (apply Z.pow_le_mono_r; lia). lia.
    - destruct (Z_lt_le_dec D d); [ | lia].
      assert (2 ^ D <= 2 ^ (d - 1)) by (apply Z.pow_le_mono_r; lia). lia. }
  replace (fexp prec emax (d + 0)) with (d - 53) by (unfold fexp, emin, prec, emax; lia).
  assert (Eal : shl_align p 0 (d - 53) = (p, 0)).
  { unfold shl_align. destruct (d - 53 - 0) eqn:E; try reflexivity. lia. }
  rewrite Eal.
  destruct (binary_round_aux_spec false (Zpos p) 0 (d - 53)) as (m & c & -> & Hc & Hm & _);
    try lia.
  { replace (52 + (d - 53)) with (d - 1) by lia. replace (53 + (d - 53)) with d by lia.
    exact Hd. }
  exists m, (0 + (d - 53) + c). split; [reflexivity | ]. split; [exact Hm | lia].
Qed.

Lemma b64_mul_finite (mx my : positive) (ex ey : Z) :
  2 ^ 52 <= Zpos mx < 2 ^ 53 -> 2 ^ 52 <= Zpos my < 2 ^ 53 ->
  -1126 <= ex + ey -> ex + ey <= 917 ->
  exists m e,
    b64_mul (S754_finite false mx ex) (S754_finite false my ey) = S754_finite false m e /\
    2 ^ 52 <= Zpos m < 2 ^ 53 /\ ex + ey + 52 <= e <= ex + ey + 54.
Proof.
  intros Hmx Hmy Hlo Hhi. unfold b64_mul, SFmul. cbn [xorb]. rewrite Pos2Z.inj_mul.
  set (M := Zpos mx * Zpos my).
  assert (HM : 2 ^ 104 <= M < 2 ^ 106).
  { unfold M. split.
    - change (2 ^ 104) with (2 ^ 52 * 2 ^ 52). apply Z.mul_le_mono_nonneg; lia.
    - change (2 ^ 106) with (2 ^ 53 * 2 ^ 53). apply Z.mul_lt_mono_nonneg; lia. }
  assert (exists k, 52 <= k <= 53 /\ 2 ^ (52 + k) <= M < 2 ^ (53 + k)) as (k & Hk & HMk).
  { destruct (Z_lt_le_dec M (2 ^ 105)); [exists 52 | exists 53]; cbn; lia. }
  destruct (binary_round_aux_spec false M (ex + ey) k) as (m & c & -> & Hc & Hm & _);
    try lia.
  exists m, (ex + ey + k + c). split; [reflexivity | ]. split; [exact Hm | lia].
Qed.

Lemma b64_trunc_bound (m : positive) (e : Z) :
  Zpos m < 2 ^ 53 ->
  exists z, b64_trunc (S754_finite false m e) = Some z /\ 0 <= z < 2 ^ Z.max 53 (53 + e).
Proof.
  intros Hm. cbn [b64_trunc cond_Zopp]. eexists. split; [reflexivity | ].
  destruct (Z.leb_spec 0 e) as [He | He].
  - rewrite Z.max_r by lia. rewrite Z.pow_add_r by lia.
    assert (0 < 2 ^ e) by (apply Z.pow_pos_nonneg; lia). nia.
  - rewrite Z.max_l by lia.
    assert (0 < 2 ^ (- e)) by (apply Z.pow_pos_nonneg; lia).
    split; [apply Z.div_pos; lia | ].
    apply Z.div_lt_upper_bound; [lia | ]. nia.
Qed.

(** [int(n * f)] returns for a normal positive [f] of moderate exponent,
    and the result has at most [max 53 (D + ey + 55)] bits. *)
Lemma py_int_of_mul_total (n D : Z) (my : positive) (ey : Z) :
  53 <= D <= 1023 -> 0 <= n < 2 ^ D ->
  2 ^ 52 <= Zpos my < 2 ^ 53 -> -1074 <= ey -> D + ey <= 969 ->
  exists z, py_int_of_mul n (S754_finite false my ey) = Ok z /\
            0 <= z < 2 ^ Z.max 53 (D + ey + 55).
Proof.
  intros HD Hn Hmy Hey1 Hey2. unfold py_int_of_mul, py_mul_int_float, py_float_of_int.
  destruct (Z.eq_dec n 0) as [-> | Hn0].
  { exists 0. split; [reflexivity | ].
    assert (0 < 2 ^ Z.max 53 (D + ey + 55)) by (apply Z.pow_pos_nonneg; lia). lia. }
  destruct (b64_of_Z_finite n D HD ltac:(lia)) as (m & e & -> & Hm & He).
  cbn [mbind res_bind].
  destruct (b64_mul_finite m my e ey Hm Hmy ltac:(lia) ltac:(lia)) as (m' & e' & -> & Hm' & He').
  destruct (b64_trunc_bound m' e' ltac:(lia)) as (z & Hz & Hzb).
  exists z. unfold py_int_of_float. rewrite Hz. split; [reflexivity | ].
  split; [lia | ].
  assert (2 ^ Z.max 53 (53 + e') <= 2 ^ Z.max 53 (D + ey + 55))
    by (apply Z.pow_le_mono_r; lia).
  lia.
Qed.

Lemma py_mul_int_float_total (n D : Z) (f : spec_float) :
  53 <= D <= 1023 -> 0 <= n < 2 ^ D -> exists x, py_mul_int_float n f = Ok x.
Proof.
  intros HD Hn. unfold py_mul_int_float, py_float_of_int.
  destruct (Z.eq_dec n 0) as [-> | Hn0]; [eexists; reflexivity | ].
  destruct (b64_of_Z_finite n D HD ltac:(lia)) as (m & e & -> & _).
  eexists; reflexivity.
Qed.

(** Beyond [2^53 / 3] the product with [1.5] is rounded as well. *)
Lemma b64_three_halves_beyond_range :
  py_int_of_mul (2 ^ 53 + 1) b64_three_halves = Ok (3 * (2 ^ 53 + 1) / 2 - 1).
Proof. vm_compute. reflexivity. Qed.

End Binary64Facts.

(** ** The recommendation engine *)

Module PredictorFacts.
Import Binary64 Binary64Facts Predictor Spec.

(** What every returned recommendation looks like, read off the code. *)
Lemma generate_recommendation_inv (cs pd : Z) (s : string) (r : Recommendation) :
  _generate_recommendation cs pd s = Ok r ->
  py_int_of_mul pd b64_two_tenths = Ok (safety_stock r) /\
  reorder_point r = pd /\
  optimal_level r = pd + safety_stock r /\
  required_stock r = optimal_level r /\
  stock_gap r = Z.max 0 (optimal_level r - cs) /\
  (cs < pd -> decision r = ADD_STOCK /\ quantity_action r = optimal_level r - cs) /\
  (pd <= cs ->
     exists th, py_mul_int_float (optimal_level r) b64_three_halves = Ok th /\
       (py_int_gt_float cs th = true ->
          decision r = REDUCE_STOCK /\ quantity_action r = cs - optimal_level r) /\
       (py_int_gt_float cs th = false ->
          decision r = MAINTAIN /\ quantity_action r = cs)).
Proof.
  unfold _generate_recommendation.
  destruct (py_int_of_mul pd b64_two_tenths) as [ss | e]; cbn [mbind res_bind]; [ | discriminate].
  destruct (Z.ltb_spec cs pd) as [Hlt | Hge].
  - intros [= <-]. cbn. repeat split; try lia.
  - destruct (py_mul_int_float (pd + ss) b64_three_halves) as [th | e] eqn:Eth;
      cbn [mbind res_bind]; [ | discriminate].
    destruct (py_int_gt_float cs th) eqn:Egt; intros [= <-]; cbn;
      repeat split; try lia; intros _; exists th; repeat split; congruence.
Qed.

Lemma two_tenths_floor (pd : Z) : pd * 2 / 10 = pd / 5.
Proof. change 10 with (5 * 2). apply Z.div_mul_cancel_r; lia. Qed.

(** The code computes the specification's recommendation whenever
    [optimal_level * 1.5] is exact in binary64. *)
Lemma generate_recommendation_refines (cs pd : Z) (s : string) :
  0 <= pd <= 2 ^ 51 ->
  _generate_recommendation cs pd s = Ok (recommend_spec cs pd).
Proof.
  intros Hpd. unfold _generate_recommendation, recommend_spec.
  rewrite py_int_of_mul_two_tenths by lia. cbn [mbind res_bind].
  rewrite two_tenths_floor.
  destruct (Z.ltb_spec cs pd) as [Hlt | Hge]; [reflexivity | ].
  assert (Hopt : 0 <= pd + pd / 5 /\ 3 * (pd + pd / 5) < 2 ^ 53).
  { pose proof (Z.div_mod pd 5 ltac:(lia)). pose proof (Z.mod_pos_bound pd 5 ltac:(lia)).
    change (2 ^ 53) with 9007199254740992. change (2 ^ 51) with 2251799813685248 in Hpd.
    lia. }
  destruct (py_mul_three_halves (pd + pd / 5)) as (th & -> & _ & Hcmp); try tauto.
  cbn [mbind res_bind]. rewrite Hcmp.
  destruct (3 * (pd + pd / 5) <? 2 * cs); reflexivity.
Qed.

(** Below [3 * 2^51] the call returns, with the exact safety stock. *)
Lemma generate_recommendation_returns (cs pd : Z) (s : string) :
  0 <= pd < 3 * 2 ^ 51 ->
  exists r, _generate_recommendation cs pd s = Ok r /\ safety_stock r = pd * 2 / 10.
Proof.
  intros Hpd. unfold _generate_recommendation.
  rewrite py_int_of_mul_two_tenths by lia. cbn [mbind res_bind].
  rewrite two_tenths_floor.
  destruct (cs <? pd); [eexists; split; reflexivity | ].
  unfold py_mul_int_float. rewrite py_float_of_int_exact.
  - cbn [mbind res_bind].
    destruct (py_int_gt_float cs _); eexists; split; reflexivity.
  - pose proof (Z.div_mod pd 5 ltac:(lia)). pose proof (Z.mod_pos_bound pd 5 ltac:(lia)).
    change (2 ^ 53) with 9007199254740992. change (2 ^ 51) with 2251799813685248 in Hpd.
    lia.
Qed.

(** The call returns for every demand below [2^1020]; beyond the range of
    binary64 the conversion of the integer raises [OverflowError]. *)
Lemma generate_recommendation_total (cs pd : Z) (s : string) :
  0 <= pd < 2 ^ 1020 -> exists r, _generate_recommendation cs pd s = Ok r.
Proof.
  intros Hpd. unfold _generate_recommendation, b64_two_tenths.
  destruct (py_int_of_mul_total pd 1020 7205759403792794 (-55))
    as (ss & -> & Hss); try lia.
  cbn [mbind res_bind].
  destruct (cs <? pd); [eexists; reflexivity | ].
  change (Z.max 53 (1020 + -55 + 55)) with 1020 in Hss.
  assert (Hopt : 0 <= pd + ss < 2 ^ 1021)
    by (change (2 ^ 1021) with (2 * 2 ^ 1020); lia).
  destruct (py_mul_int_float_total (pd + ss) 1021 b64_three_halves ltac:(lia) Hopt)
    as (th & ->).
  cbn [mbind res_bind]. destruct (py_int_gt_float cs th); eexists; reflexivity.
Qed.

(** C1. For non-negative [current_stock] and [predicted_demand], every
    recommendation the engine returns has [safety_stock] equal to the
    truncated product [int(predicted_demand * 0.2)],
    [reorder_point = predicted_demand],
    [optimal_level = predicted_demand + safety_stock],
    [required_stock = optimal_level] and
    [stock_gap = max(0, optimal_level - current_stock)]. The call returns
    for every [predicted_demand < 2^1020], and for
    [predicted_demand < 3 * 2^51] the truncated product is exactly
    [floor(predicted_demand * 2 / 10)]. *)
Theorem recommendation_invariant (cs pd : Z) (s : string) :
  0 <= cs -> 0 <= pd ->
  (forall r, _generate_recommendation cs pd s = Ok r ->
     py_int_of_mul pd b64_two_tenths = Ok (safety_stock r) /\
     reorder_point r = pd /\
     optimal_level r = pd + safety_stock r /\
     required_stock r = optimal_level r /\
     stock_gap r = Z.max 0 (optimal_level r - cs)) /\
  (pd < 2 ^ 1020 -> exists r, _generate_recommendation cs pd s = Ok r) /\
  (pd < 3 * 2 ^ 51 ->
     exists r, _generate_recommendation cs pd s = Ok r /\
       safety_stock r = pd * 2 / 10 /\
       reorder_point r = pd /\
       optimal_level r = pd + safety_stock r /\
       required_stock r = optimal_level r /\
       stock_gap r = Z.max 0 (optimal_level r - cs)).
Proof.
  intros Hcs Hpd. split; [ | split].
  - intros r Hr. destruct (generate_recommendation_inv _ _ _ _ Hr) as (H1 & H2 & H3 & H4 & H5 & _).
    auto.
  - intros Hlt. apply generate_recommendation_total. lia.
  - intros Hlt. destruct (generate_recommendation_returns cs pd s ltac:(lia)) as (r & Hr & Hs).
    exists r. destruct (generate_recommendation_inv _ _ _ _ Hr) as (H1 & H2 & H3 & H4 & H5 & _).
    auto 10.
Qed.

Lemma recommendation_invariant_witness :
  (0 <= 50 /\ 0 <= 200 /\ 200 < 3 * 2 ^ 51) /\
  exists r, _generate_recommendation 50 200 "Summer" = Ok r /\
    safety_stock r = 40 /\ reorder_point r = 200 /\ optimal_level r = 240 /\
    required_stock r = 240 /\ stock_gap r = 190.
Proof.
  split; [cbn; lia | ].
  destruct (recommendation_invariant 50 200 "Summer" ltac:(lia) ltac:(lia)) as (_ & _ & H).
  destruct (H ltac:(cbn; lia)) as (r & Hr & H1 & H2 & H3 & H4 & H5).
  exists r. rewrite H5, H4, H3, H2, H1. repeat split; try assumption; reflexivity.
Defined.

(** C2. The decision is taken by two strict comparisons, in this order:
    [current_stock < reorder_point] gives ADD_STOCK with
    [quantity_action = optimal_level - current_stock]; otherwise
    [current_stock > optimal_level * 1.5] gives REDUCE_STOCK with
    [quantity_action = current_stock - optimal_level]; otherwise MAINTAIN
    with [quantity_action = current_stock]. The product is the binary64
    one of the code, and for [predicted_demand <= 2^51] it is exact, so
    that the second test is [2 * current_stock > 3 * optimal_level]. In
    particular [current_stock = reorder_point] is never ADD_STOCK,
    [recommend(181, 100)] is REDUCE_STOCK with quantity 61 and
    [recommend(180, 100)] is MAINTAIN. *)
Theorem decision_rule (cs pd : Z) (s : string) :
  0 <= cs -> 0 <= pd ->
  (forall r, _generate_recommendation cs pd s = Ok r ->
     (cs < reorder_point r ->
        decision r = ADD_STOCK /\ quantity_action r = optimal_level r - cs) /\
     (reorder_point r <= cs ->
        exists th, py_mul_int_float (optimal_level r) b64_three_halves = Ok th /\
          (py_int_gt_float cs th = true ->
             decision r = REDUCE_STOCK /\ quantity_action r = cs - optimal_level r) /\
          (py_int_gt_float cs th = false ->
             decision r = MAINTAIN /\ quantity_action r = cs))) /\
  (pd < 2 ^ 1020 -> exists r, _generate_recommendation cs pd s = Ok r) /\
  (pd <= 2 ^ 51 ->
     exists r, _generate_recommendation cs pd s = Ok r /\
       (cs < reorder_point r ->
          decision r = ADD_STOCK /\ quantity_action r = optimal_level r - cs) /\
       (reorder_point r <= cs -> 2 * cs > 3 * optimal_level r ->
          decision r = REDUCE_STOCK /\ quantity_action r = cs - optimal_level r) /\
       (reorder_point r <= cs -> 2 * cs <= 3 * optimal_level r ->
          decision r = MAINTAIN /\ quantity_action r = cs) /\
       (cs = reorder_point r -> decision r <> ADD_STOCK)) /\
  (exists r, _generate_recommendation 181 100 s = Ok r /\
     decision r = REDUCE_STOCK /\ quantity_action r = 61) /\
  (exists r, _generate_recommendation 180 100 s = Ok r /\
     decision r = MAINTAIN /\ quantity_action r = 180).
Proof.
  intros Hcs Hpd. split; [ | split; [ | split; [ | split]]].
  - intros r Hr.
    destruct (generate_recommendation_inv _ _ _ _ Hr) as (_ & H2 & _ & _ & _ & Hadd & Hrest).
    rewrite H2. split; assumption.
  - intros Hlt. apply generate_recommendation_total. lia.
  - intros Hle. exists (recommend_spec cs pd).
    split; [apply generate_recommendation_refines; lia | ].
    unfold recommend_spec.
    destruct (Z.ltb_spec cs pd); [ | destruct (Z.ltb_spec (3 * (pd + pd * 2 / 10)) (2 * cs))];
      cbn; repeat split; intros; try lia; discriminate.
  - exists (recommend_spec 181 100).
    split; [apply generate_recommendation_refines; cbn; lia | split; reflexivity].
  - exists (recommend_spec 180 100).
    split; [apply generate_recommendation_refines; cbn; lia | split; reflexivity].
Qed.

Lemma decision_rule_witness :
  (0 <= 250 /\ 0 <= 100 /\ 100 <= 2 ^ 51) /\
  exists r, _generate_recommendation 250 100 "Summer" = Ok r /\
    decision r = REDUCE_STOCK /\ quantity_action r = 130.
Proof.
  split; [cbn; lia | ].
  destruct (decision_rule 250 100 "Summer" ltac:(lia) ltac:(lia)) as (_ & _ & H & _).
  destruct (H ltac:(cbn; lia)) as (r & Hr & _ & Hred & _).
  exists r. split; [exact Hr | ].
  assert (Hrp : reorder_point r = 100 /\ optimal_level r = 120).
  { vm_compute in Hr. injection Hr as <-. split; reflexivity. }
  destruct Hrp as [Hrp Hopt].
  destruct Hred as [Hd Hq]; rewrite ?Hrp, ?Hopt; try lia.
  split; [exact Hd | rewrite Hq, Hopt; reflexivity].
Defined.

(** Beyond the exact range the binary64 threshold is a rounded one: here
    [optimal_level * 1.5] is [4503599627370499.5] and rounds up to the
    stock, which therefore does not exceed it. *)
Lemma decision_rule_rounded_threshold :
  exists r, _generate_recommendation 4503599627370500 2501999792983611 "" = Ok r /\
    decision r = MAINTAIN /\ optimal_level r = 3002399751580333 /\
    2 * 4503599627370500 > 3 * optimal_level r.
Proof. eexists. split; [vm_compute; reflexivity | ]. cbn. repeat split. Qed.

(** C7, as the code has it. With [predicted_demand = 0] and
    [current_stock >= 0] the engine returns [safety_stock = 0] and
    [optimal_level = 0] and never ADD_STOCK; [current_stock = 0] gives
    MAINTAIN with [quantity_action = 0], and [current_stock > 0] gives
    REDUCE_STOCK with [quantity_action = current_stock]. Whenever the
    engine returns ADD_STOCK for [current_stock >= 0], [quantity_action > 0]. *)
Theorem zero_demand_and_add_stock (cs : Z) (s : string) :
  0 <= cs ->
  (exists r, _generate_recommendation cs 0 s = Ok r /\
     safety_stock r = 0 /\ optimal_level r = 0 /\ decision r <> ADD_STOCK /\
     (cs = 0 -> decision r = MAINTAIN /\ quantity_action r = 0) /\
     (0 < cs -> decision r = REDUCE_STOCK /\ quantity_action r = cs)) /\
  (forall pd r, _generate_recommendation cs pd s = Ok r ->
     decision r = ADD_STOCK -> quantity_action r > 0).
Proof.
  intros Hcs. split.
  - exists (recommend_spec cs 0).
    split; [apply generate_recommendation_refines; cbn; lia | ].
    unfold recommend_spec. change (0 + 0 * 2 / 10) with 0. change (0 * 2 / 10) with 0.
    destruct (Z.ltb_spec cs 0); [lia | ].
    destruct (Z.ltb_spec (3 * 0) (2 * cs)); cbn;
      repeat split; intros; try lia; try discriminate; try reflexivity.
  - intros pd r Hr Hadd.
    destruct (generate_recommendation_inv _ _ _ _ Hr) as (Hs & _ & Ho & _ & _ & Ha & Hrest).
    destruct (Z_lt_le_dec cs pd) as [Hlt | Hge].
    + destruct (Ha Hlt) as [_ ->]. rewrite Ho.
      unfold b64_two_tenths in Hs.
      pose proof (py_int_of_mul_nonneg pd _ _ _ ltac:(lia) Hs). lia.
    + destruct (Hrest Hge) as (th & _ & H1 & H2).
      destruct (py_int_gt_float cs th);
        [destruct (H1 eq_refl) as [E _] | destruct (H2 eq_refl) as [E _]]; congruence.
Qed.

Lemma zero_demand_and_add_stock_witness :
  0 <= 5 /\
  exists r, _generate_recommendation 5 0 "Regular" = Ok r /\
    decision r = REDUCE_STOCK /\ quantity_action r = 5.
Proof.
  split; [lia | ].
  destruct (zero_demand_and_add_stock 5 "Regular" ltac:(lia)) as [(r & Hr & _ & _ & _ & _ & H) _].
  exists r. split; [exact Hr | apply H; lia].
Defined.

(** The claim's "any current_stock >= 0 is MAINTAIN when predicted_demand
    = 0" fails: five units in stock and no demand is REDUCE_STOCK. *)
Lemma zero_demand_not_always_maintain :
  (exists r, _generate_recommendation 5 0 "" = Ok r /\
     decision r = REDUCE_STOCK /\ quantity_action r = 5) /\
  ~ (forall cs s, 0 <= cs ->
       exists r, _generate_recommendation cs 0 s = Ok r /\ decision r = MAINTAIN).
Proof.
  split.
  - eexists. split; [vm_compute; reflexivity | split; reflexivity].
  - intros H. destruct (H 5 ""%string ltac:(lia)) as (r & Hr & Hd).
    vm_compute in Hr. injection Hr as <-. discriminate Hd.
Qed.

End PredictorFacts.

(** ** The lookup tables and the two prediction paths *)

Module TableFacts.
Import Binary64 Binary64Facts Predictor Spec PredictorFacts Examples.

Ltac table_lookup :=
  cbn [list_to_map foldr uncurry fst snd];
  repeat first
    [ rewrite lookup_insert_eq
    | rewrite lookup_insert_ne by congruence
    | rewrite lookup_empty ].

Ltac case_key s k :=
  destruct (String.eqb_spec s k) as [-> | ?].

Lemma seasonal_factors_lookup (sn : string) :
  default (tenths 10) (seasonal_factors !! sn) = tenths (fallback_factor_tenths sn).
Proof.
  unfold seasonal_factors, fallback_factor_tenths.
  case_key sn "Summer"%string; [table_lookup; reflexivity | ].
  case_key sn "Winter"%string; [table_lookup; reflexivity | ].
  case_key sn "Monsoon"%string; [table_lookup; reflexivity | ].
  case_key sn "Regular"%string; [table_lookup; reflexivity | ].
  table_lookup. reflexivity.
Qed.

Lemma fallback_factor_cases (sn : string) :
  fallback_factor_tenths sn = 13 \/ fallback_factor_tenths sn = 9 \/
  fallback_factor_tenths sn = 12 \/ fallback_factor_tenths sn = 10.
Proof.
  unfold fallback_factor_tenths.
  repeat match goal with |- context [String.eqb ?a ?b] => destruct (String.eqb a b) end; auto.
Qed.

Lemma fallback_demand (sn : string) :
  py_int_of_mul 100 (tenths (fallback_factor_tenths sn)) =
    Ok (100 * fallback_factor_tenths sn / 10) /\
  0 <= 100 * fallback_factor_tenths sn / 10 <= 130.
Proof.
  destruct (fallback_factor_cases sn) as [-> | [-> | [-> | ->]]];
    (split; [vm_compute; reflexivity | vm_compute; split; discriminate]).
Qed.

Lemma find_absent (products : list Product) (name : string) :
  (forall p, In p products -> p_name p <> name) ->
  List.find (fun p => String.eqb (p_name p) name) products = None.
Proof.
  induction products as [ | p ps IH]; intros H; [reflexivity | ].
  cbn [List.find]. destruct (String.eqb_spec (p_name p) name) as [E | _].
  - exfalso. apply (H p); [left; reflexivity | exact E].
  - apply IH. intros q Hq. apply H. right. exact Hq.
Qed.

(** C4. A product name that is not in the catalog takes the fallback path:
    the factor comes from the season-only table (Summer 1.3, Winter 0.9,
    Monsoon 1.2, Regular 1.0, anything else 1.0), the demand is
    [floor(100 * factor)], the category is "Miscellaneous", the price 0
    and the unit "pack"; for instance ("Unknown Widget", 10, "Winter")
    gives demand 90, safety stock 18, optimal level 108, reorder point 90
    and ADD_STOCK with quantity 98. *)
Theorem unknown_product_fallback
    (self : InventoryPredictor) (name : string) (cs : Z) (sn : string) :
  (forall p, In p (products_data self) -> p_name p <> name) ->
  exists r, predict_stock_requirement self name cs sn = Ok r /\
    product r = name /\ category r = "Miscellaneous"%string /\
    current_stock r = cs /\ season r = sn /\
    seasonal_multiplier r = tenths (fallback_factor_tenths sn) /\
    predicted_demand r = 100 * fallback_factor_tenths sn / 10 /\
    price r = Int 0 /\ unit_name r = "pack"%string /\
    _generate_recommendation cs (predicted_demand r) sn = Ok (recommendation r) /\
    (sn = "Winter"%string -> cs = 10 ->
       predicted_demand r = 90 /\ safety_stock (recommendation r) = 18 /\
       optimal_level (recommendation r) = 108 /\ reorder_point (recommendation r) = 90 /\
       decision (recommendation r) = ADD_STOCK /\ quantity_action (recommendation r) = 98).
Proof.
  intros Habs. unfold predict_stock_requirement.
  rewrite (find_absent _ _ Habs). unfold _get_default_prediction.
  rewrite seasonal_factors_lookup.
  destruct (fallback_demand sn) as [-> Hb]. cbn [mbind res_bind].
  rewrite generate_recommendation_refines
    by (change (2 ^ 51) with 2251799813685248; lia).
  cbn [mbind res_bind]. eexists. split; [reflexivity | ]. cbn.
  repeat split; try reflexivity.
  - apply generate_recommendation_refines. change (2 ^ 51) with 2251799813685248; lia.
  - subst. reflexivity.
  - subst. reflexivity.
  - subst. reflexivity.
  - subst. reflexivity.
  - subst. reflexivity.
  - subst. reflexivity.
Qed.

Lemma unknown_product_fallback_witness :
  (forall p, In p (products_data demo_predictor) -> p_name p <> "Unknown Widget"%string) /\
  exists r,
    predict_stock_requirement demo_predictor "Unknown Widget" 10 "Winter" = Ok r /\
    category r = "Miscellaneous"%string /\ predicted_demand r = 90 /\
    decision (recommendation r) = ADD_STOCK /\ quantity_action (recommendation r) = 98.
Proof.
  assert (Habs : forall p, In p (products_data demo_predictor) ->
                   p_name p <> "Unknown Widget"%string).
  { intros p [<- | []]. discriminate. }
  split; [exact Habs | ].
  destruct (unknown_product_fallback demo_predictor "Unknown Widget" 10 "Winter" Habs)
    as (r & Hr & _ & Hc & _ & _ & _ & _ & _ & _ & _ & Hex).
  destruct (Hex eq_refl eq_refl) as (Hpd & _ & _ & _ & Hd & Hq).
  exists r. auto.
Defined.

Lemma row_lookup (b f v g p : Z) (m : gmap string spec_float) (c : string) :
  m = <["Beverages"%string := tenths b]> (<["Fruits"%string := tenths f]>
        (<["Vegetables"%string := tenths v]> (<["Groceries"%string := tenths g]>
           (<["Personal Care"%string := tenths p]> ∅)))) ->
  default (tenths 10) (m !! c) = tenths (default 10 (category_row b f v g p c)).
Proof.
  intros ->. unfold category_row.
  case_key c "Beverages"%string; [table_lookup; reflexivity | ].
  case_key c "Fruits"%string; [table_lookup; reflexivity | ].
  case_key c "Vegetables"%string; [table_lookup; reflexivity | ].
  case_key c "Groceries"%string; [table_lookup; reflexivity | ].
  case_key c "Personal Care"%string; [table_lookup; reflexivity | ].
  table_lookup. reflexivity.
Qed.

Lemma default_patterns_lookup (sn c : string) :
  multiplier _get_default_seasonal_patterns sn c =
    tenths (default 10 (configured_tenths sn c)).
Proof.
  unfold multiplier, _get_default_seasonal_patterns, configured_tenths.
  case_key sn "Summer"%string;
    [table_lookup; cbn [default]; apply row_lookup; reflexivity | ].
  case_key sn "Winter"%string;
    [table_lookup; cbn [default]; apply row_lookup; reflexivity | ].
  case_key sn "Monsoon"%string;
    [table_lookup; cbn [default]; apply row_lookup; reflexivity | ].
  case_key sn "Regular"%string;
    [table_lookup; cbn [default]; apply row_lookup; reflexivity | ].
  table_lookup. cbn [default]. rewrite lookup_empty. reflexivity.
Qed.

(** C5. The seasonal multiplier lookup is a total function of the two
    strings: when the season is a key of the table and the category a key
    of that season's sub-table it returns the configured value, and on any
    miss (season absent, or category absent from the season's sub-table)
    it returns 1.0. On the built-in table this is the configured value of
    the twenty (season, category) pairs and 1.0 everywhere else; keys are
    compared exactly, so "summer" is not "Summer". *)
Theorem multiplier_lookup
    (patterns : gmap string (gmap string spec_float)) (sn c : string) :
  (forall sub v, patterns !! sn = Some sub -> sub !! c = Some v ->
     multiplier patterns sn c = v) /\
  (patterns !! sn = None -> multiplier patterns sn c = tenths 10) /\
  (forall sub, patterns !! sn = Some sub -> sub !! c = None ->
     multiplier patterns sn c = tenths 10) /\
  multiplier _get_default_seasonal_patterns sn c =
    tenths (default 10 (configured_tenths sn c)) /\
  multiplier _get_default_seasonal_patterns "Summer" "Beverages" = tenths 15 /\
  multiplier _get_default_seasonal_patterns "summer" "Beverages" = tenths 10 /\
  multiplier _get_default_seasonal_patterns "Summer" "Dairy" = tenths 10 /\
  tenths 10 = b64_one.
Proof.
  unfold multiplier. repeat split.
  - intros sub v H1 H2. rewrite H1. cbn [default from_option id]. rewrite H2. reflexivity.
  - intros ->. cbn [default]. rewrite lookup_empty. reflexivity.
  - intros sub H1 H2. rewrite H1. cbn [default from_option id]. rewrite H2. reflexivity.
  - apply default_patterns_lookup.
Qed.

Lemma multiplier_lookup_witness :
  (winter_only !! "Winter"%string = Some winter_dairy /\
   winter_dairy !! "Dairy"%string = Some (tenths 11)) /\
  multiplier winter_only "Winter" "Dairy" = tenths 11.
Proof.
  assert (H1 : winter_only !! "Winter"%string = Some winter_dairy) by reflexivity.
  assert (H2 : winter_dairy !! "Dairy"%string = Some (tenths 11)) by reflexivity.
  split; [split; assumption | ].
  exact (proj1 (multiplier_lookup winter_only "Winter" "Dairy") winter_dairy (tenths 11) H1 H2).
Defined.

(** C6. The base-demand lookup is a total function of the category:
    Groceries 150, Dairy 200, Beverages 180, Fruits 120, Vegetables 140,
    Personal Care 90, Snacks 160, Frozen 80, Condiments 70,
    Miscellaneous 100, and 100 for every other string. *)
Theorem base_demand_table (c : string) :
  _get_category_base_demand "Groceries" = 150 /\
  _get_category_base_demand "Dairy" = 200 /\
  _get_category_base_demand "Beverages" = 180 /\
  _get_category_base_demand "Fruits" = 120 /\
  _get_category_base_demand "Vegetables" = 140 /\
  _get_category_base_demand "Personal Care" = 90 /\
  _get_category_base_demand "Snacks" = 160 /\
  _get_category_base_demand "Frozen" = 80 /\
  _get_category_base_demand "Condiments" = 70 /\
  _get_category_base_demand "Miscellaneous" = 100 /\
  (~ In c known_categories -> _get_category_base_demand c = 100).
Proof.
  repeat split; try reflexivity.
  intros Hc. unfold known_categories in Hc. cbn [In] in Hc.
  repeat (apply Decidable.not_or in Hc; destruct Hc as [? Hc]).
  unfold _get_category_base_demand, category_demands.
  table_lookup. reflexivity.
Qed.

Lemma base_demand_table_witness :
  ~ In "Bakery"%string known_categories /\ _get_category_base_demand "Bakery" = 100.
Proof.
  assert (H : ~ In "Bakery"%string known_categories).
  { unfold known_categories. cbn [In]. intros H.
    repeat (destruct H as [H | H]; [discriminate H | ]). exact H. }
  split; [exact H | ].
  exact (proj2 (proj2 (proj2 (proj2 (proj2 (proj2 (proj2 (proj2 (proj2 (proj2
          (base_demand_table "Bakery")))))))))) H).
Defined.

End TableFacts.

(** ** The analysis handler *)

Module AppFacts.
Import Binary64 Binary64Facts Predictor App Examples.

(** C3, as the code has it. A request without ['product'], ['season'] or
    ['stock'] is rejected with status 400, and so is one whose stock
    [int()] cannot convert ([ValueError] or [TypeError]: null, arrays,
    objects, text that is not an integer literal); in both cases the
    predictor is not invoked. Every request that reaches the predictor
    carries [int(stock)]: an integer is passed on unchanged whatever its
    sign, and a finite float is truncated toward zero rather than
    rejected. *)
Theorem analyze_stock_validation
    (int_of_str : string -> option Z) (predictor : InventoryPredictor)
    (data : analyze_body) :
  (body_product data = None \/ body_season data = None \/ body_stock data = None ->
     api_analyze int_of_str predictor data = Rejected 400 "Missing required fields") /\
  (forall p s v,
     body_product data = Some p -> body_season data = Some s -> body_stock data = Some v ->
     (py_int int_of_str v = Raise ValueError \/ py_int int_of_str v = Raise TypeError ->
        api_analyze int_of_str predictor data = Rejected 400 "Invalid stock value") /\
     (forall z, py_int int_of_str v = Ok z ->
        api_analyze int_of_str predictor data =
          Analyzed p z s (predict_stock_requirement predictor p z s))) /\
  (forall p stock s result,
     api_analyze int_of_str predictor data = Analyzed p stock s result ->
     body_product data = Some p /\ body_season data = Some s /\
     result = predict_stock_requirement predictor p stock s /\
     exists v, body_stock data = Some v /\ py_int int_of_str v = Ok stock) /\
  (forall z, py_int int_of_str (JInt z) = Ok z) /\
  (forall f z, b64_trunc f = Some z -> py_int int_of_str (JFloat f) = Ok z) /\
  (forall t, int_of_str t = None -> py_int int_of_str (JStr t) = Raise ValueError) /\
  py_int int_of_str JNull = Raise TypeError /\
  py_int int_of_str JArr = Raise TypeError /\
  py_int int_of_str JObj = Raise TypeError.
Proof.
  unfold api_analyze.
  split; [ | split; [ | split; [ | split; [ | split; [ | split]]]]].
  - intros [H | [H | H]]; rewrite H;
      repeat match goal with |- context [match ?x with _ => _ end] => destruct x end;
      reflexivity.
  - intros p s v Hp Hs Hv. rewrite Hp, Hs, Hv. split.
    + intros [E | E]; rewrite E; reflexivity.
    + intros z E. rewrite E. reflexivity.
  - intros p stock s result.
    destruct (body_product data), (body_season data), (body_stock data) as [v | ];
      try discriminate.
    destruct (py_int int_of_str v) as [z | []] eqn:E; try discriminate.
    intros [= -> -> -> <-]. repeat split. exists v. split; [reflexivity | exact E].
  - reflexivity.
  - intros f z Hf. cbn [py_int]. unfold py_int_of_float.
    destruct f; cbn in Hf |- *; try discriminate; injection Hf as <-; reflexivity.
  - intros t Ht. cbn [py_int]. rewrite Ht. reflexivity.
  - repeat split.
Qed.

Lemma analyze_stock_validation_witness :
  (body_product (request_with_stock (JStr "abc")) = Some "Milk 1L"%string /\
   body_season (request_with_stock (JStr "abc")) = Some "Summer"%string /\
   body_stock (request_with_stock (JStr "abc")) = Some (JStr "abc") /\
   py_int toy_int_of_str (JStr "abc") = Raise ValueError) /\
  api_analyze toy_int_of_str demo_predictor (request_with_stock (JStr "abc")) =
    Rejected 400 "Invalid stock value".
Proof.
  assert (E : py_int toy_int_of_str (JStr "abc") = Raise ValueError) by reflexivity.
  split; [repeat split; reflexivity | ].
  exact (proj1 (proj1 (proj2 (analyze_stock_validation toy_int_of_str demo_predictor
                                (request_with_stock (JStr "abc"))))
                  "Milk 1L"%string "Summer"%string (JStr "abc") eq_refl eq_refl eq_refl)
               (or_introl E)).
Defined.

(** A stock of [-5] is not rejected: the predictor is invoked with it, and
    a stock of [3.7] is not rejected either but reaches the predictor as 3. *)
Lemma negative_stock_reaches_predictor :
  ~ (forall (int_of_str : string -> option Z) predictor data p stock s result,
       api_analyze int_of_str predictor data = Analyzed p stock s result -> 0 <= stock) /\
  api_analyze toy_int_of_str demo_predictor (request_with_stock (JInt (-5))) =
    Analyzed "Milk 1L" (-5) "Summer"
      (predict_stock_requirement demo_predictor "Milk 1L" (-5) "Summer") /\
  api_analyze toy_int_of_str demo_predictor (request_with_stock (JFloat (b64_lit 37 10))) =
    Analyzed "Milk 1L" 3 "Summer"
      (predict_stock_requirement demo_predictor "Milk 1L" 3 "Summer").
Proof.
  split; [ | split; reflexivity].
  intros H.
  specialize (H toy_int_of_str demo_predictor (request_with_stock (JInt (-5)))
                "Milk 1L"%string (-5) "Summer"%string _ eq_refl).
  lia.
Qed.

(** ** The chatbot keyword fallback *)

Lemma first_match_hit (table : list (string * string)) (q : string) :
  forall (i : nat) k r,
    table !! i = Some (k, r) -> contains k q = true ->
    (forall (j : nat) k' r', (j < i)%nat -> table !! j = Some (k', r') -> contains k' q = false) ->
    first_match table q = Some r.
Proof.
  induction table as [ | [k0 r0] rest IH]; intros i k r Hi Hk Hearlier.
  - discriminate Hi.
  - destruct i as [ | i]; cbn [first_match].
    + cbn in Hi. injection Hi as -> ->. rewrite Hk. reflexivity.
    + rewrite (Hearlier 0%nat k0 r0 ltac:(lia) eq_refl).
      apply (IH i k r); [exact Hi | exact Hk | ].
      intros j k' r' Hj Hl. apply (Hearlier (S j) k' r'); [lia | exact Hl].
Qed.

Lemma first_match_miss (table : list (string * string)) (q : string) :
  (forall k r, In (k, r) table -> contains k q = false) -> first_match table q = None.
Proof.
  induction table as [ | [k0 r0] rest IH]; intros H; [reflexivity | ].
  cbn [first_match]. rewrite (H k0 r0 (or_introl eq_refl)).
  apply IH. intros k r Hin. apply (H k r). right. exact Hin.
Qed.

Lemma first_match_in (table : list (string * string)) (q r : string) :
  first_match table q = Some r -> exists k, In (k, r) table /\ contains k q = true.
Proof.
  induction table as [ | [k0 r0] rest IH]; cbn [first_match]; [discriminate | ].
  destruct (contains k0 q) eqn:E.
  - intros [= <-]. exists k0. split; [left; reflexivity | exact E].
  - intros H. destruct (IH H) as (k & Hin & Hk). exists k. split; [right; exact Hin | exact Hk].
Qed.

Lemma table_responses_nonempty (k r : string) :
  In (k, r) (responses ++ keywords) -> r <> ""%string.
Proof.
  unfold responses, keywords. cbn [app In]. intros H.
  repeat (destruct H as [H | H]; [injection H as _ <-; discriminate | ]).
  destruct H.
Qed.

Lemma lower_upper_ascii (c : ascii) : ascii_lower (ascii_upper c) = ascii_lower c.
Proof. destruct c as [[] [] [] [] [] [] [] []]; reflexivity. Qed.

Lemma lower_ascii_upper (s : string) : lower_ascii (upper_ascii s) = lower_ascii s.
Proof.
  induction s as [ | c s IH]; [reflexivity | ].
  unfold lower_ascii, upper_ascii in *. cbn [map_string].
  rewrite lower_upper_ascii, IH. reflexivity.
Qed.

(** C9. The keyword fallback answers every query with a non-empty text.
    It lowercases the query, returns the response of the first key of the
    phrase table (in insertion order) that occurs in it as a substring,
    failing that the response of the first such key of the keyword table,
    and failing that the fixed help message. The answer depends on the
    query only through its lowercase form, so matching ignores the case
    of the query. *)
Theorem chatbot_fallback_total (lower : string -> string) (query : string) :
  get_fallback_response lower query <> ""%string /\
  (forall (i : nat) k r,
     responses !! i = Some (k, r) -> contains k (lower query) = true ->
     (forall (j : nat) k' r', (j < i)%nat -> responses !! j = Some (k', r') ->
        contains k' (lower query) = false) ->
     get_fallback_response lower query = r) /\
  (forall (i : nat) k r,
     (forall k' r', In (k', r') responses -> contains k' (lower query) = false) ->
     keywords !! i = Some (k, r) -> contains k (lower query) = true ->
     (forall (j : nat) k' r', (j < i)%nat -> keywords !! j = Some (k', r') ->
        contains k' (lower query) = false) ->
     get_fallback_response lower query = r) /\
  ((forall k r, In (k, r) (responses ++ keywords) -> contains k (lower query) = false) ->
     get_fallback_response lower query = default_response) /\
  (forall query', lower query' = lower query ->
     get_fallback_response lower query' = get_fallback_response lower query) /\
  get_fallback_response lower_ascii (upper_ascii query) =
    get_fallback_response lower_ascii query /\
  get_fallback_response lower_ascii "HELLO" = nth 10 (map snd responses) ""%string /\
  get_fallback_response lower_ascii "this is a test" = nth 11 (map snd responses) ""%string /\
  get_fallback_response lower_ascii "Is my STOCK at the right Price?" =
    nth 4 (map snd keywords) ""%string /\
  get_fallback_response lower_ascii "Good morning" = default_response.
Proof.
  split; [ | split; [ | split; [ | split; [ | split; [ | split]]]]].
  - unfold get_fallback_response.
    destruct (first_match responses (lower query)) as [r | ] eqn:E1.
    + destruct (first_match_in _ _ _ E1) as (k & Hin & _).
      apply (table_responses_nonempty k). apply in_or_app. left. exact Hin.
    + destruct (first_match keywords (lower query)) as [r | ] eqn:E2.
      * destruct (first_match_in _ _ _ E2) as (k & Hin & _).
        apply (table_responses_nonempty k). apply in_or_app. right. exact Hin.
      * discriminate.
  - intros i k r Hi Hk Hearlier. unfold get_fallback_response.
    rewrite (first_match_hit _ _ i k r Hi Hk Hearlier). reflexivity.
  - intros i k r Hnone Hi Hk Hearlier. unfold get_fallback_response.
    rewrite (first_match_miss _ _ Hnone).
    rewrite (first_match_hit _ _ i k r Hi Hk Hearlier). reflexivity.
  - intros Hnone. unfold get_fallback_response.
    rewrite !first_match_miss; [reflexivity | | ];
      intros k r Hin; apply (Hnone k r); apply in_or_app; [right | left]; exact Hin.
  - intros query' E. unfold get_fallback_response. rewrite E. reflexivity.
  - unfold get_fallback_response. rewrite lower_ascii_upper. reflexivity.
  - repeat split; vm_compute; reflexivity.
Qed.

Lemma chatbot_fallback_total_witness :
  (responses !! 10%nat = Some (nth 10 responses (""%string, ""%string)) /\
   contains "hello" (lower_ascii "Hello there") = true) /\
  get_fallback_response lower_ascii "Hello there" = nth 10 (map snd responses) ""%string.
Proof.
  assert (H1 : responses !! 10%nat =
               Some ("hello"%string, nth 10 (map snd responses) ""%string)) by reflexivity.
  assert (H2 : contains "hello" (lower_ascii "Hello there") = true) by reflexivity.
  split; [split; [reflexivity | exact H2] | ].
  apply (proj1 (proj2 (chatbot_fallback_total lower_ascii "Hello there")) 10%nat "hello"%string
           _ H1 H2).
  intros j k' r' Hj Hl.
  do 10 (destruct j as [ | j]; [injection Hl as <- <-; reflexivity | ]). lia.
Defined.

End AppFacts.

(** ** The analytics aggregation *)

Module DatabaseFacts.
Import Database Examples.

Lemma analytics_queries_ok (conn : store) :
  (forall k, (k < 8)%nat -> query_error conn k = None) ->
  exists s, analytics_queries conn = Ok s /\
    total_analyses s = Z.of_nat (length (inventory_analysis conn)) /\
    categories s = count_by category (inventory_analysis conn) /\
    seasons s = count_by season (inventory_analysis conn) /\
    decisions s = count_by (fun d : string => d) (omap decision (inventory_analysis conn)) /\
    top_products s = limit 10 (order_by_desc snd (product_counts (inventory_analysis conn))) /\
    recent_analyses s = limit 20 (order_by_desc created_at (inventory_analysis conn)) /\
    total_chats s = Z.of_nat (length (chatbot_conversations conn)) /\
    chat_sources s = count_by source (chatbot_conversations conn).
Proof.
  intros H. unfold analytics_queries, execute.
  rewrite !H by lia. cbn [mbind res_bind].
  eexists. split; [reflexivity | ]. cbn. repeat split.
Qed.

Lemma analytics_queries_fail (conn : store) (k : nat) :
  (k < 8)%nat -> query_error conn k <> None ->
  exists e, analytics_queries conn = Raise e.
Proof.
  intros Hk Hq. unfold analytics_queries, execute.
  do 8 (destruct k as [ | k];
        [ repeat match goal with
                 | |- context [query_error conn ?i] =>
                     destruct (query_error conn i); cbn [mbind res_bind];
                     try (eexists; reflexivity); try congruence
                 end
        | ]).
  lia.
Qed.

(** C8, as the code has it. Once the connection is open,
    [get_analytics_data] never raises: if any of its eight queries fails
    it returns the empty dict, and if none fails it returns the summary,
    which for empty tables has zero counts, empty frequency maps and
    empty lists. A failure to open the connection happens before the
    [try] and is propagated to the caller. *)
Theorem analytics_degrades (st : store) :
  (open_error st = None ->
     (exists a, get_analytics_data st = Ok a) /\
     ((exists k, (k < 8)%nat /\ query_error st k <> None) ->
        get_analytics_data st = Ok EmptyDict) /\
     ((forall k, (k < 8)%nat -> query_error st k = None) ->
        exists s, get_analytics_data st = Ok (Summary s) /\
          (inventory_analysis st = [] ->
             total_analyses s = 0 /\ categories s = ∅ /\ seasons s = ∅ /\
             decisions s = ∅ /\ top_products s = [] /\ recent_analyses s = []) /\
          (chatbot_conversations st = [] -> total_chats s = 0 /\ chat_sources s = ∅))) /\
  (forall e, open_error st = Some e -> get_analytics_data st = Raise e).
Proof.
  unfold get_analytics_data, get_db_connection. split.
  - intros Hopen. rewrite Hopen. cbn [mbind res_bind]. split; [ | split].
    + destruct (analytics_queries st); eexists; reflexivity.
    + intros (k & Hk & Hq).
      destruct (analytics_queries_fail st k Hk Hq) as [e ->]. reflexivity.
    + intros Hq.
      destruct (analytics_queries_ok st Hq)
        as (s & -> & H1 & H2 & H3 & H4 & H5 & H6 & H7 & H8).
      exists s. split; [reflexivity | ]. split.
      * intros E. rewrite E in *. rewrite H1, H2, H3, H4, H5, H6. repeat split.
      * intros E. rewrite E in *. rewrite H7, H8. repeat split.
  - intros e ->. reflexivity.
Qed.

Lemma analytics_degrades_witness :
  open_error empty_store = None /\
  (forall k, (k < 8)%nat -> query_error empty_store k = None) /\
  exists s, get_analytics_data empty_store = Ok (Summary s) /\
    total_analyses s = 0 /\ categories s = ∅ /\ total_chats s = 0.
Proof.
  assert (Hq : forall k, (k < 8)%nat -> query_error empty_store k = None)
    by (intros k _; reflexivity).
  split; [reflexivity | ]. split; [exact Hq | ].
  destruct (proj1 (analytics_degrades empty_store) eq_refl) as (_ & _ & H).
  destruct (H Hq) as (s & Hs & Ha & Hc).
  destruct (Ha eq_refl) as (H1 & H2 & _). destruct (Hc eq_refl) as (H7 & _).
  exists s. auto.
Defined.

(** When the database file cannot be opened the exception reaches the
    caller: the aggregation does propagate a failure. *)
Lemma analytics_propagates_open_failure :
  get_analytics_data unreachable_store = Raise OperationalError /\
  ~ (forall st, exists a, get_analytics_data st = Ok a).
Proof.
  split; [reflexivity | ].
  intros H. destruct (H unreachable_store) as [a Ha]. discriminate Ha.
Qed.

End DatabaseFacts.

(** ** The offers script *)

Module OffersFacts.
Import Binary64 Binary64Facts Database ListOffers Spec Examples.

(** *** Ordering of the rows the script reads *)

Lemma insert_desc_elem {A : Type} (key : A -> Z) (x y : A) (l : list A) :
  In y (insert_desc key x l) -> y = x \/ In y l.
Proof.
  induction l as [ | z l IH]; cbn [insert_desc].
  - intros [<- | []]. left; reflexivity.
  - destruct (key z <=? key x).
    + intros [<- | H]; [left; reflexivity | right; exact H].
    + intros [<- | H]; [right; left; reflexivity | ].
      destruct (IH H) as [-> | Hin]; [left; reflexivity | right; right; exact Hin].
Qed.

Lemma insert_desc_sorted {A : Type} (key : A -> Z) (x : A) (l : list A) :
  StronglySorted (fun a b => key b <= key a) l ->
  StronglySorted (fun a b => key b <= key a) (insert_desc key x l).
Proof.
  induction 1 as [ | z l Hs IH Hz]; cbn [insert_desc].
  - repeat constructor.
  - destruct (Z.leb_spec (key z) (key x)) as [Hlt | Hge].
    + constructor; [constructor; assumption | ].
      constructor; [lia | ].
      rewrite List.Forall_forall in Hz |- *. intros y Hy. specialize (Hz y Hy). lia.
    + constructor; [exact IH | ].
      rewrite List.Forall_forall in Hz |- *. intros y Hy.
      destruct (insert_desc_elem _ _ _ _ Hy) as [-> | Hin]; [lia | exact (Hz y Hin)].
Qed.

Lemma order_by_desc_sorted {A : Type} (key : A -> Z) (l : list A) :
  StronglySorted (fun a b => key b <= key a) (order_by_desc key l).
Proof.
  induction l as [ | x l IH]; cbn; [constructor | apply insert_desc_sorted; exact IH].
Qed.

Lemma sorted_descending {A : Type} (key : A -> Z) (l : list A) :
  StronglySorted (fun a b => key b <= key a) l -> descending key l.
Proof.
  induction 1 as [ | z l Hs IH Hz]; intros i j a b Hij Hi Hj.
  - discriminate Hi.
  - destruct j as [ | j]; [lia | ]. cbn in Hj.
    destruct i as [ | i]; cbn in Hi.
    + injection Hi as <-. rewrite List.Forall_forall in Hz.
      apply Hz. apply list_elem_of_In. eapply list_elem_of_lookup_2. exact Hj.
    + apply (IH i j a b); [lia | exact Hi | exact Hj].
Qed.

Lemma descending_take {A : Type} (key : A -> Z) (n : nat) (l : list A) :
  descending key l -> descending key (take n l).
Proof.
  intros H i j a b Hij Hi Hj.
  apply (H i j a b Hij).
  - apply lookup_take_Some in Hi. tauto.
  - apply lookup_take_Some in Hj. tauto.
Qed.


(** *** The offers of one row *)

Ltac break_hyps :=
  repeat match goal with
         | H : _ /\ _ |- _ => destruct H
         | H : _ \/ _ |- _ => destruct H
         | H : exists _, _ |- _ => destruct H
         | H : Ok _ = Ok _ |- _ => injection H as H; subst
         end.

Lemma item_offers_spec (p : string) (c d : Z) (items : list offer) :
  item_offers_of p c d = Ok items ->
  (existsb is_discount items = true <-> discount_due c d) /\
  (existsb is_bogo items = true <-> bogo_due c d) /\
  (items <> [] <-> discount_due c d \/ bogo_due c d).
Proof.
  unfold item_offers_of, discount_due, bogo_due.
  destruct (Z.ltb_spec 0 d) as [Hd | Hd]; cbn [andb].
  - destruct (py_int_of_mul d b64_three_halves) as [t | e]; cbn [mbind res_bind];
      [ | discriminate].
    destruct (Z.ltb_spec d c) as [Hc | Hc], (Z.leb_spec t c) as [Ht | Ht];
      intros [= <-]; cbn; (split; [ | split]); split; intros H; break_hyps;
      try discriminate; try lia; try reflexivity; try congruence;
      try (split; lia);
      try (split; [lia | exists t; split; [reflexivity | lia]]);
      try (left; split; lia);
      try (right; split; [lia | exists t; split; [reflexivity | lia]]).
  - cbn [mbind res_bind]. intros [= <-]; cbn.
    (split; [ | split]); split; intros H; break_hyps;
      try discriminate; try lia; try congruence.
Qed.

Lemma fifteen_tenths_floor (d : Z) : d * 15 / 10 = 3 * d / 2.
Proof.
  replace (d * 15) with (3 * d * 5) by lia. change 10 with (2 * 5).
  apply Z.div_mul_cancel_r; lia.
Qed.

Lemma py_int_of_mul_three_halves (d : Z) :
  0 <= d -> 3 * d < 2 ^ 53 -> py_int_of_mul d b64_three_halves = Ok (d * 15 / 10).
Proof.
  intros H0 H. destruct (py_mul_three_halves d H0 H) as (f & Hf & Hi & _).
  unfold py_int_of_mul. rewrite Hf. cbn [mbind res_bind].
  rewrite Hi, fifteen_tenths_floor. reflexivity.
Qed.

Lemma bogo_due_exact_iff (c d : Z) :
  3 * d < 2 ^ 53 -> (bogo_due c d <-> bogo_due_exact c d).
Proof.
  intros H. unfold bogo_due, bogo_due_exact. split.
  - intros (Hd & t & Ht & Hle). rewrite py_int_of_mul_three_halves in Ht by lia.
    injection Ht as <-. split; assumption.
  - intros (Hd & Hle). split; [exact Hd | ].
    exists (d * 15 / 10). split; [apply py_int_of_mul_three_halves; lia | exact Hle].
Qed.

Lemma item_offers_total (p : string) (c d : Z) :
  d < 2 ^ 63 -> exists items, item_offers_of p c d = Ok items.
Proof.
  intros H. unfold item_offers_of.
  destruct (Z.ltb_spec 0 d) as [Hd | Hd]; cbn [mbind res_bind].
  - unfold b64_three_halves.
    destruct (py_int_of_mul_total d 63 6755399441055744 (-52)) as (t & -> & _); try lia.
    cbn [mbind res_bind]. eexists; reflexivity.
  - eexists; reflexivity.
Qed.

(** *** The loop *)

Lemma first_unseen_skip (a : analysis_row) (rest : list analysis_row)
    (seen : gset string) (i' : nat) (a' : analysis_row) :
  product_name a = ""%string \/ product_name a ∈ seen ->
  first_unseen (a :: rest) seen i' a' <->
  exists i, i' = S i /\ first_unseen rest seen i a'.
Proof.
  intros Hskip. unfold first_unseen. split.
  - intros (Hi & Hne & Hns & Hfirst). destruct i' as [ | i].
    + cbn in Hi. injection Hi as <-. destruct Hskip; [congruence | tauto].
    + exists i. split; [reflexivity | ]. repeat split; try assumption.
      intros j b Hj Hb. apply (Hfirst (S j) b); [lia | exact Hb].
  - intros (i & -> & Hi & Hne & Hns & Hfirst). repeat split; try assumption.
    intros j b Hj Hb. destruct j as [ | j].
    + cbn in Hb. injection Hb as <-. intros E. rewrite E in Hskip.
      destruct Hskip; [congruence | tauto].
    + apply (Hfirst j b); [lia | exact Hb].
Qed.

Lemma first_unseen_take (a : analysis_row) (rest : list analysis_row)
    (seen : gset string) (i' : nat) (a' : analysis_row) :
  product_name a <> ""%string -> product_name a ∉ seen ->
  first_unseen (a :: rest) seen i' a' <->
  (i' = 0%nat /\ a' = a) \/
  exists i, i' = S i /\ first_unseen rest ({[ product_name a ]} ∪ seen) i a'.
Proof.
  intros Hne0 Hns0. unfold first_unseen. split.
  - intros (Hi & Hne & Hns & Hfirst). destruct i' as [ | i].
    + cbn in Hi. injection Hi as <-. left. split; reflexivity.
    + right. exists i. split; [reflexivity | ].
      assert (Hdiff : product_name a <> product_name a')
        by (apply (Hfirst 0%nat a); [lia | reflexivity]).
      repeat split; try assumption.
      * rewrite elem_of_union, elem_of_singleton. intros [E | E]; [congruence | tauto].
      * intros j b Hj Hb. apply (Hfirst (S j) b); [lia | exact Hb].
  - intros [[-> ->] | (i & -> & Hi & Hne & Hns & Hfirst)].
    + repeat split; try assumption. intros j b Hj. lia.
    + rewrite elem_of_union, elem_of_singleton in Hns.
      repeat split; try assumption.
      * tauto.
      * intros j b Hj Hb. destruct j as [ | j].
        -- cbn in Hb. injection Hb as <-. intros E. apply Hns. left. congruence.
        -- apply (Hfirst j b); [lia | exact Hb].
Qed.

Lemma offers_loop_spec (analyses : list analysis_row) :
  forall (seen : gset string) (offers out : list offer_entry),
    offers_loop analyses seen offers = Ok out ->
    exists new, out = offers ++ new /\
      (forall e, In e new -> exists i a items,
          first_unseen analyses seen i a /\ items_of a = Ok items /\
          items <> [] /\ e = entry_of a items) /\
      (forall i a, first_unseen analyses seen i a ->
          exists items, items_of a = Ok items /\
            (items <> [] -> In (entry_of a items) new)) /\
      List.NoDup (map entry_product_name new).
Proof.
  induction analyses as [ | a rest IH]; intros seen offers out; cbn [offers_loop].
  - intros [= <-]. exists []. rewrite app_nil_r.
    split; [reflexivity | ]. split; [intros e [] | ]. split; [ | constructor].
    intros i a (Hi & _). discriminate Hi.
  - assert (Hskip : product_name a = ""%string \/ product_name a ∈ seen ->
              offers_loop rest seen offers = Ok out ->
              exists new, out = offers ++ new /\
                (forall e, In e new -> exists i a0 items,
                    first_unseen (a :: rest) seen i a0 /\ items_of a0 = Ok items /\
                    items <> [] /\ e = entry_of a0 items) /\
                (forall i a0, first_unseen (a :: rest) seen i a0 ->
                    exists items, items_of a0 = Ok items /\
                      (items <> [] -> In (entry_of a0 items) new)) /\
                List.NoDup (map entry_product_name new)).
    { intros Hs H. destruct (IH _ _ _ H) as (new & -> & H1 & H2 & H3).
      exists new. split; [reflexivity | ]. split; [ | split; [ | exact H3]].
      - intros e He. destruct (H1 e He) as (i & a0 & items & Hf & Hrest).
        exists (S i), a0, items. split; [ | exact Hrest].
        apply first_unseen_skip; [exact Hs | ]. exists i. split; [reflexivity | exact Hf].
      - intros i a0 Hf. apply first_unseen_skip in Hf; [ | exact Hs].
        destruct Hf as (i0 & -> & Hf). exact (H2 i0 a0 Hf). }
    destruct (String.eqb_spec (product_name a) "") as [Hempty | Hne]; cbn [orb].
    { apply Hskip. left. exact Hempty. }
    case_bool_decide as Hseen.
    { apply Hskip. right. exact Hseen. }
    clear Hskip. fold (items_of a).
    destruct (items_of a) as [items | err] eqn:Eitems; cbn [mbind res_bind]; [ | discriminate].
    assert (Hstep : forall offers',
              offers_loop rest ({[ product_name a ]} ∪ seen) offers' = Ok out ->
              exists new', out = offers' ++ new' /\
                (forall e, In e new' -> exists i a0 items0,
                    first_unseen (a :: rest) seen i a0 /\ items_of a0 = Ok items0 /\
                    items0 <> [] /\ e = entry_of a0 items0) /\
                (forall i a0, first_unseen rest ({[ product_name a ]} ∪ seen) i a0 ->
                    exists items0, items_of a0 = Ok items0 /\
                      (items0 <> [] -> In (entry_of a0 items0) new')) /\
                (forall e, In e new' -> entry_product_name e <> product_name a) /\
                List.NoDup (map entry_product_name new')).
    { intros offers' H. destruct (IH _ _ _ H) as (new' & -> & H1 & H2 & H3).
      exists new'. split; [reflexivity | ]. split; [ | split; [exact H2 | split; [ | exact H3]]].
      - intros e He. destruct (H1 e He) as (i & a0 & items0 & Hf & Hrest).
        exists (S i), a0, items0. split; [ | exact Hrest].
        apply first_unseen_take; [exact Hne | exact Hseen | ].
        right. exists i. split; [reflexivity | exact Hf].
      - intros e He. destruct (H1 e He) as (i & a0 & items0 & Hf & _ & _ & ->).
        destruct Hf as (_ & _ & Hns & _). cbn.
        rewrite elem_of_union, elem_of_singleton in Hns. tauto. }
    destruct items as [ | o items'].
    + intros H. destruct (Hstep _ H) as (new' & -> & H1 & H2 & _ & H3).
      exists new'. split; [reflexivity | ]. split; [exact H1 | split; [ | exact H3]].
      intros i a0 Hf. apply first_unseen_take in Hf; [ | exact Hne | exact Hseen].
      destruct Hf as [[-> ->] | (i0 & -> & Hf)].
      * exists []. split; [exact Eitems | intros Hnil; congruence].
      * exact (H2 i0 a0 Hf).
    + intros H. destruct (Hstep _ H) as (new' & -> & H1 & H2 & Hname & H3).
      exists (entry_of a (o :: items') :: new').
      split; [rewrite <- app_assoc; reflexivity | ].
      split; [ | split].
      * intros e [<- | He]; [ | exact (H1 e He)].
        exists 0%nat, a, (o :: items'). split; [ | split; [exact Eitems | split; [discriminate | reflexivity]]].
        apply first_unseen_take; [exact Hne | exact Hseen | ]. left. split; reflexivity.
      * intros i a0 Hf. apply first_unseen_take in Hf; [ | exact Hne | exact Hseen].
        destruct Hf as [[-> ->] | (i0 & -> & Hf)].
        -- exists (o :: items'). split; [exact Eitems | intros _; left; reflexivity].
        -- destruct (H2 i0 a0 Hf) as (items0 & E0 & Hin0).
           exists items0. split; [exact E0 | intros Hn; right; exact (Hin0 Hn)].
      * cbn [map]. constructor; [ | exact H3].
        intros Hin. apply in_map_iff in Hin. destruct Hin as (e & He & Hine).
        exact (Hname e Hine He).
Qed.


Lemma order_by_desc_elem {A : Type} (key : A -> Z) (x : A) (l : list A) :
  In x (order_by_desc key l) -> In x l.
Proof.
  induction l as [ | y l IH]; cbn; [tauto | ].
  intros H. destruct (insert_desc_elem _ _ _ _ H) as [-> | Hin]; [left; reflexivity | ].
  right. apply IH. exact Hin.
Qed.

Lemma limit_elem {A : Type} (n : Z) (x : A) (l : list A) : In x (limit n l) -> In x l.
Proof.
  unfold limit. destruct (n <? 0); [tauto | ].
  generalize (Z.to_nat n) as k. induction l as [ | y l IH]; intros [ | k]; cbn; try tauto.
  intros [<- | H]; [left; reflexivity | right; exact (IH k H)].
Qed.

Lemma insert_desc_elem_inv {A : Type} (key : A -> Z) (x y : A) (l : list A) :
  y = x \/ In y l -> In y (insert_desc key x l).
Proof.
  induction l as [ | z l IH]; cbn [insert_desc].
  - intros [-> | []]. left; reflexivity.
  - destruct (key z <=? key x).
    + intros [-> | H]; [left; reflexivity | right; exact H].
    + intros [-> | [-> | H]].
      * right. apply IH. left. reflexivity.
      * left. reflexivity.
      * right. apply IH. right. exact H.
Qed.

Lemma order_by_desc_elem_inv {A : Type} (key : A -> Z) (x : A) (l : list A) :
  In x l -> In x (order_by_desc key l).
Proof.
  induction l as [ | y l IH]; cbn; [tauto | ].
  intros [-> | H]; apply insert_desc_elem_inv; [left; reflexivity | right; exact (IH H)].
Qed.

Lemma first_unseen_unique (analyses : list analysis_row) (seen : gset string)
    (i i' : nat) (a a' : analysis_row) :
  first_unseen analyses seen i a -> first_unseen analyses seen i' a' ->
  product_name a' = product_name a -> i' = i /\ a' = a.
Proof.
  intros (Hi & _ & _ & Hfirst) (Hi' & _ & _ & Hfirst') E.
  destruct (lt_eq_lt_dec i i') as [[Hlt | ->] | Hgt].
  - exfalso. apply (Hfirst' i a Hlt Hi). congruence.
  - split; [reflexivity | congruence].
  - exfalso. apply (Hfirst i' a' Hgt Hi'). exact E.
Qed.



Lemma recent_analyses_cases (n : Z) (st : store) (analyses : list analysis_row) :
  get_recent_analyses n st = Ok analyses ->
  analyses = [] \/ analyses = limit n (order_by_desc created_at (inventory_analysis st)).
Proof.
  unfold get_recent_analyses, get_db_connection, execute, sqlite_int.
  destruct (open_error st); cbn [mbind res_bind]; [discriminate | ].
  destruct ((- 2 ^ 63 <=? n) && (n <? 2 ^ 63)); cbn [mbind res_bind];
    [ | intros [= <-]; left; reflexivity].
  destruct (query_error st 0); intros [= <-]; [left | right]; reflexivity.
Qed.

(** *** The rows the script reads, in terms of the table *)

Lemma insert_desc_perm {A : Type} (key : A -> Z) (x : A) (l : list A) :
  Permutation (insert_desc key x l) (x :: l).
Proof.
  induction l as [ | y l IH]; cbn [insert_desc]; [reflexivity | ].
  destruct (key y <=? key x); [reflexivity | ].
  rewrite IH. apply perm_swap.
Qed.

Lemma order_by_desc_perm {A : Type} (key : A -> Z) (l : list A) :
  Permutation (order_by_desc key l) l.
Proof.
  induction l as [ | x l IH]; [reflexivity | ].
  unfold order_by_desc. cbn [foldr]. fold (order_by_desc key l).
  rewrite insert_desc_perm, IH. reflexivity.
Qed.

Lemma limit_length {A : Type} (n : Z) (l : list A) :
  Z.of_nat (length (limit n l)) =
  if n <? 0 then Z.of_nat (length l) else Z.min n (Z.of_nat (length l)).
Proof.
  unfold limit. destruct (Z.ltb_spec n 0); [reflexivity | ].
  rewrite length_take. lia.
Qed.

Lemma limit_lookup {A : Type} (n : Z) (l : list A) (i : nat) (x : A) :
  limit n l !! i = Some x <-> l !! i = Some x /\ (n < 0 \/ Z.of_nat i < n).
Proof.
  unfold limit. destruct (Z.ltb_spec n 0).
  - split; [intros Hx; split; [exact Hx | left; lia] | tauto].
  - rewrite lookup_take_Some. split; intros [Hx Hi]; (split; [exact Hx | lia]).
Qed.

Lemma limit_cut {A : Type} (key : A -> Z) (n : Z) (rows : list A) (x y : A) :
  In x (limit n (order_by_desc key rows)) ->
  In y rows -> ~ In y (limit n (order_by_desc key rows)) ->
  key y <= key x /\ Z.of_nat (length (limit n (order_by_desc key rows))) = n.
Proof.
  intros Hx Hy Hny.
  apply list_elem_of_In, list_elem_of_lookup_1 in Hx. destruct Hx as [j Hj].
  apply (order_by_desc_elem_inv key), list_elem_of_In, list_elem_of_lookup_1 in Hy.
  destruct Hy as [i Hi].
  apply limit_lookup in Hj. destruct Hj as [Hj Hjn].
  assert (Hin : ~ (n < 0 \/ Z.of_nat i < n)).
  { intros Hc. apply Hny. apply list_elem_of_In.
    apply (list_elem_of_lookup_2 _ i). apply limit_lookup. split; assumption. }
  split.
  - apply (sorted_descending key _ (order_by_desc_sorted key rows) j i x y);
      [lia | exact Hj | exact Hi].
  - rewrite limit_length. destruct (Z.ltb_spec n 0); [lia | ].
    apply lookup_lt_Some in Hi. lia.
Qed.

Lemma sqlite_int_ok (z : Z) : - 2 ^ 63 <= z < 2 ^ 63 -> sqlite_int z = Ok z.
Proof.
  intros H. unfold sqlite_int.
  destruct (Z.leb_spec (- 2 ^ 63) z); [ | lia].
  destruct (Z.ltb_spec z (2 ^ 63)); [reflexivity | lia].
Qed.

Lemma sqlite_int_inv (z y : Z) : sqlite_int z = Ok y -> y = z /\ - 2 ^ 63 <= z < 2 ^ 63.
Proof.
  unfold sqlite_int.
  destruct (Z.leb_spec (- 2 ^ 63) z); [ | discriminate].
  destruct (Z.ltb_spec z (2 ^ 63)); [ | discriminate].
  intros [= <-]. split; [reflexivity | lia].
Qed.

Lemma recent_analyses_healthy (n : Z) (st : store) :
  open_error st = None -> query_error st 0 = None -> - 2 ^ 63 <= n < 2 ^ 63 ->
  get_recent_analyses n st = Ok (limit n (order_by_desc created_at (inventory_analysis st))).
Proof.
  intros Hopen Hq Hn. unfold get_recent_analyses, get_db_connection, execute.
  rewrite Hopen. cbn [mbind res_bind]. rewrite (sqlite_int_ok n Hn). cbn [mbind res_bind].
  rewrite Hq. reflexivity.
Qed.







(** On the sample history the latest Milk analysis is short of stock, so
    Milk is not listed although an older analysis was overstocked; Rice
    gets both offers. *)
Example offers_of_history :
  ListOffers.main history_store =
    Ok [ entry_of (analysis 2 "Rice" 150 100 20)
           [ DISCOUNT 20 "Apply 20% discount on Rice to boost sales.";
             BOGO "Offer Buy-One-Get-One for Rice to clear excess stock." ] ].
Proof. vm_compute. reflexivity. Qed.

End OffersFacts.

(** ** More on the predictor *)

Module PredictorMore.
Import Binary64 Binary64Facts Predictor Spec PredictorFacts TableFacts PredictorSpec Examples.

Lemma find_first (products : list Product) (name : string) (p : Product)
    (before after : list Product) :
  products = before ++ p :: after -> p_name p = name ->
  (forall q, In q before -> p_name q <> name) ->
  List.find (fun q => String.eqb (p_name q) name) products = Some p.
Proof.
  intros -> Hp Hbefore. induction before as [ | q before IH]; cbn [app List.find].
  - rewrite Hp, String.eqb_refl. reflexivity.
  - destruct (String.eqb_spec (p_name q) name) as [E | _].
    + exfalso. exact (Hbefore q (or_introl eq_refl) E).
    + apply IH. intros q' Hq'. apply Hbefore. right. exact Hq'.
Qed.

Lemma base_demand_cases (c : string) :
  In (_get_category_base_demand c) [150; 200; 180; 120; 140; 90; 160; 80; 70; 100].
Proof.
  unfold _get_category_base_demand, category_demands.
  case_key c "Groceries"%string; [table_lookup; cbn; tauto | ].
  case_key c "Dairy"%string; [table_lookup; cbn; tauto | ].
  case_key c "Beverages"%string; [table_lookup; cbn; tauto | ].
  case_key c "Fruits"%string; [table_lookup; cbn; tauto | ].
  case_key c "Vegetables"%string; [table_lookup; cbn; tauto | ].
  case_key c "Personal Care"%string; [table_lookup; cbn; tauto | ].
  case_key c "Snacks"%string; [table_lookup; cbn; tauto | ].
  case_key c "Frozen"%string; [table_lookup; cbn; tauto | ].
  case_key c "Condiments"%string; [table_lookup; cbn; tauto | ].
  case_key c "Miscellaneous"%string; [table_lookup; cbn; tauto | ].
  table_lookup. cbn. tauto.
Qed.

Lemma unit_multiplier_demand (c : string) :
  py_int_of_mul (_get_category_base_demand c) (tenths 10) =
    Ok (_get_category_base_demand c * 10 / 10).
Proof.
  pose proof (base_demand_cases c) as H. cbn [In] in H.
  repeat (destruct H as [<- | H]; [vm_compute; reflexivity | ]). destruct H.
Qed.

Ltac known_category c :=
  first [ case_key c "Beverages"%string | idtac ];
  first [ case_key c "Fruits"%string | idtac ];
  first [ case_key c "Vegetables"%string | idtac ];
  first [ case_key c "Groceries"%string | idtac ];
  first [ case_key c "Personal Care"%string | idtac ].

Lemma table_demand_computed (sn c : string) :
  py_int_of_mul (_get_category_base_demand c)
    (multiplier _get_default_seasonal_patterns sn c) = Ok (table_demand sn c) /\
  70 <= table_demand sn c <= 270.
Proof.
  rewrite default_patterns_lookup. unfold table_demand, configured_tenths, category_row.
  assert (Hunit : py_int_of_mul (_get_category_base_demand c) (tenths 10) =
                    Ok (_get_category_base_demand c * 10 / 10) /\
                  70 <= _get_category_base_demand c * 10 / 10 <= 270).
  { split; [apply unit_multiplier_demand | ].
    pose proof (base_demand_cases c) as H. cbn [In] in H.
    repeat (destruct H as [<- | H]; [vm_compute; split; discriminate | ]). destruct H. }
  case_key c "Beverages"%string.
  { repeat match goal with |- context [String.eqb sn ?k] => case_key sn k end;
      (split; [vm_compute; reflexivity | vm_compute; split; discriminate]). }
  case_key c "Fruits"%string.
  { repeat match goal with |- context [String.eqb sn ?k] => case_key sn k end;
      (split; [vm_compute; reflexivity | vm_compute; split; discriminate]). }
  case_key c "Vegetables"%string.
  { repeat match goal with |- context [String.eqb sn ?k] => case_key sn k end;
      (split; [vm_compute; reflexivity | vm_compute; split; discriminate]). }
  case_key c "Groceries"%string.
  { repeat match goal with |- context [String.eqb sn ?k] => case_key sn k end;
      (split; [vm_compute; reflexivity | vm_compute; split; discriminate]). }
  case_key c "Personal Care"%string.
  { repeat match goal with |- context [String.eqb sn ?k] => case_key sn k end;
      (split; [vm_compute; reflexivity | vm_compute; split; discriminate]). }
  rewrite andb_false_r.
  repeat match goal with |- context [String.eqb sn ?k] => destruct (String.eqb sn k) end;
    exact Hunit.
Qed.

(** X1. With the built-in pattern table, a name found in the catalog is
    answered from its first entry: the category is the entry's (Groceries
    when it has none), the demand is the table demand of season and
    category, price and unit are the entry's (0 and "pack" when absent),
    and the recommendation is the specification's. *)
Theorem catalog_product_prediction
    (self : InventoryPredictor) (name : string) (cs : Z) (sn : string)
    (p : Product) (before after : list Product) :
  seasonal_patterns self = _get_default_seasonal_patterns ->
  products_data self = before ++ p :: after ->
  p_name p = name ->
  (forall q, In q before -> p_name q <> name) ->
  predict_stock_requirement self name cs sn =
    Ok {| product := name;
          category := default "Groceries"%string (p_category p);
          current_stock := cs;
          season := sn;
          predicted_demand := table_demand sn (default "Groceries"%string (p_category p));
          seasonal_multiplier :=
            tenths (default 10
                      (configured_tenths sn (default "Groceries"%string (p_category p))));
          recommendation :=
            recommend_spec cs (table_demand sn (default "Groceries"%string (p_category p)));
          price := default (Int 0) (p_current_price p);
          unit_name := default "pack"%string (p_unit p) |}.
Proof.
  intros Hpat Hcat Hname Hfirst. unfold predict_stock_requirement.
  rewrite (find_first _ _ _ _ _ Hcat Hname Hfirst), Hpat.
  destruct (table_demand_computed sn (default "Groceries"%string (p_category p))) as [-> Hb].
  cbn [mbind res_bind].
  rewrite generate_recommendation_refines
    by (change (2 ^ 51) with 2251799813685248; lia).
  cbn [mbind res_bind]. rewrite default_patterns_lookup. reflexivity.
Qed.

Lemma catalog_product_prediction_witness :
  (seasonal_patterns demo_predictor = _get_default_seasonal_patterns /\
   products_data demo_predictor = [] ++ milk :: [] /\
   p_name milk = "Milk 1L"%string /\
   forall q, In q [] -> p_name q <> "Milk 1L"%string) /\
  exists r, predict_stock_requirement demo_predictor "Milk 1L" 50 "Summer" = Ok r /\
    predicted_demand r = 200 /\ decision (recommendation r) = ADD_STOCK /\
    quantity_action (recommendation r) = 190 /\
    advice (recommendation r) = "Add 190 units"%string.
Proof.
  assert (H4 : forall q : Product, In q [] -> p_name q <> "Milk 1L"%string)
    by (intros q []).
  split; [repeat split; exact H4 | ].
  eexists. split.
  - exact (catalog_product_prediction demo_predictor "Milk 1L" 50 "Summer" milk [] []
             eq_refl eq_refl eq_refl H4).
  - repeat split.
Defined.

Lemma builtin_prediction_inv (self : InventoryPredictor) (name : string) (cs : Z)
    (sn : string) (r : PredictionResult) :
  seasonal_patterns self = _get_default_seasonal_patterns ->
  predict_stock_requirement self name cs sn = Ok r ->
  product r = name /\ current_stock r = cs /\ season r = sn /\
  70 <= predicted_demand r <= 270 /\
  recommendation r = recommend_spec cs (predicted_demand r).
Proof.
  intros Hpat. unfold predict_stock_requirement. rewrite Hpat.
  destruct (List.find _ (products_data self)) as [p | ].
  - destruct (table_demand_computed sn (default "Groceries"%string (p_category p))) as [-> Hb].
    cbn [mbind res_bind].
    rewrite generate_recommendation_refines
      by (change (2 ^ 51) with 2251799813685248; lia).
    cbn [mbind res_bind]. intros [= <-]. cbn. repeat split; lia.
  - unfold _get_default_prediction. rewrite seasonal_factors_lookup.
    destruct (fallback_demand sn) as [-> Hb]. cbn [mbind res_bind].
    rewrite generate_recommendation_refines
      by (change (2 ^ 51) with 2251799813685248; lia).
    cbn [mbind res_bind]. intros [= <-]. cbn.
    destruct (fallback_factor_cases sn) as [E | [E | [E | E]]]; rewrite E;
      repeat split; vm_compute; discriminate.
Qed.

(** X2. With the built-in pattern table the predictor never raises,
    whatever the catalog, the product name, the stock and the season: it
    returns a demand between 70 and 270 and the specification's
    recommendation for it. *)
Theorem builtin_prediction_total
    (catalog : list Product) (name : string) (cs : Z) (sn : string) :
  exists r,
    predict_stock_requirement
      {| seasonal_patterns := _get_default_seasonal_patterns; products_data := catalog |}
      name cs sn = Ok r /\
    product r = name /\ current_stock r = cs /\ season r = sn /\
    70 <= predicted_demand r <= 270 /\
    recommendation r = recommend_spec cs (predicted_demand r).
Proof.
  unfold predict_stock_requirement. cbn [products_data seasonal_patterns].
  destruct (List.find _ catalog) as [p | ].
  - destruct (table_demand_computed sn (default "Groceries"%string (p_category p))) as [-> Hb].
    cbn [mbind res_bind].
    rewrite generate_recommendation_refines
      by (change (2 ^ 51) with 2251799813685248; lia).
    cbn [mbind res_bind]. eexists. split; [reflexivity | ]. cbn. repeat split; lia.
  - unfold _get_default_prediction. rewrite seasonal_factors_lookup.
    destruct (fallback_demand sn) as [-> Hb]. cbn [mbind res_bind].
    rewrite generate_recommendation_refines
      by (change (2 ^ 51) with 2251799813685248; lia).
    cbn [mbind res_bind]. eexists. split; [reflexivity | ]. cbn.
    destruct (fallback_factor_cases sn) as [E | [E | [E | E]]]; rewrite E;
      repeat split; vm_compute; discriminate.
Qed.

(** X3. Following the advice ends at MAINTAIN: the quantity of an
    ADD_STOCK advice added to the stock, or that of a REDUCE_STOCK advice
    taken from it, gives exactly the optimal level, and the engine asked
    again at the optimal level answers MAINTAIN. *)
Theorem advice_reaches_maintain (cs pd : Z) (s : string) :
  0 <= pd <= 2 ^ 51 ->
  exists r r',
    _generate_recommendation cs pd s = Ok r /\
    (decision r = ADD_STOCK -> cs + quantity_action r = optimal_level r) /\
    (decision r = REDUCE_STOCK -> cs - quantity_action r = optimal_level r) /\
    (decision r = MAINTAIN -> quantity_action r = cs) /\
    _generate_recommendation (optimal_level r) pd s = Ok r' /\
    decision r' = MAINTAIN /\ quantity_action r' = optimal_level r /\ stock_gap r' = 0.
Proof.
  intros Hpd.
  exists (recommend_spec cs pd), (recommend_spec (optimal_level (recommend_spec cs pd)) pd).
  rewrite !generate_recommendation_refines by exact Hpd.
  assert (Hs : 0 <= pd * 2 / 10) by (apply Z.div_pos; lia).
  split; [reflexivity | ].
  assert (Hopt : optimal_level (recommend_spec cs pd) = pd + pd * 2 / 10).
  { unfold recommend_spec. destruct (cs <? pd); [reflexivity | ].
    destruct (3 * (pd + pd * 2 / 10) <? 2 * cs); reflexivity. }
  rewrite Hopt.
  split; [ | split; [ | split; [ | split; [reflexivity | ]]]].
  - unfold recommend_spec. destruct (cs <? pd); [cbn; lia | ].
    destruct (3 * (pd + pd * 2 / 10) <? 2 * cs); cbn; discriminate.
  - unfold recommend_spec. destruct (cs <? pd); [cbn; discriminate | ].
    destruct (3 * (pd + pd * 2 / 10) <? 2 * cs); cbn; [lia | discriminate].
  - unfold recommend_spec. destruct (cs <? pd); [cbn; discriminate | ].
    destruct (3 * (pd + pd * 2 / 10) <? 2 * cs); cbn; [discriminate | reflexivity].
  - unfold recommend_spec.
    destruct (Z.ltb_spec (pd + pd * 2 / 10) pd); [lia | ].
    destruct (Z.ltb_spec (3 * (pd + pd * 2 / 10)) (2 * (pd + pd * 2 / 10))); [lia | ].
    cbn. repeat split. lia.
Qed.

Lemma advice_reaches_maintain_witness :
  0 <= 200 <= 2 ^ 51 /\
  exists r r',
    _generate_recommendation 50 200 "Summer" = Ok r /\
    50 + quantity_action r = optimal_level r /\
    _generate_recommendation (optimal_level r) 200 "Summer" = Ok r' /\
    decision r' = MAINTAIN.
Proof.
  assert (H : 0 <= 200 <= 2 ^ 51) by (vm_compute; split; discriminate).
  split; [exact H | ].
  destruct (advice_reaches_maintain 50 200 "Summer" H)
    as (r & r' & Hr & Hadd & _ & _ & Hr' & Hd & _).
  exists r, r'. split; [exact Hr | ]. split; [ | split; assumption].
  apply Hadd. vm_compute in Hr. injection Hr as <-. reflexivity.
Defined.

(** X4. The decision is monotone: with the demand fixed, more stock never
    moves it towards ADD_STOCK, and with the stock fixed, more demand
    never moves it towards REDUCE_STOCK. *)
Theorem decision_monotone (cs1 cs2 pd1 pd2 : Z) (s : string) :
  0 <= pd1 -> pd1 <= pd2 -> pd2 <= 2 ^ 51 -> cs1 <= cs2 ->
  exists low high mid,
    _generate_recommendation cs1 pd2 s = Ok low /\
    _generate_recommendation cs2 pd1 s = Ok high /\
    _generate_recommendation cs1 pd1 s = Ok mid /\
    decision_rank (decision low) <= decision_rank (decision mid) /\
    decision_rank (decision mid) <= decision_rank (decision high).
Proof.
  intros H0 H12 H2 Hcs.
  exists (recommend_spec cs1 pd2), (recommend_spec cs2 pd1), (recommend_spec cs1 pd1).
  rewrite !generate_recommendation_refines by lia.
  repeat split; try reflexivity.
  - assert (Hm : pd1 * 2 / 10 <= pd2 * 2 / 10) by (apply Z.div_le_mono; lia).
    unfold recommend_spec.
    destruct (Z.ltb_spec cs1 pd2), (Z.ltb_spec cs1 pd1); cbn; try lia;
      destruct (Z.ltb_spec (3 * (pd1 + pd1 * 2 / 10)) (2 * cs1)); cbn; try lia;
      destruct (Z.ltb_spec (3 * (pd2 + pd2 * 2 / 10)) (2 * cs1)); cbn; lia.
  - unfold recommend_spec.
    destruct (Z.ltb_spec cs1 pd1), (Z.ltb_spec cs2 pd1); cbn; try lia;
      destruct (Z.ltb_spec (3 * (pd1 + pd1 * 2 / 10)) (2 * cs1)); cbn; try lia;
      destruct (Z.ltb_spec (3 * (pd1 + pd1 * 2 / 10)) (2 * cs2)); cbn; lia.
Qed.

Lemma decision_monotone_witness :
  (0 <= 100 /\ 100 <= 200 /\ 200 <= 2 ^ 51 /\ 150 <= 400) /\
  exists low high mid,
    _generate_recommendation 150 200 "Winter" = Ok low /\
    _generate_recommendation 400 100 "Winter" = Ok high /\
    _generate_recommendation 150 100 "Winter" = Ok mid /\
    decision low = ADD_STOCK /\ decision mid = MAINTAIN /\ decision high = REDUCE_STOCK.
Proof.
  assert (H3 : 200 <= 2 ^ 51) by (vm_compute; discriminate).
  split; [repeat split; try lia; exact H3 | ].
  destruct (decision_monotone 150 400 100 200 "Winter" ltac:(lia) ltac:(lia) H3 ltac:(lia))
    as (low & high & mid & Hl & Hh & Hm & _).
  exists low, high, mid. repeat split; try assumption.
  - vm_compute in Hl. injection Hl as <-. reflexivity.
  - vm_compute in Hm. injection Hm as <-. reflexivity.
  - vm_compute in Hh. injection Hh as <-. reflexivity.
Defined.

(** X5. Shortfall and quantity: the stock gap is never negative and is
    zero exactly when the stock covers the optimal level; an ADD_STOCK
    advice orders the whole gap, more than the safety stock; a
    REDUCE_STOCK advice comes with no gap and removes more than half an
    optimal level; under MAINTAIN the gap is at most the safety stock;
    and a negative stock is always answered with ADD_STOCK. *)
Theorem gap_and_quantity (cs pd : Z) (s : string) :
  0 <= pd <= 2 ^ 51 ->
  exists r, _generate_recommendation cs pd s = Ok r /\
    0 <= stock_gap r /\
    (stock_gap r = 0 <-> optimal_level r <= cs) /\
    (decision r = ADD_STOCK ->
       stock_gap r = quantity_action r /\ safety_stock r < quantity_action r) /\
    (decision r = REDUCE_STOCK ->
       stock_gap r = 0 /\ 0 < quantity_action r /\ optimal_level r < 2 * quantity_action r) /\
    (decision r = MAINTAIN ->
       0 <= quantity_action r /\ stock_gap r <= safety_stock r) /\
    (cs < 0 -> decision r = ADD_STOCK /\ optimal_level r < quantity_action r).
Proof.
  intros Hpd. exists (recommend_spec cs pd).
  split; [apply generate_recommendation_refines; exact Hpd | ].
  assert (Hs : 0 <= pd * 2 / 10) by (apply Z.div_pos; lia).
  unfold recommend_spec.
  destruct (Z.ltb_spec cs pd); [ | destruct (Z.ltb_spec (3 * (pd + pd * 2 / 10)) (2 * cs))];
    cbn; repeat split; intros; try lia; try discriminate.
Qed.

Lemma gap_and_quantity_witness :
  0 <= 100 <= 2 ^ 51 /\
  exists r, _generate_recommendation (-5) 100 "Regular" = Ok r /\
    decision r = ADD_STOCK /\ quantity_action r = 125 /\ stock_gap r = 125.
Proof.
  assert (H : 0 <= 100 <= 2 ^ 51) by (vm_compute; split; discriminate).
  split; [exact H | ].
  destruct (gap_and_quantity (-5) 100 "Regular" H) as (r & Hr & _ & _ & Hgap & _ & _ & Hneg).
  destruct (Hneg ltac:(lia)) as [Hd _]. destruct (Hgap Hd) as [Hg _].
  exists r. split; [exact Hr | ]. split; [exact Hd | ].
  assert (Hq : quantity_action r = 125)
    by (vm_compute in Hr; injection Hr as <-; reflexivity).
  rewrite Hg, Hq. split; reflexivity.
Defined.

End PredictorMore.

(** ** The statements that write: atomicity, ids, and reading back *)

Module StorageFacts.
Import Binary64 Predictor Database Storage Spec StorageSpec Examples StorageExamples OffersFacts.

(** *** Fresh ids *)

Lemma max_rowid_bound {A : Type} (rowid : A -> Z) (rows : list A) :
  0 <= foldr (fun row m => Z.max (rowid row) m) 0 rows /\
  forall r, In r rows -> rowid r <= foldr (fun row m => Z.max (rowid row) m) 0 rows.
Proof.
  induction rows as [ | x rows [IH0 IH]]; cbn [foldr].
  - split; [lia | intros r []].
  - split; [lia | ]. intros r [<- | Hr]; [lia | ]. specialize (IH r Hr). lia.
Qed.

Lemma max_rowid_attained {A : Type} (rowid : A -> Z) (rows : list A) :
  foldr (fun row m => Z.max (rowid row) m) 0 rows = 0 \/
  exists r, In r rows /\ rowid r = foldr (fun row m => Z.max (rowid row) m) 0 rows.
Proof.
  induction rows as [ | x rows IH]; cbn [foldr]; [left; reflexivity | ].
  destruct (Z.max_spec (rowid x) (foldr (fun row m => Z.max (rowid row) m) 0 rows))
    as [[_ E] | [_ E]]; rewrite E.
  - destruct IH as [IH | (r & Hr & Er)]; [left; exact IH | ].
    right. exists r. split; [right; exact Hr | exact Er].
  - right. exists x. split; [left; reflexivity | reflexivity].
Qed.

Lemma next_rowid_fresh {A : Type} (rowid : A -> Z) (rows : list A) (n : Z) :
  next_rowid rowid rows = Ok n ->
  0 < n < 2 ^ 63 /\ forall r, In r rows -> rowid r < n.
Proof.
  unfold next_rowid. destruct (max_rowid_bound rowid rows) as [H0 Hmax].
  destruct (Z.ltb_spec (foldr (fun row m => Z.max (rowid row) m) 0 rows + 1) (2 ^ 63));
    [ | discriminate].
  intros [= <-]. split; [lia | ]. intros r Hr. specialize (Hmax r Hr). lia.
Qed.

Lemma next_rowid_ok {A : Type} (rowid : A -> Z) (rows : list A) :
  (forall r, In r rows -> rowid r < 2 ^ 63 - 1) -> exists n, next_rowid rowid rows = Ok n.
Proof.
  intros Hb. unfold next_rowid.
  destruct (Z.ltb_spec (foldr (fun row m => Z.max (rowid row) m) 0 rows + 1) (2 ^ 63));
    [eexists; reflexivity | exfalso].
  destruct (max_rowid_attained rowid rows) as [E | (r & Hr & E)].
  - rewrite E in H. vm_compute in H. apply H. reflexivity.
  - specialize (Hb r Hr). lia.
Qed.

Lemma next_rowid_full {A : Type} (rowid : A -> Z) (rows : list A) (n : Z) :
  next_rowid rowid rows = Ok n -> forall r, In r rows -> rowid r < 2 ^ 63 - 1.
Proof.
  intros H r Hr. destruct (next_rowid_fresh _ _ _ H) as [Hn Hlt]. specialize (Hlt r Hr). lia.
Qed.

Lemma next_rowid_consecutive {A : Type} (rowid : A -> Z) (rows : list A) :
  map rowid rows = map Z.of_nat (seq 1 (length rows)) ->
  foldr (fun row m => Z.max (rowid row) m) 0 rows = Z.of_nat (length rows).
Proof.
  induction rows as [ | x rows IH] using rev_ind; [reflexivity | ].
  rewrite length_app, Nat.add_comm. cbn [length Nat.add].
  rewrite seq_S, !map_app. cbn [map]. intros H.
  apply app_inj_tail in H. destruct H as [Hrows Hx].
  rewrite foldr_app. cbn [foldr].
  specialize (IH Hrows).
  assert (Hgen : forall (l : list A) (b : Z), 0 <= b ->
             foldr (fun row m => Z.max (rowid row) m) b l =
             Z.max b (foldr (fun row m => Z.max (rowid row) m) 0 l)).
  { induction l as [ | y l IHl]; intros b Hb; cbn [foldr].
    - lia.
    - rewrite (IHl b Hb). pose proof (proj1 (max_rowid_bound rowid l)). lia. }
  rewrite Hgen by lia. rewrite IH. cbn [map] in Hx. lia.
Qed.

Lemma sqlite_real_inv (x : number) (y : option number) :
  sqlite_real x = Ok y -> stored_price x.
Proof.
  destruct x as [z | f]; cbn [sqlite_real stored_price]; [ | intros _; exact I].
  destruct (sqlite_int z) eqn:E; [ | discriminate].
  intros _. exact (proj2 (sqlite_int_inv _ _ E)).
Qed.

Lemma sqlite_real_ok (x : number) : stored_price x -> exists y, sqlite_real x = Ok y.
Proof.
  destruct x as [z | f]; cbn [sqlite_real stored_price].
  - intros H. rewrite (sqlite_int_ok _ H). eexists; reflexivity.
  - intros _. destruct f; eexists; reflexivity.
Qed.

(** *** Writing a row *)

Ltac step_res E :=
  match goal with
  | |- context [mbind _ ?m] => destruct m eqn:E; cbn [mbind res_bind]
  end.

(** X6. [save_analysis] is all or nothing. It raises only when the file
    cannot be opened. When it returns [None] the tables are as before.
    When it returns an id, exactly one row was appended to the analyses,
    under that id, which is positive and larger than every id in use,
    and the row carries the arguments, the prediction's demand, advice,
    decision label, unit and optimal level, and the two clock readings;
    chats and activities are never touched. *)
Theorem save_analysis_atomic (f : faults) (created updated : Z) (t : tables)
    (name cat sn : string) (cs : Z) (pr : PredictionResult) :
  match save_analysis f created updated t name cat sn cs pr with
  | Raise e => open_fault f = Some e
  | Ok (None, t') => t' = t
  | Ok (Some id, t') =>
      exists row,
        t' = {| analyses := analyses t ++ [row]; chats := chats t;
                activities := activities t |} /\
        row_id row = id /\ 0 < id /\
        (forall old, In old (analyses t) -> row_id old < id) /\
        Database.product_name row = name /\
        Database.category row = Some cat /\
        Database.season row = sn /\
        Database.current_stock row = cs /\
        Database.predicted_demand row = Some (Predictor.predicted_demand pr) /\
        Database.recommendation row = Some (advice (Predictor.recommendation pr)) /\
        Database.decision row =
          Some (decision_label (Predictor.decision (Predictor.recommendation pr))) /\
        Database.optimal_level row =
          Some (Predictor.optimal_level (Predictor.recommendation pr)) /\
        Database.unit_name row = Some (Predictor.unit_name pr) /\
        created_at row = created /\ updated_at row = updated
  end.
Proof.
  unfold save_analysis, get_db_connection, connect, execute.
  cbn [open_error query_error inventory_analysis].
  destruct (open_fault f) as [e | ];
    cbn [mbind res_bind open_error query_error inventory_analysis]; [reflexivity | ].
  step_res E1; [ | reflexivity]. apply sqlite_int_inv in E1 as [-> _].
  step_res E2; [ | reflexivity]. apply sqlite_int_inv in E2 as [-> _].
  step_res E3; [ | reflexivity].
  step_res E4; [ | reflexivity]. apply sqlite_int_inv in E4 as [-> _].
  step_res E5; [ | reflexivity]. apply next_rowid_fresh in E5 as [Hid Hfresh].
  destruct (statement_fault f 0); cbn [mbind res_bind]; [reflexivity | ].
  destruct (statement_fault f 1); cbn [mbind res_bind]; [reflexivity | ].
  eexists. split; [reflexivity | ]. cbn.
  repeat split; try lia. exact Hfresh.
Qed.

Lemma save_analysis_atomic_witness :
  save_analysis no_faults 40 41 history_tables "Milk 1L" "Dairy" "Summer" 50 milk_prediction
    = Ok (Some 4, snd milk_saved) /\
  exists row,
    analyses (snd milk_saved) = analyses history_tables ++ [row] /\
    row_id row = 4 /\ Database.decision row = Some "ADD STOCK"%string /\
    Database.recommendation row = Some "Add 190 units"%string.
Proof.
  assert (E : save_analysis no_faults 40 41 history_tables "Milk 1L" "Dairy" "Summer" 50
                milk_prediction = Ok (Some 4, snd milk_saved)) by reflexivity.
  split; [exact E | ].
  pose proof (save_analysis_atomic no_faults 40 41 history_tables "Milk 1L" "Dairy" "Summer"
                50 milk_prediction) as H.
  rewrite E in H.
  destruct H as (row & Ht & Hid & _ & _ & _ & _ & _ & _ & _ & Hrec & Hdec & _).
  exists row. rewrite Ht.
  exact (conj eq_refl (conj Hid (conj Hdec Hrec))).
Defined.

(** X7. [save_analysis] stores the analysis exactly when the file opens,
    neither the [INSERT] nor the commit fails, the stock, the demand and
    the optimal level are 64-bit integers, the price is a float or a
    64-bit integer, and the ids are not used up. *)
Theorem save_analysis_saves_iff (f : faults) (created updated : Z) (t : tables)
    (name cat sn : string) (cs : Z) (pr : PredictionResult) :
  (exists id t', save_analysis f created updated t name cat sn cs pr = Ok (Some id, t')) <->
  open_fault f = None /\ statement_fault f 0 = None /\ statement_fault f 1 = None /\
  - 2 ^ 63 <= cs < 2 ^ 63 /\
  - 2 ^ 63 <= Predictor.predicted_demand pr < 2 ^ 63 /\
  - 2 ^ 63 <= Predictor.optimal_level (Predictor.recommendation pr) < 2 ^ 63 /\
  stored_price (Predictor.price pr) /\
  (forall old, In old (analyses t) -> row_id old < 2 ^ 63 - 1).
Proof.
  unfold save_analysis, get_db_connection, connect, execute.
  cbn [open_error query_error inventory_analysis].
  split.
  - intros (id & t' & H).
    destruct (open_fault f) as [e | ];
      cbn [mbind res_bind open_error query_error inventory_analysis] in H; [discriminate | ].
    destruct (sqlite_int cs) eqn:E1; cbn [mbind res_bind] in H; [ | discriminate].
    destruct (sqlite_int (Predictor.predicted_demand pr)) eqn:E2;
      cbn [mbind res_bind] in H; [ | discriminate].
    destruct (sqlite_real (Predictor.price pr)) eqn:E3;
      cbn [mbind res_bind] in H; [ | discriminate].
    destruct (sqlite_int (Predictor.optimal_level (Predictor.recommendation pr))) eqn:E4;
      cbn [mbind res_bind] in H; [ | discriminate].
    destruct (next_rowid row_id (analyses t)) eqn:E5;
      cbn [mbind res_bind] in H; [ | discriminate].
    destruct (statement_fault f 0); cbn [mbind res_bind] in H; [discriminate | ].
    destruct (statement_fault f 1); cbn [mbind res_bind] in H; [discriminate | ].
    repeat split; try reflexivity;
      try (apply sqlite_int_inv in E1; lia);
      try (apply sqlite_int_inv in E2; lia);
      try (apply sqlite_int_inv in E4; lia).
    + exact (sqlite_real_inv _ _ E3).
    + exact (next_rowid_full _ _ _ E5).
  - intros (Ho & H0 & H1 & Hcs & Hpd & Hopt & Hprice & Hids).
    rewrite Ho. cbn [mbind res_bind open_error query_error inventory_analysis].
    rewrite H0, H1. cbn [mbind res_bind].
    rewrite !sqlite_int_ok by assumption. cbn [mbind res_bind].
    destruct (sqlite_real_ok _ Hprice) as [y ->]. cbn [mbind res_bind].
    destruct (next_rowid_ok row_id (analyses t) Hids) as [n ->]. cbn [mbind res_bind].
    eexists _, _. reflexivity.
Qed.

Lemma save_analysis_saves_iff_witness :
  (exists id t', save_analysis no_faults 40 41 history_tables "Milk 1L" "Dairy" "Summer" 50
                   milk_prediction = Ok (Some id, t')) /\
  ~ (exists id t', save_analysis commit_fails 40 41 history_tables "Milk 1L" "Dairy" "Summer" 50
                     milk_prediction = Ok (Some id, t')).
Proof.
  split.
  - apply (proj2 (save_analysis_saves_iff no_faults 40 41 history_tables "Milk 1L" "Dairy"
                    "Summer" 50 milk_prediction)).
    split; [reflexivity | ]. split; [reflexivity | ]. split; [reflexivity | ].
    split; [vm_compute; split; [discriminate | reflexivity] | ].
    split; [vm_compute; split; [discriminate | reflexivity] | ].
    split; [vm_compute; split; [discriminate | reflexivity] | ].
    split; [vm_compute; split; [discriminate | reflexivity] | ].
    intros old [<- | [<- | [<- | []]]]; vm_compute; reflexivity.
  - intros H.
    apply (proj1 (save_analysis_saves_iff commit_fails 40 41 history_tables "Milk 1L" "Dairy"
                    "Summer" 50 milk_prediction)) in H.
    destruct H as (_ & _ & H1 & _). discriminate H1.
Defined.

(** X8. [save_chat] and [log_activity] are all or nothing as well: each
    raises only when the file cannot be opened, answers [False] with the
    tables unchanged, or answers [True] with exactly one row appended to
    its own table, under a fresh positive id and with the arguments as
    given. *)
Theorem chat_and_activity_atomic (f : faults) (now : Z) (t : tables) :
  (forall message response src,
     match save_chat f now t message response src with
     | Raise e => open_fault f = Some e
     | Ok (false, t') => t' = t
     | Ok (true, t') =>
         exists row,
           t' = {| analyses := analyses t; chats := chats t ++ [row];
                   activities := activities t |} /\
           0 < chat_id row /\ (forall old, In old (chats t) -> chat_id old < chat_id row) /\
           user_message row = message /\ bot_response row = response /\
           source row = Some src /\ chat_created_at row = now
     end) /\
  (forall type descr det,
     match log_activity f now t type descr det with
     | Raise e => open_fault f = Some e
     | Ok (false, t') => t' = t
     | Ok (true, t') =>
         exists row,
           t' = {| analyses := analyses t; chats := chats t;
                   activities := activities t ++ [row] |} /\
           0 < activity_id row /\
           (forall old, In old (activities t) -> activity_id old < activity_id row) /\
           activity_type row = type /\ description row = descr /\
           details row = det /\ activity_created_at row = now
     end).
Proof.
  split; intros;
    [unfold save_chat | unfold log_activity];
    unfold get_db_connection, connect, execute;
    cbn [open_error query_error chatbot_conversations];
    (destruct (open_fault f) as [e | ];
       cbn [mbind res_bind open_error query_error chatbot_conversations]; [reflexivity | ]);
    (step_res E; [ | reflexivity]); apply next_rowid_fresh in E as [Hid Hfresh];
    (destruct (statement_fault f 0); cbn [mbind res_bind]; [reflexivity | ]);
    (destruct (statement_fault f 1); cbn [mbind res_bind]; [reflexivity | ]);
    (eexists; split; [reflexivity | ]); cbn; repeat split; try lia; exact Hfresh.
Qed.

Lemma chat_and_activity_atomic_witness :
  save_chat commit_fails 20 first_chat "lost" "Hi there" "fallback" = Ok (false, first_chat) /\
  exists row, chats first_chat = [row] /\ chat_id row = 1 /\
    source row = Some "fallback"%string.
Proof.
  split; [reflexivity | ].
  assert (E : save_chat no_faults 10 no_tables "hi" "Hi there" "fallback"
              = Ok (true, first_chat)) by reflexivity.
  pose proof (proj1 (chat_and_activity_atomic no_faults 10 no_tables)
                "hi"%string "Hi there"%string "fallback"%string) as H.
  rewrite E in H. destruct H as (row & Ht & _ & _ & _ & _ & Hsrc & _).
  exists row. rewrite Ht.
  split; [reflexivity | ]. split; [ | exact Hsrc].
  apply (f_equal chats) in Ht. cbn in Ht. injection Ht as <-. reflexivity.
Defined.

(** *** What the writers keep *)

Lemma save_analysis_inv (f : faults) (created updated : Z) (t : tables)
    (name cat sn : string) (cs : Z) (pr : PredictionResult) out t' :
  save_analysis f created updated t name cat sn cs pr = Ok (out, t') ->
  chats t' = chats t /\ activities t' = activities t /\
  ((out = None /\ t' = t) \/
   exists id row,
     out = Some id /\ next_rowid row_id (analyses t) = Ok id /\
     analyses t' = analyses t ++ [row] /\ row_id row = id /\
     Database.product_name row = name /\ Database.category row = Some cat /\
     Database.season row = sn /\ Database.current_stock row = cs /\
     Database.predicted_demand row = Some (Predictor.predicted_demand pr) /\
     Database.decision row =
       Some (decision_label (Predictor.decision (Predictor.recommendation pr))) /\
     created_at row = created).
Proof.
  unfold save_analysis, get_db_connection, connect, execute.
  destruct (open_fault f) as [e | ];
    cbn [mbind res_bind open_error query_error inventory_analysis]; [discriminate | ].
  assert (Hnone : Ok (None, t) = Ok (out, t') ->
            chats t' = chats t /\ activities t' = activities t /\
            ((out = None /\ t' = t) \/
             exists id row,
               out = Some id /\ next_rowid row_id (analyses t) = Ok id /\
               analyses t' = analyses t ++ [row] /\ row_id row = id /\
               Database.product_name row = name /\ Database.category row = Some cat /\
               Database.season row = sn /\ Database.current_stock row = cs /\
               Database.predicted_demand row = Some (Predictor.predicted_demand pr) /\
               Database.decision row =
                 Some (decision_label (Predictor.decision (Predictor.recommendation pr))) /\
               created_at row = created)).
  { intros [= <- <-]. repeat split. left. split; reflexivity. }
  step_res E1; [ | exact Hnone]. apply sqlite_int_inv in E1 as [-> _].
  step_res E2; [ | exact Hnone]. apply sqlite_int_inv in E2 as [-> _].
  step_res E3; [ | exact Hnone].
  step_res E4; [ | exact Hnone]. apply sqlite_int_inv in E4 as [-> _].
  step_res E5; [ | exact Hnone].
  destruct (statement_fault f 0); cbn [mbind res_bind]; [exact Hnone | ].
  destruct (statement_fault f 1); cbn [mbind res_bind]; [exact Hnone | ].
  intros [= <- <-]. cbn [chats activities analyses]. repeat split.
  right. eexists _, _. repeat split.
Qed.

Lemma save_chat_inv (f : faults) (now : Z) (t : tables) (message response src : string)
    out t' :
  save_chat f now t message response src = Ok (out, t') ->
  analyses t' = analyses t /\ activities t' = activities t /\
  ((out = false /\ t' = t) \/
   exists row,
     out = true /\ next_rowid chat_id (chats t) = Ok (chat_id row) /\
     chats t' = chats t ++ [row] /\
     user_message row = message /\ bot_response row = response /\
     source row = Some src /\ chat_created_at row = now).
Proof.
  unfold save_chat, get_db_connection, connect, execute.
  destruct (open_fault f) as [e | ];
    cbn [mbind res_bind open_error query_error chatbot_conversations]; [discriminate | ].
  step_res E; [ | intros [= <- <-]; repeat split; left; split; reflexivity].
  destruct (statement_fault f 0); cbn [mbind res_bind];
    [intros [= <- <-]; repeat split; left; split; reflexivity | ].
  destruct (statement_fault f 1); cbn [mbind res_bind];
    [intros [= <- <-]; repeat split; left; split; reflexivity | ].
  intros [= <- <-]. cbn [chats activities analyses]. repeat split.
  right. eexists. repeat split. reflexivity.
Qed.

Lemma log_activity_inv (f : faults) (now : Z) (t : tables) (type descr : string)
    (det : option string) out t' :
  log_activity f now t type descr det = Ok (out, t') ->
  analyses t' = analyses t /\ chats t' = chats t /\
  ((out = false /\ t' = t) \/
   exists row,
     out = true /\ next_rowid activity_id (activities t) = Ok (activity_id row) /\
     activities t' = activities t ++ [row] /\
     activity_type row = type /\ description row = descr /\ details row = det /\
     activity_created_at row = now).
Proof.
  unfold log_activity, get_db_connection, connect, execute.
  destruct (open_fault f) as [e | ];
    cbn [mbind res_bind open_error query_error]; [discriminate | ].
  step_res E; [ | intros [= <- <-]; repeat split; left; split; reflexivity].
  destruct (statement_fault f 0); cbn [mbind res_bind];
    [intros [= <- <-]; repeat split; left; split; reflexivity | ].
  destruct (statement_fault f 1); cbn [mbind res_bind];
    [intros [= <- <-]; repeat split; left; split; reflexivity | ].
  intros [= <- <-]. cbn [chats activities analyses]. repeat split.
  right. eexists. repeat split. reflexivity.
Qed.

Lemma consecutive_snoc {A : Type} (rowid : A -> Z) (rows : list A) (row : A) :
  consecutive rowid rows -> next_rowid rowid rows = Ok (rowid row) ->
  consecutive rowid (rows ++ [row]).
Proof.
  unfold consecutive, next_rowid. intros Hc.
  rewrite (next_rowid_consecutive _ _ Hc).
  destruct (Z.of_nat (length rows) + 1 <? 2 ^ 63); [ | discriminate].
  intros [= E]. rewrite length_app, Nat.add_comm. cbn [length Nat.add].
  rewrite seq_S, !map_app, Hc. cbn [map]. rewrite <- E. f_equal. f_equal. lia.
Qed.

(** X9. In every state the three writers can reach from the empty
    tables, whatever failed on the way, the ids of each table are
    1, 2, 3, ... in table order: no id is reused and none is skipped. *)
Theorem reachable_ids_consecutive (t : tables) :
  reachable t ->
  consecutive row_id (analyses t) /\ consecutive chat_id (chats t) /\
  consecutive activity_id (activities t).
Proof.
  induction 1 as [ | f created updated t name cat sn stock result out t' _ IH Hs
                   | f now t message response src out t' _ IH Hs
                   | f now t type descr det out t' _ IH Hs ].
  - repeat split.
  - destruct IH as (Ha & Hc & Hl).
    destruct (save_analysis_inv _ _ _ _ _ _ _ _ _ _ _ Hs) as (-> & -> & Hcase).
    split; [ | split; assumption].
    destruct Hcase as [[_ ->] | (id & row & _ & Hid & -> & Hrow & _)]; [exact Ha | ].
    apply consecutive_snoc; [exact Ha | rewrite Hrow; exact Hid].
  - destruct IH as (Ha & Hc & Hl).
    destruct (save_chat_inv _ _ _ _ _ _ _ _ Hs) as (-> & -> & Hcase).
    split; [exact Ha | split; [ | exact Hl]].
    destruct Hcase as [[_ ->] | (row & _ & Hid & -> & _)]; [exact Hc | ].
    apply consecutive_snoc; assumption.
  - destruct IH as (Ha & Hc & Hl).
    destruct (log_activity_inv _ _ _ _ _ _ _ _ Hs) as (-> & -> & Hcase).
    split; [exact Ha | split; [exact Hc | ]].
    destruct Hcase as [[_ ->] | (row & _ & Hid & -> & _)]; [exact Hl | ].
    apply consecutive_snoc; assumption.
Qed.

Lemma reachable_ids_consecutive_witness :
  reachable (snd (two_chats_one_failed)) /\
  map chat_id (chats (snd two_chats_one_failed)) = [1; 2].
Proof.
  assert (H : reachable (snd two_chats_one_failed)).
  { eapply (reachable_save_chat no_faults 30 _ "again" "Hi there" "fallback" true).
    - eapply (reachable_save_chat commit_fails 20 _ "lost" "Hi there" "fallback" false).
      + eapply (reachable_save_chat no_faults 10 _ "hi" "Hi there" "fallback" true).
        * exact reachable_init.
        * reflexivity.
      + reflexivity.
    - reflexivity. }
  split; [exact H | ].
  exact (proj1 (proj2 (reachable_ids_consecutive _ H))).
Defined.

(** *** Reading back what was written *)

Lemma order_by_desc_newest {A : Type} (key : A -> Z) (x : A) (l : list A) :
  (forall y, In y l -> key y < key x) ->
  order_by_desc key (l ++ [x]) = x :: order_by_desc key l.
Proof.
  unfold order_by_desc. rewrite foldr_app. cbn [foldr insert_desc].
  induction l as [ | y l IH]; intros Hnew; [reflexivity | ].
  cbn [foldr]. rewrite IH by (intros z Hz; apply Hnew; right; exact Hz).
  cbn [insert_desc].
  destruct (Z.leb_spec (key x) (key y)) as [Hlt | _]; [ | reflexivity].
  specialize (Hnew y (or_introl eq_refl)). lia.
Qed.

Lemma product_history_ok (t : tables) (name : string) :
  get_product_history no_faults t name =
    Ok (order_by_desc created_at
          (filter (fun a => Database.product_name a = name) (analyses t))).
Proof. reflexivity. Qed.

(** X10. Saving and reading back. Once [save_analysis] has returned an
    id, the history of that product read from a healthy file consists of
    the new row and the product's earlier rows, newest first; the new
    row comes first when its clock reading is later than theirs; and the
    history of every other product is what it was. *)
Theorem history_after_save (f : faults) (created updated : Z) (t t' : tables)
    (name cat sn : string) (cs : Z) (pr : PredictionResult) (id : Z) :
  save_analysis f created updated t name cat sn cs pr = Ok (Some id, t') ->
  exists row before after,
    get_product_history no_faults t name = Ok before /\
    get_product_history no_faults t' name = Ok after /\
    row_id row = id /\ Database.current_stock row = cs /\ created_at row = created /\
    (forall a, In a after <-> a = row \/ In a before) /\
    (forall a, In a before <-> In a (analyses t) /\ Database.product_name a = name) /\
    descending created_at after /\
    ((forall old, In old before -> created_at old < created) -> after = row :: before) /\
    (forall other, other <> name ->
       get_product_history no_faults t' other = get_product_history no_faults t other).
Proof.
  intros Hs.
  destruct (save_analysis_inv _ _ _ _ _ _ _ _ _ _ _ Hs)
    as (_ & _ & [[Hout _] | (id' & row & Hout & _ & Ht' & Hid & Hname & _ & _ & Hcs & _ & _ & Hcr)]);
    [discriminate Hout | ].
  injection Hout as <-.
  exists row, (order_by_desc created_at
                 (filter (fun a => Database.product_name a = name) (analyses t))),
    (order_by_desc created_at
       (filter (fun a => Database.product_name a = name) (analyses t'))).
  rewrite !product_history_ok.
  assert (Hf : filter (fun a => Database.product_name a = name) (analyses t') =
               filter (fun a => Database.product_name a = name) (analyses t) ++ [row]).
  { rewrite Ht', filter_app. f_equal. cbn. rewrite decide_True by exact Hname. reflexivity. }
  assert (Hmem : forall a,
             In a (order_by_desc created_at
                     (filter (fun a => Database.product_name a = name) (analyses t))) <->
             In a (analyses t) /\ Database.product_name a = name).
  { intros a. split.
    - intros Ha. apply order_by_desc_elem in Ha.
      apply list_elem_of_In, list_elem_of_filter in Ha. destruct Ha as [Hn Ha].
      split; [apply list_elem_of_In; exact Ha | exact Hn].
    - intros [Ha Hn]. apply order_by_desc_elem_inv.
      apply list_elem_of_In, list_elem_of_filter. split; [exact Hn | ].
      apply list_elem_of_In. exact Ha. }
  split; [reflexivity | ]. split; [reflexivity | ].
  split; [exact Hid | ]. split; [exact Hcs | ]. split; [exact Hcr | ].
  split; [ | split; [exact Hmem | split; [ | split]]].
  - intros a. rewrite Hf. split.
    + intros Ha. apply order_by_desc_elem in Ha. apply in_app_or in Ha.
      destruct Ha as [Ha | [<- | []]]; [right | left; reflexivity].
      apply order_by_desc_elem_inv. exact Ha.
    + intros [-> | Ha]; apply order_by_desc_elem_inv; apply in_or_app.
      * right. left. reflexivity.
      * left. apply (order_by_desc_elem created_at). exact Ha.
  - apply sorted_descending, order_by_desc_sorted.
  - intros Hnew. rewrite Hf. apply order_by_desc_newest.
    intros y Hy. rewrite Hcr. apply Hnew. apply order_by_desc_elem_inv. exact Hy.
  - intros other Hother. rewrite !product_history_ok. do 2 f_equal.
    rewrite Ht', filter_app. cbn.
    rewrite decide_False by (rewrite Hname; congruence).
    apply app_nil_r.
Qed.

Lemma history_after_save_witness :
  save_analysis no_faults 40 41 history_tables "Milk 1L" "Dairy" "Summer" 50 milk_prediction
    = Ok (Some 4, snd milk_saved) /\
  exists row,
    get_product_history no_faults (snd milk_saved) "Milk 1L"
      = Ok [row; analysis 3 "Milk 1L" 50 200 30; analysis 1 "Milk 1L" 400 200 10] /\
    row_id row = 4 /\ created_at row = 40.
Proof.
  assert (H : save_analysis no_faults 40 41 history_tables "Milk 1L" "Dairy" "Summer" 50
                milk_prediction = Ok (Some 4, snd milk_saved)) by reflexivity.
  split; [exact H | ].
  destruct (history_after_save _ _ _ _ _ _ _ _ _ _ _ H)
    as (row & before & after & Hb & Ha & Hid & _ & Hcr & _ & _ & _ & Hfirst & _).
  exists row. split; [ | split; [exact Hid | exact Hcr]].
  rewrite Ha. f_equal.
  vm_compute in Hb. injection Hb as <-.
  apply Hfirst. intros old [<- | [<- | []]]; vm_compute; reflexivity.
Defined.

End StorageFacts.

(** ** The analytics summary: what its numbers are *)

Module AnalyticsFacts.
Import Predictor Database Storage Spec StorageSpec Examples StorageExamples.
Import DatabaseFacts OffersFacts StorageFacts.

(** *** Group counts *)

Lemma rows_with_cons `{EqDecision K} {A : Type} (key : A -> K) (k : K) (x : A) (rows : list A) :
  rows_with key k (x :: rows) =
  rows_with key k rows + (if decide (key x = k) then 1 else 0).
Proof.
  unfold rows_with. rewrite filter_cons.
  destruct (decide (key x = k)); cbn [length]; lia.
Qed.

Lemma rows_with_app `{EqDecision K} {A : Type} (key : A -> K) (k : K) (l1 l2 : list A) :
  rows_with key k (l1 ++ l2) = rows_with key k l1 + rows_with key k l2.
Proof. unfold rows_with. rewrite filter_app, length_app. lia. Qed.

Lemma rows_with_nonneg `{EqDecision K} {A : Type} (key : A -> K) (k : K) (rows : list A) :
  0 <= rows_with key k rows.
Proof. unfold rows_with. lia. Qed.

Lemma rows_with_pos `{EqDecision K} {A : Type} (key : A -> K) (k : K) (rows : list A) :
  0 < rows_with key k rows <-> exists a, In a rows /\ key a = k.
Proof.
  unfold rows_with. split.
  - intros H. destruct (filter (fun a => key a = k) rows) as [ | a l] eqn:E; [cbn in H; lia | ].
    exists a. assert (Ha : a ∈ filter (fun a => key a = k) rows) by (rewrite E; left).
    apply list_elem_of_filter in Ha. destruct Ha as [Hk Ha].
    split; [apply list_elem_of_In; exact Ha | exact Hk].
  - intros (a & Ha & Hk).
    assert (Hin : a ∈ filter (fun a => key a = k) rows).
    { apply list_elem_of_filter. split; [exact Hk | apply list_elem_of_In; exact Ha]. }
    destruct (filter (fun a => key a = k) rows); [inversion Hin | cbn; lia].
Qed.

Lemma count_by_lookup `{Countable K} {A : Type} (key : A -> K) (rows : list A) (k : K) :
  count_by key rows !! k =
  if rows_with key k rows =? 0 then None else Some (rows_with key k rows).
Proof.
  induction rows as [ | x rows IH].
  - reflexivity.
  - unfold count_by. cbn [foldr]. fold (count_by key rows).
    rewrite rows_with_cons. pose proof (rows_with_nonneg key k rows) as Hn.
    destruct (decide (key x = k)) as [-> | Hne].
    + rewrite lookup_insert_eq, IH.
      destruct (Z.eqb_spec (rows_with key k rows) 0) as [E | E];
        destruct (Z.eqb_spec (rows_with key k rows + 1) 0); try lia; cbn;
        rewrite ?E; reflexivity.
    + rewrite lookup_insert_ne by exact Hne. rewrite IH, Z.add_0_r. reflexivity.
Qed.

Lemma count_by_Some `{Countable K} {A : Type} (key : A -> K) (rows : list A) (k : K) (n : Z) :
  count_by key rows !! k = Some n <-> 0 < n /\ n = rows_with key k rows.
Proof.
  rewrite count_by_lookup. pose proof (rows_with_nonneg key k rows) as Hn.
  destruct (Z.eqb_spec (rows_with key k rows) 0) as [E | E]; split.
  - discriminate.
  - intros [H0 ->]. lia.
  - intros [= <-]. split; [lia | reflexivity].
  - intros [_ ->]. reflexivity.
Qed.

Lemma count_by_default `{Countable K} {A : Type} (key : A -> K) (rows : list A) (k : K) :
  default 0 (count_by key rows !! k) = rows_with key k rows.
Proof.
  rewrite count_by_lookup.
  destruct (Z.eqb_spec (rows_with key k rows) 0) as [E | E]; cbn; congruence.
Qed.

Lemma count_by_snoc `{Countable K} {A : Type} (key : A -> K) (rows : list A) (r : A) :
  count_by key (rows ++ [r]) =
  <[key r := default 0 (count_by key rows !! key r) + 1]> (count_by key rows).
Proof.
  apply map_eq. intros k. rewrite count_by_default.
  destruct (decide (key r = k)) as [<- | Hne].
  - rewrite lookup_insert_eq, count_by_lookup, rows_with_app.
    replace (rows_with key (key r) [r]) with 1
      by (unfold rows_with; cbn; rewrite decide_True by reflexivity; reflexivity).
    pose proof (rows_with_nonneg key (key r) rows).
    destruct (Z.eqb_spec (rows_with key (key r) rows + 1) 0); [lia | reflexivity].
  - rewrite lookup_insert_ne by exact Hne. rewrite !count_by_lookup, rows_with_app.
    replace (rows_with key k [r]) with 0
      by (unfold rows_with; cbn; rewrite decide_False by exact Hne; reflexivity).
    rewrite Z.add_0_r. reflexivity.
Qed.

Lemma total_insert `{Countable K} (counts : gmap K Z) (k : K) (n : Z) :
  total (<[k := n]> counts) = total counts - default 0 (counts !! k) + n.
Proof.
  unfold total.
  destruct (counts !! k) as [v | ] eqn:E; cbn [default from_option id].
  - assert (H1 : map_fold (fun (_ : K) (n acc : Z) => n + acc) 0 (<[k := n]> counts) =
                 n + map_fold (fun (_ : K) (n acc : Z) => n + acc) 0 (delete k counts)).
    { rewrite <- insert_delete_eq.
      apply map_fold_insert_L; [intros; lia | apply lookup_delete_eq]. }
    assert (H2 : map_fold (fun (_ : K) (n acc : Z) => n + acc) 0 counts =
                 v + map_fold (fun (_ : K) (n acc : Z) => n + acc) 0 (delete k counts)).
    { rewrite <- (insert_delete_id counts k v E) at 1.
      apply map_fold_insert_L; [intros; lia | apply lookup_delete_eq]. }
    lia.
  - rewrite map_fold_insert_L; [ | intros; lia | exact E]. lia.
Qed.

Lemma total_count_by `{Countable K} {A : Type} (key : A -> K) (rows : list A) :
  total (count_by key rows) = Z.of_nat (length rows).
Proof.
  induction rows as [ | x rows IH].
  - reflexivity.
  - unfold count_by. cbn [foldr]. fold (count_by key rows).
    rewrite total_insert, IH. cbn [length]. lia.
Qed.

Lemma rows_with_omap {A : Type} (key : A -> option string) (d : string) (rows : list A) :
  rows_with (fun x : string => x) d (omap key rows) = rows_with key (Some d) rows.
Proof.
  induction rows as [ | x rows IH]; [reflexivity | ].
  rewrite rows_with_cons. cbn [omap list_omap]. destruct (key x) as [v | ] eqn:E.
  - rewrite rows_with_cons, IH.
    destruct (decide (v = d)) as [-> | Hne].
    + rewrite decide_True by reflexivity. reflexivity.
    + rewrite decide_False by congruence. reflexivity.
  - rewrite decide_False by discriminate. rewrite IH. lia.
Qed.

Lemma length_omap {A : Type} (key : A -> option string) (rows : list A) :
  Z.of_nat (length (omap key rows)) = Z.of_nat (length rows) - rows_with key None rows.
Proof.
  induction rows as [ | x rows IH]; [reflexivity | ].
  rewrite rows_with_cons. cbn [omap list_omap]. destruct (key x) as [v | ] eqn:E.
  - rewrite decide_False by discriminate. cbn [length]. lia.
  - rewrite decide_True by reflexivity. cbn [length]. lia.
Qed.

(** X11. The distributions of the summary. Read from a healthy file,
    each of the four frequency maps holds, for every key that occurs,
    the number of rows with that key, which is positive, and holds
    nothing for a key that does not occur. The category counts and the
    season counts each add up to the number of analyses, the decision
    counts to the number of analyses whose decision is not NULL, and the
    source counts to the number of chats. *)
Theorem analytics_distributions (st : store) :
  open_error st = None ->
  (forall k, (k < 8)%nat -> query_error st k = None) ->
  exists s, get_analytics_data st = Ok (Summary s) /\
    total_analyses s = Z.of_nat (length (inventory_analysis st)) /\
    total_chats s = Z.of_nat (length (chatbot_conversations st)) /\
    (forall c n, categories s !! c = Some n <->
       0 < n /\ n = rows_with category c (inventory_analysis st)) /\
    (forall sn n, seasons s !! sn = Some n <->
       0 < n /\ n = rows_with season sn (inventory_analysis st)) /\
    (forall d n, decisions s !! d = Some n <->
       0 < n /\ n = rows_with decision (Some d) (inventory_analysis st)) /\
    (forall src n, chat_sources s !! src = Some n <->
       0 < n /\ n = rows_with source src (chatbot_conversations st)) /\
    total (categories s) = total_analyses s /\
    total (seasons s) = total_analyses s /\
    total (decisions s) = total_analyses s - rows_with decision None (inventory_analysis st) /\
    total (chat_sources s) = total_chats s.
Proof.
  intros Hopen Hq. unfold get_analytics_data, get_db_connection.
  rewrite Hopen. cbn [mbind res_bind].
  destruct (analytics_queries_ok st Hq) as (s & -> & H1 & H2 & H3 & H4 & _ & _ & H7 & H8).
  exists s. split; [reflexivity | ].
  rewrite H1, H2, H3, H4, H7, H8.
  split; [reflexivity | ]. split; [reflexivity | ].
  split; [intros c n; apply count_by_Some | ].
  split; [intros sn n; apply count_by_Some | ].
  split; [intros d n; rewrite count_by_Some, rows_with_omap; reflexivity | ].
  split; [intros src n; apply count_by_Some | ].
  rewrite !total_count_by, length_omap. repeat split.
Qed.

Lemma analytics_distributions_witness :
  (open_error history_store = None /\
   forall k, (k < 8)%nat -> query_error history_store k = None) /\
  exists s, get_analytics_data history_store = Ok (Summary s) /\
    total_analyses s = 3 /\ seasons s !! "Summer"%string = Some 3 /\
    categories s !! Some "Dairy"%string = Some 3 /\ total (decisions s) = 0.
Proof.
  assert (Hq : forall k, (k < 8)%nat -> query_error history_store k = None)
    by (intros k _; reflexivity).
  split; [split; [reflexivity | exact Hq] | ].
  destruct (analytics_distributions history_store eq_refl Hq)
    as (s & Hs & Htot & _ & Hc & Hsn & _ & _ & _ & _ & Hd & _).
  exists s. split; [exact Hs | ]. split; [exact Htot | ].
  split; [apply Hsn; split; reflexivity | ].
  split; [apply Hc; split; reflexivity | ].
  rewrite Hd, Htot. reflexivity.
Defined.

(** *** Ordered and limited queries *)

Lemma NoDup_limit {A B : Type} (f : A -> B) (key : A -> Z) (n : Z) (rows : list A) :
  List.NoDup (map f rows) -> List.NoDup (map f (limit n (order_by_desc key rows))).
Proof.
  intros Hnd.
  assert (Hs : List.NoDup (map f (order_by_desc key rows))).
  { apply NoDup_ListNoDup. rewrite (order_by_desc_perm key rows).
    apply NoDup_ListNoDup. exact Hnd. }
  unfold limit. destruct (n <? 0); [exact Hs | ].
  apply NoDup_ListNoDup. apply NoDup_ListNoDup in Hs.
  rewrite <- (take_drop (Z.to_nat n) (order_by_desc key rows)) in Hs.
  change (map f ?l) with (f <$> l) in Hs |- *.
  rewrite fmap_app in Hs. apply NoDup_app in Hs. tauto.
Qed.

Lemma product_counts_spec (rows : list analysis_row) :
  List.NoDup (map fst (product_counts rows)) /\
  (forall name c, In (name, c) (product_counts rows) <->
     0 < c /\ c = rows_with product_name name rows).
Proof.
  unfold product_counts. split.
  - rewrite map_map. cbn [fst]. rewrite map_id.
    apply NoDup_ListNoDup, NoDup_remove_dups.
  - intros name c. rewrite in_map_iff. split.
    + intros (n & [= <- <-] & Hn). rewrite count_by_default.
      split; [ | reflexivity]. apply rows_with_pos.
      apply list_elem_of_In, elem_of_remove_dups, list_elem_of_In, in_map_iff in Hn.
      destruct Hn as (a & Ha & Hin). exists a. split; assumption.
    + intros [Hc ->]. exists name. rewrite count_by_default. split; [reflexivity | ].
      apply rows_with_pos in Hc. destruct Hc as (a & Ha & Hk).
      apply list_elem_of_In, elem_of_remove_dups, list_elem_of_In, in_map_iff.
      exists a. split; assumption.
Qed.

(** X12. The top products of the summary. Read from a healthy file,
    the list has at most ten entries, no product twice, each with the
    number of its analyses, in descending order of that number; and a
    product with an analysis is left out only when ten are listed, each
    with at least as many analyses. *)
Theorem top_products_are_top (st : store) :
  open_error st = None ->
  (forall k, (k < 8)%nat -> query_error st k = None) ->
  exists s, get_analytics_data st = Ok (Summary s) /\
    (length (top_products s) <= 10)%nat /\
    List.NoDup (map fst (top_products s)) /\
    descending snd (top_products s) /\
    (forall name c, In (name, c) (top_products s) ->
       0 < c /\ c = rows_with product_name name (inventory_analysis st)) /\
    (forall a, In a (inventory_analysis st) ->
       ~ In (product_name a) (map fst (top_products s)) ->
       length (top_products s) = 10%nat /\
       forall name c, In (name, c) (top_products s) ->
         rows_with product_name (product_name a) (inventory_analysis st) <= c).
Proof.
  intros Hopen Hq. unfold get_analytics_data, get_db_connection.
  rewrite Hopen. cbn [mbind res_bind].
  destruct (analytics_queries_ok st Hq) as (s & -> & _ & _ & _ & _ & H5 & _).
  exists s. split; [reflexivity | ]. rewrite H5.
  destruct (product_counts_spec (inventory_analysis st)) as [Hnd Hpc].
  split; [ | split; [ | split; [ | split]]].
  - pose proof (limit_length 10 (order_by_desc snd (product_counts (inventory_analysis st)))) as Hl.
    change (10 <? 0) with false in Hl. cbv iota in Hl. lia.
  - apply NoDup_limit. exact Hnd.
  - unfold limit. cbn. apply descending_take, sorted_descending, order_by_desc_sorted.
  - intros name c Hin. apply Hpc. eapply order_by_desc_elem, limit_elem. exact Hin.
  - intros a Ha Hout.
    assert (Hrow : In (product_name a,
                       rows_with product_name (product_name a) (inventory_analysis st))
                      (product_counts (inventory_analysis st))).
    { apply Hpc. split; [ | reflexivity]. apply rows_with_pos. exists a. split; [exact Ha | reflexivity]. }
    assert (Hnot : ~ In (product_name a,
                         rows_with product_name (product_name a) (inventory_analysis st))
                        (limit 10 (order_by_desc snd (product_counts (inventory_analysis st))))).
    { intros Hc. apply Hout. apply in_map_iff. eexists. split; [ | exact Hc]. reflexivity. }
    destruct (limit 10 (order_by_desc snd (product_counts (inventory_analysis st))))
      as [ | top0 rest] eqn:Etop.
    + exfalso.
      pose proof (limit_length 10 (order_by_desc snd (product_counts (inventory_analysis st)))) as Hl.
      rewrite Etop in Hl. change (10 <? 0) with false in Hl. cbv iota in Hl.
      cbn [length] in Hl.
      pose proof (Permutation_length (order_by_desc_perm snd (product_counts (inventory_analysis st)))) as Hp.
      destruct (product_counts (inventory_analysis st)); [destruct Hrow | ].
      cbn [length] in Hp. lia.
    + rewrite <- Etop in *. split.
      * assert (Hx : In top0 (limit 10 (order_by_desc snd (product_counts (inventory_analysis st)))))
          by (rewrite Etop; left; reflexivity).
        destruct (limit_cut snd 10 _ _ _ Hx Hrow Hnot) as [_ Hlen]. lia.
      * intros name c Hin.
        destruct (limit_cut snd 10 _ _ _ Hin Hrow Hnot) as [Hle _]. exact Hle.
Qed.

Lemma top_products_are_top_witness :
  (open_error history_store = None /\
   forall k, (k < 8)%nat -> query_error history_store k = None) /\
  exists s, get_analytics_data history_store = Ok (Summary s) /\
    top_products s = [("Milk 1L"%string, 2); ("Rice"%string, 1)] /\
    descending snd (top_products s).
Proof.
  assert (Hq : forall k, (k < 8)%nat -> query_error history_store k = None)
    by (intros k _; reflexivity).
  split; [split; [reflexivity | exact Hq] | ].
  destruct (top_products_are_top history_store eq_refl Hq) as (s & Hs & _ & _ & Hd & _).
  exists s. split; [exact Hs | ]. split; [ | exact Hd].
  vm_compute in Hs. injection Hs as <-. reflexivity.
Defined.

(** X13. [get_recent_analyses n] on a file that opens and answers its
    query. For a limit of 64 bits it returns the [n] newest rows: the
    result has [min n (number of rows)] entries (all rows when [n] is
    negative), newest first, all of them rows of the table, and every
    row left out was created no later than every row returned. A limit
    outside 64 bits cannot be bound to the statement, and the result is
    the empty list whatever the table holds. *)
Theorem recent_analyses_are_newest (n : Z) (st : store) :
  open_error st = None -> query_error st 0 = None ->
  exists recent, get_recent_analyses n st = Ok recent /\
    (- 2 ^ 63 <= n < 2 ^ 63 ->
       Z.of_nat (length recent) =
         (if n <? 0 then Z.of_nat (length (inventory_analysis st))
          else Z.min n (Z.of_nat (length (inventory_analysis st)))) /\
       (forall a b, In a recent -> In b (inventory_analysis st) -> ~ In b recent ->
          created_at b <= created_at a)) /\
    (~ (- 2 ^ 63 <= n < 2 ^ 63) -> recent = []) /\
    descending created_at recent /\
    (forall a, In a recent -> In a (inventory_analysis st)).
Proof.
  intros Hopen Hq.
  destruct (decide (- 2 ^ 63 <= n < 2 ^ 63)) as [Hn | Hn].
  - exists (limit n (order_by_desc created_at (inventory_analysis st))).
    split; [exact (recent_analyses_healthy n st Hopen Hq Hn) | ].
    split; [ | split; [ | split]].
    + intros _. split.
      * rewrite limit_length.
        rewrite (Permutation_length (order_by_desc_perm created_at (inventory_analysis st))).
        reflexivity.
      * intros a b Ha Hb Hnb. exact (proj1 (limit_cut created_at n _ _ _ Ha Hb Hnb)).
    + intros Hout. contradiction.
    + unfold limit. destruct (n <? 0).
      * apply sorted_descending, order_by_desc_sorted.
      * apply descending_take, sorted_descending, order_by_desc_sorted.
    + intros a Ha. eapply order_by_desc_elem, limit_elem. exact Ha.
  - exists []. split.
    + unfold get_recent_analyses, get_db_connection. rewrite Hopen. cbn [mbind res_bind].
      assert (E : sqlite_int n = Raise OverflowError).
      { unfold sqlite_int.
        destruct (Z.leb_spec (- 2 ^ 63) n), (Z.ltb_spec n (2 ^ 63)); try reflexivity. lia. }
      rewrite E. reflexivity.
    + split; [intros Hin; contradiction | ]. split; [reflexivity | ].
      split; [intros i j a b _ Hi; discriminate Hi | intros a []].
Qed.

Lemma recent_analyses_are_newest_witness :
  (open_error history_store = None /\ query_error history_store 0 = None) /\
  (exists recent, get_recent_analyses 2 history_store = Ok recent /\
     map row_id recent = [3; 2] /\ length recent = 2%nat) /\
  get_recent_analyses (2 ^ 63) history_store = Ok [].
Proof.
  split; [split; reflexivity | ]. split.
  - destruct (recent_analyses_are_newest 2 history_store eq_refl eq_refl)
      as (recent & Hr & Hin & _).
    exists recent. split; [exact Hr | ].
    split; [vm_compute in Hr; injection Hr as <-; reflexivity | ].
    assert (H2 : - 2 ^ 63 <= 2 < 2 ^ 63) by (vm_compute; split; [discriminate | reflexivity]).
    destruct (Hin H2) as [Hlen _]. cbn in Hlen. lia.
  - destruct (recent_analyses_are_newest (2 ^ 63) history_store eq_refl eq_refl)
      as (recent & Hr & _ & Hout & _).
    rewrite Hr. f_equal. apply Hout. lia.
Defined.

(** *** The summary after a write *)

Lemma analytics_ok (t : tables) :
  exists s, get_analytics_data (connect no_faults t) = Ok (Summary s) /\
    total_analyses s = Z.of_nat (length (analyses t)) /\
    categories s = count_by category (analyses t) /\
    seasons s = count_by season (analyses t) /\
    decisions s = count_by (fun d : string => d) (omap decision (analyses t)) /\
    total_chats s = Z.of_nat (length (chats t)) /\
    chat_sources s = count_by source (chats t).
Proof.
  unfold get_analytics_data, get_db_connection.
  destruct (analytics_queries_ok (connect no_faults t) (fun k _ => eq_refl))
    as (s & Hs & H1 & H2 & H3 & H4 & _ & _ & H7 & H8).
  exists s. change (open_error (connect no_faults t)) with (@None exn).
  cbn [mbind res_bind]. rewrite Hs. repeat split; assumption.
Qed.

(** X14. A stored analysis shows in the summary: read from a healthy
    file after [save_analysis] has returned an id, the number of
    analyses is one higher, the counts of the new row's category, season
    and decision label are one higher (or 1 when they were absent), no
    other count has changed, and the chat figures are the same. *)
Theorem analytics_after_save (t t' : tables) (f : faults) (created updated : Z)
    (name cat sn : string) (cs : Z) (pr : PredictionResult) (id : Z) :
  save_analysis f created updated t name cat sn cs pr = Ok (Some id, t') ->
  exists s s',
    get_analytics_data (connect no_faults t) = Ok (Summary s) /\
    get_analytics_data (connect no_faults t') = Ok (Summary s') /\
    total_analyses s' = total_analyses s + 1 /\
    categories s' = <[Some cat := default 0 (categories s !! Some cat) + 1]> (categories s) /\
    seasons s' = <[sn := default 0 (seasons s !! sn) + 1]> (seasons s) /\
    decisions s' =
      <[decision_label (Predictor.decision (Predictor.recommendation pr)) :=
          default 0 (decisions s !!
                       decision_label (Predictor.decision (Predictor.recommendation pr))) + 1]>
        (decisions s) /\
    total_chats s' = total_chats s /\ chat_sources s' = chat_sources s.
Proof.
  destruct (analytics_ok t) as (s & Hs & H1 & H2 & H3 & H4 & H7 & H8).
  destruct (analytics_ok t') as (s' & Hs' & H1' & H2' & H3' & H4' & H7' & H8').
  intros Hsave.
  destruct (save_analysis_inv _ _ _ _ _ _ _ _ _ _ _ Hsave)
    as (Hc & _ & [[Hout _] | (id' & row & _ & _ & Ht' & _ & _ & Hcat & Hsn & _ & _ & Hdec & _)]);
    [discriminate Hout | ].
  exists s, s'. split; [exact Hs | ]. split; [exact Hs' | ].
  rewrite H1', H2', H3', H4', H7', H8', H1, H2, H3, H4, H7, H8, Ht', Hc.
  rewrite omap_app. cbn [omap list_omap]. rewrite Hdec.
  rewrite !count_by_snoc, Hcat, Hsn, length_app. cbn [length].
  repeat split. lia.
Qed.

Lemma analytics_after_save_witness :
  save_analysis no_faults 40 41 history_tables "Milk 1L" "Dairy" "Summer" 50 milk_prediction
    = Ok (Some 4, snd milk_saved) /\
  exists s', get_analytics_data (connect no_faults (snd milk_saved)) = Ok (Summary s') /\
    total_analyses s' = 4 /\ decisions s' = {[ "ADD STOCK"%string := 1 ]} /\
    seasons s' !! "Summer"%string = Some 4.
Proof.
  assert (H : save_analysis no_faults 40 41 history_tables "Milk 1L" "Dairy" "Summer" 50
                milk_prediction = Ok (Some 4, snd milk_saved)) by reflexivity.
  split; [exact H | ].
  destruct (analytics_after_save _ _ _ _ _ _ _ _ _ _ _ H)
    as (s & s' & Hs & Hs' & Htot & _ & Hsn & Hd & _).
  exists s'. split; [exact Hs' | ].
  vm_compute in Hs. injection Hs as <-.
  split; [exact Htot | ]. split; [exact Hd | ].
  rewrite Hsn. apply lookup_insert_eq.
Defined.

(** X15. A stored chat shows in the summary: read from a healthy file
    after [save_chat] has answered [True], the number of chats and the
    count of the chat's source are one higher, no other source count has
    changed, and the analysis figures are the same. *)
Theorem analytics_after_chat (t t' : tables) (f : faults) (now : Z)
    (message response src : string) :
  save_chat f now t message response src = Ok (true, t') ->
  exists s s',
    get_analytics_data (connect no_faults t) = Ok (Summary s) /\
    get_analytics_data (connect no_faults t') = Ok (Summary s') /\
    total_chats s' = total_chats s + 1 /\
    chat_sources s' = <[Some src := default 0 (chat_sources s !! Some src) + 1]> (chat_sources s) /\
    total_analyses s' = total_analyses s /\ categories s' = categories s /\
    seasons s' = seasons s /\ decisions s' = decisions s.
Proof.
  destruct (analytics_ok t) as (s & Hs & H1 & H2 & H3 & H4 & H7 & H8).
  destruct (analytics_ok t') as (s' & Hs' & H1' & H2' & H3' & H4' & H7' & H8').
  intros Hsave.
  destruct (save_chat_inv _ _ _ _ _ _ _ _ Hsave)
    as (Ha & _ & [[Hout _] | (row & _ & _ & Ht' & _ & _ & Hsrc & _)]);
    [discriminate Hout | ].
  exists s, s'. split; [exact Hs | ]. split; [exact Hs' | ].
  rewrite H1', H2', H3', H4', H7', H8', H1, H2, H3, H4, H7, H8, Ht', Ha.
  rewrite count_by_snoc, Hsrc, length_app. cbn [length].
  repeat split. lia.
Qed.

Lemma analytics_after_chat_witness :
  save_chat no_faults 10 no_tables "hi" "Hi there" "fallback" = Ok (true, first_chat) /\
  exists s', get_analytics_data (connect no_faults first_chat) = Ok (Summary s') /\
    total_chats s' = 1 /\ chat_sources s' = {[ Some "fallback"%string := 1 ]}.
Proof.
  assert (H : save_chat no_faults 10 no_tables "hi" "Hi there" "fallback"
              = Ok (true, first_chat)) by reflexivity.
  split; [exact H | ].
  destruct (analytics_after_chat _ _ _ _ _ _ _ H) as (s & s' & Hs & Hs' & Htot & Hsrc & _).
  exists s'. split; [exact Hs' | ].
  vm_compute in Hs. injection Hs as <-.
  split; [exact Htot | exact Hsrc].
Defined.

End AnalyticsFacts.

(** ** The handlers and the store *)

Module ServerFacts.
Import Binary64 Binary64Facts Predictor Database Storage ListOffers App Server.
Import Spec PredictorSpec StorageSpec Examples StorageExamples ServerExamples.
Import PredictorFacts PredictorMore OffersFacts StorageFacts.

(** *** Decisions and offers *)

Lemma decision_offers (name : string) (cs pd : Z) (items : list offer) :
  0 <= pd <= 2 ^ 51 ->
  item_offers_of name cs pd = Ok items ->
  (Predictor.decision (recommend_spec cs pd) = ADD_STOCK -> items = []) /\
  (Predictor.decision (recommend_spec cs pd) = REDUCE_STOCK -> 0 < pd ->
     existsb is_discount items = true /\ existsb is_bogo items = true) /\
  (Predictor.decision (recommend_spec cs pd) = MAINTAIN -> 0 < pd ->
     (existsb is_discount items = true <-> pd < cs)) /\
  (pd = 0 -> items = []).
Proof.
  intros Hpd Hitems.
  assert (H53 : 3 * pd < 2 ^ 53).
  { change (2 ^ 53) with 9007199254740992. change (2 ^ 51) with 2251799813685248 in Hpd. lia. }
  destruct (item_offers_spec _ _ _ _ Hitems) as (Hd & Hb & Hany).
  rewrite (bogo_due_exact_iff cs pd H53) in Hb, Hany.
  unfold discount_due in Hd, Hany. unfold bogo_due_exact in Hb, Hany.
  rewrite fifteen_tenths_floor in Hb, Hany.
  assert (Hs : 0 <= pd * 2 / 10) by (apply Z.div_pos; lia).
  assert (Hh : pd <= 3 * pd / 2) by (apply Z.div_le_lower_bound; lia).
  assert (Hu : 2 * (3 * pd / 2) <= 3 * pd) by (apply Z.mul_div_le; lia).
  split; [ | split; [ | split]].
  - intros Hdec. destruct items as [ | o items]; [reflexivity | exfalso].
    assert (Hlt : cs < pd).
    { revert Hdec. unfold recommend_spec.
      destruct (Z.ltb_spec cs pd); [intros _; assumption | ].
      destruct (3 * (pd + pd * 2 / 10) <? 2 * cs); discriminate. }
    destruct (proj1 Hany ltac:(discriminate)) as [[? ?] | [? ?]]; lia.
  - intros Hdec Hpos.
    assert (Hgt : 3 * (pd + pd * 2 / 10) < 2 * cs).
    { revert Hdec. unfold recommend_spec.
      destruct (cs <? pd); [discriminate | ].
      destruct (Z.ltb_spec (3 * (pd + pd * 2 / 10)) (2 * cs)); [intros _; assumption | discriminate]. }
    split; [apply Hd | apply Hb]; split; lia.
  - intros Hdec Hpos.
    assert (Hge : pd <= cs).
    { revert Hdec. unfold recommend_spec.
      destruct (Z.ltb_spec cs pd); [discriminate | intros _; assumption]. }
    rewrite Hd. split; [tauto | intros; split; lia].
  - intros ->. destruct items as [ | o items]; [reflexivity | exfalso].
    destruct (proj1 Hany ltac:(discriminate)) as [[? ?] | [? ?]]; lia.
Qed.

(** X16. The recommendation and the offers script agree on a product
    analysed with stock [cs] and demand [pd]: a product that has to be
    restocked gets no offer, a product that has to be reduced gets both
    the discount and the buy-one-get-one offer, under MAINTAIN the
    discount is offered exactly when the stock exceeds the demand, and
    without demand there is no offer at all. *)
Theorem offers_follow_decision (name : string) (cs pd : Z) (sn : string) :
  0 <= pd <= 2 ^ 51 ->
  exists r items,
    _generate_recommendation cs pd sn = Ok r /\
    item_offers_of name cs pd = Ok items /\
    (Predictor.decision r = ADD_STOCK -> items = []) /\
    (Predictor.decision r = REDUCE_STOCK -> 0 < pd ->
       existsb is_discount items = true /\ existsb is_bogo items = true) /\
    (Predictor.decision r = MAINTAIN -> 0 < pd ->
       (existsb is_discount items = true <-> pd < cs)) /\
    (pd = 0 -> items = []).
Proof.
  intros Hpd.
  destruct (item_offers_total name cs pd) as [items Hitems].
  { change (2 ^ 63) with 9223372036854775808.
    change (2 ^ 51) with 2251799813685248 in Hpd. lia. }
  exists (recommend_spec cs pd), items.
  split; [apply generate_recommendation_refines; exact Hpd | ].
  split; [exact Hitems | ].
  exact (decision_offers name cs pd items Hpd Hitems).
Qed.

Lemma offers_follow_decision_witness :
  0 <= 200 <= 2 ^ 51 /\
  exists r items,
    _generate_recommendation 400 200 "Summer" = Ok r /\
    item_offers_of "Milk 1L" 400 200 = Ok items /\
    Predictor.decision r = REDUCE_STOCK /\
    existsb is_discount items = true /\ existsb is_bogo items = true.
Proof.
  assert (H : 0 <= 200 <= 2 ^ 51) by (vm_compute; split; discriminate).
  split; [exact H | ].
  destruct (offers_follow_decision "Milk 1L" 400 200 "Summer" H)
    as (r & items & Hr & Hi & _ & Hred & _).
  exists r, items. split; [exact Hr | ]. split; [exact Hi | ].
  assert (Hd : Predictor.decision r = REDUCE_STOCK)
    by (vm_compute in Hr; injection Hr as <-; reflexivity).
  split; [exact Hd | ]. apply (Hred Hd). lia.
Defined.

(** *** The analysis request *)

Lemma api_analyze_inv (int_of_str : string -> option Z) (predictor : InventoryPredictor)
    (data : analyze_body) (name : string) (stock : Z) (sn : string)
    (result : res PredictionResult) :
  api_analyze int_of_str predictor data = Analyzed name stock sn result ->
  body_product data = Some name /\ body_season data = Some sn /\
  (exists v, body_stock data = Some v /\ py_int int_of_str v = Ok stock) /\
  result = predict_stock_requirement predictor name stock sn.
Proof.
  unfold api_analyze.
  destruct (body_product data) as [p | ]; [ | discriminate].
  destruct (body_season data) as [s | ]; [ | discriminate].
  destruct (body_stock data) as [v | ]; [ | discriminate].
  destruct (py_int int_of_str v) as [z | e] eqn:E; [ | destruct e; discriminate].
  intros [= <- <- <- <-]. repeat split. exists v. split; [reflexivity | exact E].
Qed.

Lemma api_analyze_rejects (int_of_str : string -> option Z) (predictor : InventoryPredictor)
    (data : analyze_body) (status : Z) (error : string) :
  api_analyze int_of_str predictor data = Rejected status error -> status = 400.
Proof.
  unfold api_analyze.
  destruct (body_product data) as [p | ]; [ | intros [= <- _]; reflexivity].
  destruct (body_season data) as [s | ]; [ | intros [= <- _]; reflexivity].
  destruct (body_stock data) as [v | ]; [ | intros [= <- _]; reflexivity].
  destruct (py_int int_of_str v) as [z | e] eqn:E; [discriminate | ].
  destruct e; try discriminate; intros [= <- _]; reflexivity.
Qed.

(** X17. What a request to [/api/analyze] can do to the store. A
    rejected request has status 400 and writes nothing. A request that
    is answered with a prediction has status 200, and one that fails
    leaves the activities as they were; in both cases the chats are
    untouched and the analyses and the activities have gained at most
    one row each, the activity being of type [inventory_analysis]. *)
Theorem analyze_request_effects (int_of_str : string -> option Z)
    (predictor : InventoryPredictor) (saving logging : faults)
    (created updated logged : Z) (t : tables) (data : analyze_body) :
  match api_analyze_request int_of_str predictor saving logging created updated logged t data
  with
  | (AnalyzeError status _, t') => status = 400 /\ t' = t
  | (Prediction status r, t') =>
      status = 200 /\
      (exists name stock sn,
         api_analyze int_of_str predictor data = Analyzed name stock sn (Ok r)) /\
      chats t' = chats t /\
      (analyses t' = analyses t \/ exists row, analyses t' = analyses t ++ [row]) /\
      (activities t' = activities t \/
       exists row, activities t' = activities t ++ [row] /\
                   activity_type row = "inventory_analysis"%string)
  | (AnalyzeFailure e, t') =>
      chats t' = chats t /\ activities t' = activities t /\
      (analyses t' = analyses t \/ exists row, analyses t' = analyses t ++ [row])
  end.
Proof.
  unfold api_analyze_request.
  destruct (api_analyze int_of_str predictor data) as [status error | e | name stock sn [r | e]]
    eqn:Ereq.
  - split; [exact (api_analyze_rejects _ _ _ _ _ Ereq) | reflexivity].
  - repeat split. left. reflexivity.
  - set (t1 := match save_analysis saving created updated t name (Predictor.category r)
                       sn stock r with
               | Ok (_, t1) => t1
               | Raise _ => t
               end).
    assert (H1 : chats t1 = chats t /\ activities t1 = activities t /\
                 (analyses t1 = analyses t \/ exists row, analyses t1 = analyses t ++ [row])).
    { subst t1.
      destruct (save_analysis saving created updated t name (Predictor.category r) sn stock r)
        as [[out t1] | e] eqn:Es; [ | repeat split; left; reflexivity].
      destruct (save_analysis_inv _ _ _ _ _ _ _ _ _ _ _ Es)
        as (Hc & Ha & [[_ ->] | (id & row & _ & _ & Hrow & _)]).
      - repeat split. left. reflexivity.
      - split; [exact Hc | ]. split; [exact Ha | ]. right. exists row. exact Hrow. }
    destruct H1 as (Hc1 & Ha1 & Hr1).
    destruct (log_activity logging logged t1 _ _ _) as [[out t2] | e] eqn:El.
    + destruct (log_activity_inv _ _ _ _ _ _ _ _ El) as (Ha2 & Hc2 & Hcase).
      split; [reflexivity | ]. split; [exists name, stock, sn; reflexivity | ].
      split; [congruence | ]. split; [rewrite Ha2; exact Hr1 | ].
      destruct Hcase as [[_ ->] | (row & _ & _ & Hrow & Htype & _)].
      * left. exact Ha1.
      * right. exists row. split; [rewrite Hrow, Ha1; reflexivity | exact Htype].
    + split; [exact Hc1 | ]. split; [exact Ha1 | exact Hr1].
  - repeat split. left. reflexivity.
Qed.

Lemma analyze_request_effects_witness :
  overstock_request = (Prediction 200 overstock_prediction, snd overstock_request) /\
  chats (snd overstock_request) = chats history_tables /\
  (activities (snd overstock_request) = activities history_tables \/
   exists row, activities (snd overstock_request) = activities history_tables ++ [row] /\
               activity_type row = "inventory_analysis"%string).
Proof.
  assert (E : api_analyze_request toy_int_of_str demo_predictor no_faults no_faults 40 41 42
                history_tables (request_with_stock (JInt 500))
              = (Prediction 200 overstock_prediction, snd overstock_request))
    by (vm_compute; reflexivity).
  split; [exact E | ].
  pose proof (analyze_request_effects toy_int_of_str demo_predictor no_faults no_faults
                40 41 42 history_tables (request_with_stock (JInt 500))) as H.
  rewrite E in H. destruct H as (_ & _ & Hc & _ & Ha).
  exact (conj Hc Ha).
Defined.

Lemma save_analysis_ok (created updated : Z) (t : tables) (name cat sn : string) (cs : Z)
    (pr : PredictionResult) :
  - 2 ^ 63 <= cs < 2 ^ 63 ->
  - 2 ^ 63 <= Predictor.predicted_demand pr < 2 ^ 63 ->
  - 2 ^ 63 <= Predictor.optimal_level (Predictor.recommendation pr) < 2 ^ 63 ->
  stored_price (Predictor.price pr) ->
  (forall old, In old (analyses t) -> row_id old < 2 ^ 63 - 1) ->
  exists id t', save_analysis no_faults created updated t name cat sn cs pr = Ok (Some id, t').
Proof.
  intros Hcs Hpd Hopt Hprice Hids.
  unfold save_analysis, get_db_connection, connect, execute.
  cbn [no_faults open_fault statement_fault mbind res_bind open_error query_error
       inventory_analysis].
  rewrite !sqlite_int_ok by assumption. cbn [mbind res_bind].
  destruct (sqlite_real_ok _ Hprice) as [y ->]. cbn [mbind res_bind].
  destruct (next_rowid_ok row_id (analyses t) Hids) as [n ->]. cbn [mbind res_bind].
  eexists _, _. reflexivity.
Qed.

Lemma save_analysis_overflow (f : faults) (created updated : Z) (t : tables)
    (name cat sn : string) (cs : Z) (pr : PredictionResult) :
  ~ (- 2 ^ 63 <= cs < 2 ^ 63) ->
  match save_analysis f created updated t name cat sn cs pr with
  | Ok (_, t1) => t1
  | Raise _ => t
  end = t.
Proof.
  intros Hcs. unfold save_analysis, get_db_connection.
  destruct (open_error (connect f t)); cbn [mbind res_bind]; [reflexivity | ].
  assert (E : sqlite_int cs = Raise OverflowError).
  { unfold sqlite_int.
    destruct (Z.leb_spec (- 2 ^ 63) cs), (Z.ltb_spec cs (2 ^ 63)); try reflexivity. lia. }
  rewrite E. reflexivity.
Qed.

(** X18. The answer does not tell whether the analysis was stored. For
    a request that reaches the predictor and gets a prediction: when the
    stock is not a 64-bit integer and the file opens for the log, the
    answer is the prediction with status 200 although no analysis is
    stored; and when the analysis is stored but the file does not open
    for the log, the exception leaves the handler although the new row
    stays in the table. *)
Theorem analyze_response_and_storage (int_of_str : string -> option Z)
    (predictor : InventoryPredictor) (saving logging : faults)
    (created updated logged : Z) (t : tables) (data : analyze_body)
    (name sn : string) (stock : Z) (r : PredictionResult) :
  api_analyze int_of_str predictor data = Analyzed name stock sn (Ok r) ->
  (~ (- 2 ^ 63 <= stock < 2 ^ 63) -> open_fault logging = None ->
   exists t',
     api_analyze_request int_of_str predictor saving logging created updated logged t data
       = (Prediction 200 r, t') /\
     analyses t' = analyses t) /\
  (forall id t1 e,
     save_analysis saving created updated t name (Predictor.category r) sn stock r
       = Ok (Some id, t1) ->
     open_fault logging = Some e ->
     api_analyze_request int_of_str predictor saving logging created updated logged t data
       = (AnalyzeFailure e, t1) /\
     analyses t1 <> analyses t).
Proof.
  intros Hreq. unfold api_analyze_request. rewrite Hreq. split.
  - intros Hstock Hopen. rewrite save_analysis_overflow by exact Hstock.
    destruct (log_activity logging logged t _ _ _) as [[out t2] | e] eqn:El.
    + exists t2. split; [reflexivity | ].
      destruct (log_activity_inv _ _ _ _ _ _ _ _ El) as (Ha & _). exact Ha.
    + exfalso. revert El. unfold log_activity, get_db_connection, connect.
      cbn [open_error]. rewrite Hopen. cbn [mbind res_bind].
      match goal with |- match ?m with _ => _ end = _ -> _ => destruct m end; discriminate.
  - intros id t1 e Hsave Hopen. rewrite Hsave. split.
    + unfold log_activity, get_db_connection, connect. cbn [open_error].
      rewrite Hopen. reflexivity.
    + destruct (save_analysis_inv _ _ _ _ _ _ _ _ _ _ _ Hsave)
        as (_ & _ & [[Hout _] | (id' & row & _ & _ & Hrow & _)]); [discriminate Hout | ].
      rewrite Hrow. intros Heq.
      apply (f_equal (@length analysis_row)) in Heq.
      rewrite length_app in Heq. cbn in Heq. lia.
Qed.

Lemma analyze_response_and_storage_witness :
  api_analyze toy_int_of_str demo_predictor (request_with_stock (JInt (2 ^ 63)))
    = Analyzed "Milk 1L" (2 ^ 63) "Summer" (Ok overstocked_prediction) /\
  ~ (- 2 ^ 63 <= 2 ^ 63 < 2 ^ 63) /\ open_fault no_faults = None /\
  exists t',
    api_analyze_request toy_int_of_str demo_predictor no_faults no_faults 40 41 42
      history_tables (request_with_stock (JInt (2 ^ 63)))
      = (Prediction 200 overstocked_prediction, t') /\
    analyses t' = analyses history_tables /\
    Predictor.decision (Predictor.recommendation overstocked_prediction) = REDUCE_STOCK.
Proof.
  assert (H : api_analyze toy_int_of_str demo_predictor (request_with_stock (JInt (2 ^ 63)))
              = Analyzed "Milk 1L" (2 ^ 63) "Summer" (Ok overstocked_prediction))
    by (vm_compute; reflexivity).
  assert (Hbig : ~ (- 2 ^ 63 <= 2 ^ 63 < 2 ^ 63)) by lia.
  split; [exact H | ]. split; [exact Hbig | ]. split; [reflexivity | ].
  destruct (proj1 (analyze_response_and_storage toy_int_of_str demo_predictor
                     no_faults no_faults 40 41 42 history_tables _ _ _ _ _ H) Hbig eq_refl)
    as (t' & Ht' & Ha).
  exists t'. split; [exact Ht' | ]. split; [exact Ha | ]. vm_compute. reflexivity.
Defined.

(** *** A patterns file is not validated *)

Lemma nonfinite_product (base : Z) :
  In base [150; 200; 180; 120; 140; 90; 160; 80; 70; 100] ->
  py_int_of_mul base S754_nan = Raise ValueError /\
  forall s, py_int_of_mul base (S754_infinity s) = Raise OverflowError.
Proof.
  cbn [In]. intros H.
  repeat (destruct H as [<- | H]; [split; [reflexivity | intros []; reflexivity] | ]).
  destruct H.
Qed.

(** X25. The multipliers of a patterns file are used as they are. When
    the file gives a NaN for the season and category of a catalog
    product, every prediction for that product raises [ValueError], and
    when it gives an infinity, [OverflowError]; a request to
    [/api/analyze] for the product then ends with that exception leaving
    the handler, and nothing is written to the store. *)
Theorem nonfinite_multiplier_raises (int_of_str : string -> option Z)
    (self : InventoryPredictor) (p : Product) (before after : list Product)
    (saving logging : faults) (created updated logged : Z) (t : tables)
    (data : analyze_body) (stock : json) (sn : string) (cs : Z) (e : exn) :
  products_data self = before ++ p :: after ->
  (forall q, In q before -> p_name q <> p_name p) ->
  (multiplier (seasonal_patterns self) sn (default "Groceries"%string (p_category p))
     = S754_nan /\ e = ValueError \/
   (exists s, multiplier (seasonal_patterns self) sn
                (default "Groceries"%string (p_category p)) = S754_infinity s) /\
   e = OverflowError) ->
  body_product data = Some (p_name p) -> body_season data = Some sn ->
  body_stock data = Some stock -> py_int int_of_str stock = Ok cs ->
  predict_stock_requirement self (p_name p) cs sn = Raise e /\
  api_analyze_request int_of_str self saving logging created updated logged t data
    = (AnalyzeFailure e, t).
Proof.
  intros Hcat Hfirst Hm Hbp Hbs Hbst Hint.
  assert (Hpred : predict_stock_requirement self (p_name p) cs sn = Raise e).
  { unfold predict_stock_requirement.
    rewrite (find_first _ _ _ _ _ Hcat eq_refl Hfirst).
    destruct (nonfinite_product _ (base_demand_cases (default "Groceries"%string (p_category p))))
      as [Hnan Hinf].
    destruct Hm as [[-> ->] | [[s ->] ->]].
    - rewrite Hnan. reflexivity.
    - rewrite Hinf. reflexivity. }
  split; [exact Hpred | ].
  unfold api_analyze_request, api_analyze. rewrite Hbp, Hbs, Hbst, Hint, Hpred. reflexivity.
Qed.

Lemma nonfinite_multiplier_raises_witness :
  (products_data broken_predictor = [] ++ milk :: [] /\
   (forall q, In q [] -> p_name q <> p_name milk) /\
   py_int toy_int_of_str (JInt 50) = Ok 50) /\
  api_analyze_request toy_int_of_str broken_predictor no_faults no_faults 40 41 42
    history_tables (request_with_stock (JInt 50))
  = (AnalyzeFailure ValueError, history_tables).
Proof.
  assert (H2 : forall q : Product, In q [] -> p_name q <> p_name milk) by (intros q []).
  split; [exact (conj eq_refl (conj H2 eq_refl)) | ].
  exact (proj2 (nonfinite_multiplier_raises toy_int_of_str broken_predictor milk [] []
                  no_faults no_faults 40 41 42 history_tables
                  (request_with_stock (JInt 50)) (JInt 50) "Summer" 50 ValueError
                  eq_refl H2 (or_introl (conj eq_refl eq_refl)) eq_refl eq_refl eq_refl eq_refl)).
Defined.

(** *** From the analysis to the offers *)

Lemma optimal_level_spec (cs pd : Z) :
  Predictor.optimal_level (recommend_spec cs pd) = pd + pd * 2 / 10.
Proof.
  unfold recommend_spec. destruct (cs <? pd); [reflexivity | ].
  destruct (3 * (pd + pd * 2 / 10) <? 2 * cs); reflexivity.
Qed.

Lemma recent_analyses_ok (t : tables) :
  get_recent_analyses 1000 (connect no_faults t) =
    Ok (limit 1000 (order_by_desc created_at (analyses t))).
Proof.
  apply (recent_analyses_healthy 1000 (connect no_faults t)); try reflexivity.
  vm_compute. split; [discriminate | reflexivity].
Qed.

(** X19. From the request to the offers script. Let a request to
    [/api/analyze] be answered with a prediction by a predictor with the
    built-in table, on a healthy file, at a clock reading later than
    every stored analysis. Then the offers script, run afterwards,
    judges the product by this very analysis: an entry for the product
    carries the request's stock and the predicted demand; a product
    that has to be restocked is not listed; and a product that has to be
    reduced is listed with both offers. *)
Theorem analysis_then_offers (int_of_str : string -> option Z)
    (predictor : InventoryPredictor) (created updated logged : Z)
    (t t' : tables) (data : analyze_body) (r : PredictionResult)
    (offers : list offer_entry) :
  seasonal_patterns predictor = _get_default_seasonal_patterns ->
  api_analyze_request int_of_str predictor no_faults no_faults created updated logged t data
    = (Prediction 200 r, t') ->
  - 2 ^ 63 <= Predictor.current_stock r < 2 ^ 63 ->
  stored_price (Predictor.price r) ->
  (forall old, In old (analyses t) -> row_id old < 2 ^ 63 - 1 /\ created_at old < created) ->
  product r <> ""%string ->
  main (connect no_faults t') = Ok offers ->
  body_product data = Some (product r) /\
  (forall e, In e offers -> entry_product_name e = product r ->
     entry_current_stock e = Predictor.current_stock r /\
     entry_predicted_demand e = Predictor.predicted_demand r /\
     entry_category e = Some (Predictor.category r)) /\
  (Predictor.decision (Predictor.recommendation r) = ADD_STOCK ->
     forall e, In e offers -> entry_product_name e <> product r) /\
  (Predictor.decision (Predictor.recommendation r) = REDUCE_STOCK ->
     exists e, In e offers /\ entry_product_name e = product r /\
       existsb is_discount (entry_offers e) = true /\
       existsb is_bogo (entry_offers e) = true).
Proof.
  intros Hpat Hreq Hstock Hprice Hold Hname Hmain.
  unfold api_analyze_request in Hreq.
  destruct (api_analyze int_of_str predictor data) as [status error | e | name stock sn [r0 | e]]
    eqn:Ereq; try discriminate Hreq.
  destruct (api_analyze_inv _ _ _ _ _ _ _ Ereq) as (Hbody & _ & _ & Hpred).
  symmetry in Hpred.
  set (t1 := match save_analysis no_faults created updated t name (Predictor.category r0)
                       sn stock r0 with
             | Ok (_, t1) => t1
             | Raise _ => t
             end) in Hreq.
  destruct (log_activity no_faults logged t1 _ _ _) as [[out t2] | e] eqn:El;
    [ | discriminate Hreq].
  injection Hreq as -> ->.
  destruct (builtin_prediction_inv _ _ _ _ _ Hpat Hpred) as (Hp & Hc & _ & Hpd & Hrec).
  rewrite <- Hc in Hrec.
  destruct (log_activity_inv _ _ _ _ _ _ _ _ El) as (Ha' & _).
  assert (Hpd51 : 0 <= Predictor.predicted_demand r <= 2 ^ 51)
    by (change (2 ^ 51) with 2251799813685248; lia).
  assert (Hsafe : 0 <= Predictor.predicted_demand r * 2 / 10 <= 54).
  { split; [apply Z.div_pos; lia | apply Z.div_le_upper_bound; lia]. }
  destruct (save_analysis_ok created updated t name (Predictor.category r) sn stock r)
    as (id & ts & Hsave).
  { rewrite <- Hc. exact Hstock. }
  { change (2 ^ 63) with 9223372036854775808. lia. }
  { rewrite Hrec, optimal_level_spec. change (2 ^ 63) with 9223372036854775808. lia. }
  { exact Hprice. }
  { intros old Ho. exact (proj1 (Hold old Ho)). }
  assert (Et1 : t1 = ts) by (subst t1; rewrite Hsave; reflexivity).
  destruct (save_analysis_inv _ _ _ _ _ _ _ _ _ _ _ Hsave)
    as (_ & _ & [[Hout _] | (id' & row & _ & _ & Hrows & _ & Hrn & Hrc & _ & Hrs & Hrd & _ & Hcr)]);
    [discriminate Hout | ].
  rewrite <- Et1 in Hrows. rewrite <- Ha' in Hrows.
  unfold main in Hmain. rewrite recent_analyses_ok in Hmain. cbn [mbind res_bind] in Hmain.
  rewrite Hrows in Hmain.
  rewrite order_by_desc_newest in Hmain
    by (intros y Hy; rewrite Hcr; exact (proj2 (Hold y Hy))).
  change (limit 1000 (row :: ?l)) with (row :: take 999 l) in Hmain.
  destruct (offers_loop_spec _ _ _ _ Hmain) as (new & Hout & H1 & H2 & _).
  cbn [app] in Hout. subst new.
  assert (Hfirst : first_unseen (row :: take 999 (order_by_desc created_at (analyses t))) ∅ 0 row).
  { split; [reflexivity | ]. split; [rewrite Hrn, <- Hp; exact Hname | ].
    split; [apply not_elem_of_empty | ]. intros j b Hj. lia. }
  assert (Hitems : items_of row =
                   item_offers_of (product r) (Predictor.current_stock r)
                     (Predictor.predicted_demand r)).
  { unfold items_of. rewrite Hrn, Hrs, Hrd, Hp, Hc. reflexivity. }
  split; [rewrite Hp; exact Hbody | ].
  split; [ | split].
  - intros e He Hen.
    destruct (H1 e He) as (i & a & items & Hf & _ & _ & ->).
    cbn [entry_of entry_product_name] in Hen.
    destruct (first_unseen_unique _ _ _ _ _ _ Hfirst Hf) as [_ ->].
    { rewrite Hen, Hrn, Hp. reflexivity. }
    cbn [entry_of entry_current_stock entry_predicted_demand entry_category].
    rewrite Hrs, Hrd, Hrc, Hc. repeat split.
  - intros Hdec e He Hen.
    destruct (H1 e He) as (i & a & items & Hf & Hi & Hne & ->).
    cbn [entry_of entry_product_name] in Hen.
    destruct (first_unseen_unique _ _ _ _ _ _ Hfirst Hf) as [_ ->].
    { rewrite Hen, Hrn, Hp. reflexivity. }
    rewrite Hitems in Hi. rewrite Hrec in Hdec.
    apply Hne. exact (proj1 (decision_offers _ _ _ _ Hpd51 Hi) Hdec).
  - intros Hdec. destruct (H2 0%nat row Hfirst) as (items & Hi & Hin).
    rewrite Hitems in Hi. rewrite Hrec in Hdec.
    destruct (proj1 (proj2 (decision_offers _ _ _ _ Hpd51 Hi)) Hdec ltac:(lia)) as [Hd Hb].
    exists (entry_of row items). split; [ | split; [ | split]].
    + apply Hin. intros ->. discriminate Hd.
    + cbn [entry_of entry_product_name]. rewrite Hrn, Hp. reflexivity.
    + exact Hd.
    + exact Hb.
Qed.

Lemma analysis_then_offers_witness :
  (seasonal_patterns demo_predictor = _get_default_seasonal_patterns /\
   overstock_request = (Prediction 200 overstock_prediction, snd overstock_request) /\
   - 2 ^ 63 <= Predictor.current_stock overstock_prediction < 2 ^ 63 /\
   stored_price (Predictor.price overstock_prediction) /\
   (forall old, In old (analyses history_tables) ->
      row_id old < 2 ^ 63 - 1 /\ created_at old < 40) /\
   product overstock_prediction <> ""%string /\
   main (connect no_faults (snd overstock_request)) = Ok overstock_offers) /\
  exists e, In e overstock_offers /\ entry_product_name e = "Milk 1L"%string /\
    entry_current_stock e = 500 /\ entry_predicted_demand e = 200 /\
    existsb is_discount (entry_offers e) = true /\ existsb is_bogo (entry_offers e) = true.
Proof.
  assert (H2 : overstock_request = (Prediction 200 overstock_prediction, snd overstock_request))
    by (vm_compute; reflexivity).
  assert (H3 : - 2 ^ 63 <= Predictor.current_stock overstock_prediction < 2 ^ 63)
    by (vm_compute; split; [discriminate | reflexivity]).
  assert (H4 : stored_price (Predictor.price overstock_prediction))
    by (vm_compute; split; [discriminate | reflexivity]).
  assert (H5 : forall old, In old (analyses history_tables) ->
                 row_id old < 2 ^ 63 - 1 /\ created_at old < 40)
    by (intros old [<- | [<- | [<- | []]]]; vm_compute; split; reflexivity).
  assert (H6 : product overstock_prediction <> ""%string) by (vm_compute; discriminate).
  assert (H7 : main (connect no_faults (snd overstock_request)) = Ok overstock_offers)
    by (vm_compute; reflexivity).
  split; [exact (conj eq_refl (conj H2 (conj H3 (conj H4 (conj H5 (conj H6 H7)))))) | ].
  destruct (analysis_then_offers toy_int_of_str demo_predictor 40 41 42 history_tables _ _ _ _
              eq_refl H2 H3 H4 H5 H6 H7) as (_ & Hentry & _ & Hreduce).
  destruct (Hreduce ltac:(vm_compute; reflexivity)) as (e & He & Hn & Hd & Hb).
  exists e. destruct (Hentry e He Hn) as (Hs & Hp & _).
  exact (conj He (conj Hn (conj Hs (conj Hp (conj Hd Hb))))).
Defined.

(** *** The chat request *)

Section ChatFacts.

Variable strip : string -> string.
Variable lower : string -> string.
Variable first_chars : nat -> string -> string.

Lemma save_and_log_inv (saving logging : faults) (saved logged : Z) (t : tables)
    (message response src descr : string) :
  let t' := save_and_log first_chars saving logging saved logged t message response src descr in
  analyses t' = analyses t /\
  (chats t' = chats t \/
   exists row, chats t' = chats t ++ [row] /\ user_message row = message /\
     bot_response row = response /\ source row = Some src /\ chat_created_at row = saved) /\
  (activities t' = activities t \/
   exists row, activities t' = activities t ++ [row] /\
     activity_type row = "chatbot_interaction"%string /\ description row = descr /\
     details row = Some (first_chars 50%nat message)).
Proof.
  unfold save_and_log.
  destruct (save_chat saving saved t message response src) as [[out t1] | e] eqn:Es;
    [ | repeat split; left; reflexivity].
  destruct (save_chat_inv _ _ _ _ _ _ _ _ Es) as (Ha1 & Hl1 & Hc1).
  assert (Hchats : chats t1 = chats t \/
            exists row, chats t1 = chats t ++ [row] /\ user_message row = message /\
              bot_response row = response /\ source row = Some src /\
              chat_created_at row = saved).
  { destruct Hc1 as [[_ ->] | (row & _ & _ & Hrow & Hm & Hr & Hs & Hn)];
      [left; reflexivity | right; exists row; repeat split; assumption]. }
  destruct (log_activity logging logged t1 _ _ _) as [[out2 t2] | e] eqn:El.
  - destruct (log_activity_inv _ _ _ _ _ _ _ _ El) as (Ha2 & Hc2 & Hl2).
    split; [congruence | ]. split; [rewrite Hc2; exact Hchats | ].
    destruct Hl2 as [[_ ->] | (row & _ & _ & Hrow & Ht & Hd & Hdet & _)].
    + left. exact Hl1.
    + right. exists row. rewrite Hrow, Hl1. repeat split; assumption.
  - split; [exact Ha1 | ]. split; [exact Hchats | left; exact Hl1].
Qed.

(** X20. What a request to [/api/chat] can do to the store. A message
    that is blank after stripping is rejected with status 400 and
    nothing is written. Otherwise the analyses are untouched, the chats
    gain at most one row, which holds the stripped message and the very
    response that is sent, and the activities gain at most one row, of
    type [chatbot_interaction], with the first 50 characters of the
    message as details. *)
Theorem chat_request_effects (api_key : res string) (remote : res gemini_reply)
    (printing : print_site -> option exn)
    (saving logging : faults) (saved logged : Z) (t : tables) (data : chat_body) :
  match api_chat strip lower first_chars api_key remote printing saving logging saved logged
          t data with
  | (ChatError status _, t') =>
      status = 400 /\ t' = t /\ strip (default ""%string (body_message data)) = ""%string
  | (ChatReply status response _ _, t') =>
      strip (default ""%string (body_message data)) <> ""%string /\
      (status = 200 \/ status = 500) /\
      analyses t' = analyses t /\
      (chats t' = chats t \/
       exists row, chats t' = chats t ++ [row] /\
         user_message row = strip (default ""%string (body_message data)) /\
         bot_response row = response /\ chat_created_at row = saved) /\
      (activities t' = activities t \/
       exists row, activities t' = activities t ++ [row] /\
         activity_type row = "chatbot_interaction"%string /\
         details row = Some (first_chars 50%nat (strip (default ""%string (body_message data)))))
  end.
Proof.
  unfold api_chat.
  destruct (String.eqb_spec (strip (default ""%string (body_message data))) "") as [E | E];
    [repeat split; exact E | ].
  assert (Hlog : forall response src descr,
            let t' := save_and_log first_chars saving logging saved logged t
                        (strip (default ""%string (body_message data))) response src descr in
            analyses t' = analyses t /\
            (chats t' = chats t \/
             exists row, chats t' = chats t ++ [row] /\
               user_message row = strip (default ""%string (body_message data)) /\
               bot_response row = response /\ chat_created_at row = saved) /\
            (activities t' = activities t \/
             exists row, activities t' = activities t ++ [row] /\
               activity_type row = "chatbot_interaction"%string /\
               details row =
                 Some (first_chars 50%nat (strip (default ""%string (body_message data)))))).
  { intros response src descr.
    destruct (save_and_log_inv saving logging saved logged t
                (strip (default ""%string (body_message data))) response src descr)
      as (Ha & Hc & Hl).
    split; [exact Ha | ]. split.
    - destruct Hc as [Hc | (row & Hrow & Hm & Hr & _ & Hn)];
        [left; exact Hc | right; exists row; repeat split; assumption].
    - destruct Hl as [Hl | (row & Hrow & Ht & _ & Hd)];
        [left; exact Hl | right; exists row; repeat split; assumption]. }
  assert (Hlast :
            let t' := match save_chat saving saved t
                              (strip (default ""%string (body_message data))) apology "error"
                      with
                      | Ok (_, t1) => t1
                      | Raise _ => t
                      end in
            analyses t' = analyses t /\
            (chats t' = chats t \/
             exists row, chats t' = chats t ++ [row] /\
               user_message row = strip (default ""%string (body_message data)) /\
               bot_response row = apology /\ chat_created_at row = saved) /\
            (activities t' = activities t \/
             exists row, activities t' = activities t ++ [row] /\
               activity_type row = "chatbot_interaction"%string /\
               details row =
                 Some (first_chars 50%nat (strip (default ""%string (body_message data)))))).
  { destruct (save_chat saving saved t _ apology "error") as [[out t1] | e'] eqn:Es;
      [ | repeat split; left; reflexivity].
    destruct (save_chat_inv _ _ _ _ _ _ _ _ Es) as (Ha1 & Hl1 & Hc1).
    split; [exact Ha1 | ]. split; [ | left; exact Hl1].
    destruct Hc1 as [[_ ->] | (row & _ & _ & Hrow & Hm & Hr & _ & Hn)];
      [left; reflexivity | right; exists row; repeat split; assumption]. }
  unfold py_print.
  destruct api_key as [key | e].
  - destruct (negb (String.eqb key "") && negb (String.eqb key placeholder_key)).
    + destruct (printing EchoMessage); cbn [mbind res_bind].
      * destruct (printing RemoteError); [ | destruct (printing FallbackNotice)].
        -- split; [exact E | ]. split; [right; reflexivity | exact Hlast].
        -- split; [exact E | ]. split; [right; reflexivity | exact Hlast].
        -- split; [exact E | ]. split; [left; reflexivity | ]. apply Hlog.
      * destruct (remote ≫= answer_of strip) as [answer | e].
        -- split; [exact E | ]. split; [left; reflexivity | ]. apply Hlog.
        -- destruct (printing RemoteError); [ | destruct (printing FallbackNotice)].
           ++ split; [exact E | ]. split; [right; reflexivity | exact Hlast].
           ++ split; [exact E | ]. split; [right; reflexivity | exact Hlast].
           ++ split; [exact E | ]. split; [left; reflexivity | ]. apply Hlog.
    + destruct (printing FallbackNotice).
      * split; [exact E | ]. split; [right; reflexivity | exact Hlast].
      * split; [exact E | ]. split; [left; reflexivity | ]. apply Hlog.
  - split; [exact E | ]. split; [right; reflexivity | exact Hlast].
Qed.

(** X21. Which answer a chat request gets. For a message that is not
    blank after stripping, the answer does not depend on the store, on
    its condition or on the clock. When the configured key is set and
    the echo of the message, the remote call and the reading of its text
    all succeed, it is the remote answer with source [google-gemini].
    When the key is empty or the placeholder, or something in the remote
    block raises and its description can be printed, the fallback
    follows: if the fallback notice can be printed, the answer is the
    keyword fallback for the stripped message, with status 200 and
    source [fallback]. The apology with status 500 is sent in the
    remaining cases: when reading the key raises, when the description
    of the remote error cannot be printed, and when the fallback is
    reached but its notice cannot be printed. *)
Theorem chat_reply_cases (api_key : res string) (remote : res gemini_reply)
    (printing : print_site -> option exn)
    (saving logging : faults) (saved logged : Z) (t : tables) (data : chat_body) :
  strip (default ""%string (body_message data)) <> ""%string ->
  (forall saving' logging' saved' logged' t',
     fst (api_chat strip lower first_chars api_key remote printing
            saving logging saved logged t data) =
     fst (api_chat strip lower first_chars api_key remote printing
            saving' logging' saved' logged' t' data)) /\
  (forall key answer, api_key = Ok key ->
     key <> ""%string -> key <> placeholder_key ->
     printing EchoMessage = None ->
     remote ≫= answer_of strip = Ok answer ->
     fst (api_chat strip lower first_chars api_key remote printing
            saving logging saved logged t data) =
     ChatReply 200 answer "success" "google-gemini") /\
  (forall key, api_key = Ok key ->
     key = ""%string \/ key = placeholder_key \/
     ((printing EchoMessage <> None \/ exists e, remote ≫= answer_of strip = Raise e) /\
      printing RemoteError = None) ->
     (printing FallbackNotice = None ->
      fst (api_chat strip lower first_chars api_key remote printing
             saving logging saved logged t data) =
      ChatReply 200
        (get_fallback_response lower (strip (default ""%string (body_message data))))
        "success" "fallback") /\
     (printing FallbackNotice <> None ->
      fst (api_chat strip lower first_chars api_key remote printing
             saving logging saved logged t data) =
      ChatReply 500 apology "error" "error-fallback")) /\
  (forall key, api_key = Ok key ->
     key <> ""%string -> key <> placeholder_key ->
     (printing EchoMessage <> None \/ exists e, remote ≫= answer_of strip = Raise e) ->
     printing RemoteError <> None ->
     fst (api_chat strip lower first_chars api_key remote printing
            saving logging saved logged t data) =
     ChatReply 500 apology "error" "error-fallback") /\
  (forall e, api_key = Raise e ->
     fst (api_chat strip lower first_chars api_key remote printing
            saving logging saved logged t data) =
     ChatReply 500 apology "error" "error-fallback").
Proof.
  intros E. unfold api_chat, py_print.
  destruct (String.eqb_spec (strip (default ""%string (body_message data))) "") as [E0 | _];
    [contradiction | ].
  split; [ | split; [ | split; [ | split]]].
  - intros saving' logging' saved' logged' t'.
    destruct api_key as [key | e]; [ | reflexivity].
    destruct (negb (String.eqb key "") && negb (String.eqb key placeholder_key)).
    + destruct (printing EchoMessage); cbn [mbind res_bind].
      * destruct (printing RemoteError); [reflexivity | ].
        destruct (printing FallbackNotice); reflexivity.
      * destruct (remote ≫= answer_of strip); [reflexivity | ].
        destruct (printing RemoteError); [reflexivity | ].
        destruct (printing FallbackNotice); reflexivity.
    + destruct (printing FallbackNotice); reflexivity.
  - intros key answer -> Hk1 Hk2 He Hr.
    destruct (String.eqb_spec key "") as [-> | _]; [contradiction | ].
    destruct (String.eqb_spec key placeholder_key) as [-> | _]; [contradiction | ].
    cbn [negb andb]. rewrite He. cbn [mbind res_bind]. rewrite Hr. reflexivity.
  - intros key -> Hcase.
    destruct (String.eqb_spec key "") as [-> | Hk1]; cbn [negb andb];
      [destruct (printing FallbackNotice);
       (split; [intros H; try discriminate H; reflexivity
               | intros H; try reflexivity; contradiction]) | ].
    destruct (String.eqb_spec key placeholder_key) as [-> | Hk2]; cbn [negb andb];
      [destruct (printing FallbackNotice);
       (split; [intros H; try discriminate H; reflexivity
               | intros H; try reflexivity; contradiction]) | ].
    destruct Hcase as [-> | [-> | [Hblock Hdescr]]]; [contradiction | contradiction | ].
    rewrite Hdescr.
    destruct (printing EchoMessage) as [pe | ]; cbn [mbind res_bind].
    + destruct (printing FallbackNotice);
        (split; [intros H; try discriminate H; reflexivity
                | intros H; try reflexivity; contradiction]).
    + destruct Hblock as [Hc | [e ->]]; [contradiction | ].
      destruct (printing FallbackNotice);
        (split; [intros H; try discriminate H; reflexivity
                | intros H; try reflexivity; contradiction]).
  - intros key -> Hk1 Hk2 Hblock Hdescr.
    destruct (String.eqb_spec key "") as [-> | _]; [contradiction | ].
    destruct (String.eqb_spec key placeholder_key) as [-> | _]; [contradiction | ].
    cbn [negb andb].
    destruct (printing RemoteError) as [re | ]; [ | contradiction].
    destruct (printing EchoMessage) as [pe | ]; cbn [mbind res_bind]; [reflexivity | ].
    destruct Hblock as [Hc | [e ->]]; [contradiction | reflexivity].
  - intros e ->. reflexivity.
Qed.

End ChatFacts.

Lemma chat_request_effects_witness :
  api_chat no_strip lower_ascii ascii_first_chars (Ok placeholder_key)
    (Raise OperationalError) (fun _ => None) no_faults no_faults 10 11 no_tables
    chat_about_stock
  = (ChatReply 200
       "Hi there! Ask me about inventory optimization, seasonal trends, pricing, or product categories. How can I help today?"
       "success" "fallback", chat_logged) /\
  (chats chat_logged = chats no_tables \/
   exists row, chats chat_logged = chats no_tables ++ [row] /\
     user_message row = "Which stock?"%string /\
     bot_response row =
       "Hi there! Ask me about inventory optimization, seasonal trends, pricing, or product categories. How can I help today?"%string /\
     chat_created_at row = 10).
Proof.
  assert (E : api_chat no_strip lower_ascii ascii_first_chars (Ok placeholder_key)
                (Raise OperationalError) (fun _ => None) no_faults no_faults 10 11
                no_tables chat_about_stock
              = (ChatReply 200
                   "Hi there! Ask me about inventory optimization, seasonal trends, pricing, or product categories. How can I help today?"
                   "success" "fallback", chat_logged))
    by (vm_compute; reflexivity).
  split; [exact E | ].
  pose proof (chat_request_effects no_strip lower_ascii ascii_first_chars (Ok placeholder_key)
                (Raise OperationalError) (fun _ => None) no_faults no_faults 10 11
                no_tables chat_about_stock) as H.
  rewrite E in H. destruct H as (_ & _ & _ & Hc & _). exact Hc.
Defined.

Lemma chat_reply_cases_witness :
  no_strip (default ""%string (body_message chat_about_stock)) <> ""%string /\
  fst (api_chat no_strip lower_ascii ascii_first_chars (Ok placeholder_key)
         (Raise OperationalError) (fun _ => None) no_faults no_faults 10 11 no_tables
         chat_about_stock) =
  ChatReply 200
    "Hi there! Ask me about inventory optimization, seasonal trends, pricing, or product categories. How can I help today?"
    "success" "fallback" /\
  fst (api_chat no_strip lower_ascii ascii_first_chars (Ok ""%string)
         (Raise OperationalError) message_unprintable no_faults no_faults 10 11 no_tables
         chat_about_stock) =
  ChatReply 500 apology "error" "error-fallback".
Proof.
  assert (H : no_strip (default ""%string (body_message chat_about_stock)) <> ""%string)
    by discriminate.
  split; [exact H | ]. split.
  - exact (proj1 (proj1 (proj2 (proj2 (chat_reply_cases no_strip lower_ascii
                                        ascii_first_chars (Ok placeholder_key)
                                        (Raise OperationalError) (fun _ => None)
                                        no_faults no_faults 10 11 no_tables
                                        chat_about_stock H)))
                    placeholder_key eq_refl (or_intror (or_introl eq_refl))) eq_refl).
  - apply (proj2 (proj1 (proj2 (proj2 (chat_reply_cases no_strip lower_ascii
                                        ascii_first_chars (Ok ""%string)
                                        (Raise OperationalError) message_unprintable
                                        no_faults no_faults 10 11 no_tables
                                        chat_about_stock H)))
                    ""%string eq_refl (or_introl eq_refl))).
    discriminate.
Defined.

End ServerFacts.

(** ** The session and the guarded routes *)

Module AuthFacts.
Import Database Storage App Auth AuthSpec StorageSpec StorageExamples StorageFacts.

Lemma replace_char_length (a b : ascii) (s : string) :
  String.length (replace_char a b s) = String.length s.
Proof.
  induction s as [ | c s IH]; [reflexivity | ].
  cbn [replace_char map_string String.length]. f_equal. exact IH.
Qed.

Lemma replace_char_removes (a b : ascii) (s : string) :
  a <> b -> ~ occurs a (replace_char a b s).
Proof.
  intros Hab. induction s as [ | c s IH]; [intros [] | ].
  cbn [replace_char map_string occurs]. intros [H | H]; [ | exact (IH H)].
  destruct (Ascii.eqb_spec c a) as [-> | Hc]; congruence.
Qed.

Lemma replace_char_keeps_out (a b c : ascii) (s : string) :
  b <> c -> ~ occurs c s -> ~ occurs c (replace_char a b s).
Proof.
  intros Hbc. induction s as [ | d s IH]; [intros _ [] | ].
  cbn [replace_char map_string occurs]. intros Hs [H | H].
  - destruct (Ascii.eqb_spec d a) as [-> | Hd]; [congruence | ].
    apply Hs. left. exact H.
  - apply IH; [ | exact H]. intros Hc. apply Hs. right. exact Hc.
Qed.

Section RouteFacts.

Variable strip : string -> string.
Variable title : string -> string.

(** X22. The login accepts any credentials that are not blank. It
    answers 200 exactly when the stripped email and the stripped
    password are both non-empty, and no password is compared except the
    demo one, which only selects the user id [demo_user]. After a
    success the session holds the stripped email and a user id that is
    either [demo_user] or [user_] followed by the email with every [@]
    and [.] replaced, so of the same length and without those two
    characters; keys other than the three written are kept. A refused
    login answers 401 and leaves the session as it was. *)
Theorem login_accepts_non_blank (sess : session) (data : login_body) :
  match api_login strip title sess data with
  | (LoginSuccess status _, sess') =>
      status = 200 /\
      strip (default ""%string (login_email data)) <> ""%string /\
      strip (default ""%string (login_password data)) <> ""%string /\
      sess' !! "email"%string = Some (strip (default ""%string (login_email data))) /\
      (exists uid, sess' !! "user_id"%string = Some uid /\
         (uid = "demo_user"%string \/
          exists tail, uid = ("user_" ++ tail)%string /\
            String.length tail =
              String.length (strip (default ""%string (login_email data))) /\
            ~ occurs "@" tail /\ ~ occurs "." tail)) /\
      (forall k, k <> "user_id"%string -> k <> "email"%string -> k <> "username"%string ->
         sess' !! k = sess !! k)
  | (LoginError status _, sess') =>
      status = 401 /\ sess' = sess /\
      (strip (default ""%string (login_email data)) = ""%string \/
       strip (default ""%string (login_password data)) = ""%string)
  end.
Proof.
  unfold api_login.
  set (email := strip (default ""%string (login_email data))).
  set (password := strip (default ""%string (login_password data))).
  assert (Hframe : forall (a b c : string) (k : string),
            k <> "user_id"%string -> k <> "email"%string -> k <> "username"%string ->
            (<["username"%string := a]> (<["email"%string := b]>
               (<["user_id"%string := c]> sess))) !! k = sess !! k).
  { intros a b c k H1 H2 H3.
    rewrite lookup_insert_ne by (intros E; exact (H3 (eq_sym E))).
    rewrite lookup_insert_ne by (intros E; exact (H2 (eq_sym E))).
    rewrite lookup_insert_ne by (intros E; exact (H1 (eq_sym E))).
    reflexivity. }
  destruct (String.eqb_spec email "demo@dmart.com") as [Ee | Ee];
    [destruct (String.eqb_spec password "demo123") as [Ep | Ep] | ]; cbn [andb].
  - split; [reflexivity | ]. split; [rewrite Ee; discriminate | ].
    split; [rewrite Ep; discriminate | ].
    split; [rewrite lookup_insert_ne by discriminate; apply lookup_insert_eq | ].
    split; [ | apply Hframe].
    exists "demo_user"%string. split; [ | left; reflexivity].
    rewrite !lookup_insert_ne by discriminate. apply lookup_insert_eq.
  - destruct (String.eqb_spec email "") as [E0 | E0]; [rewrite Ee in E0; discriminate | ].
    destruct (String.eqb_spec password "") as [P0 | P0]; cbn [negb andb].
    + split; [reflexivity | ]. split; [reflexivity | right; exact P0].
    + split; [reflexivity | ]. split; [exact E0 | ]. split; [exact P0 | ].
      split; [rewrite lookup_insert_ne by discriminate; apply lookup_insert_eq | ].
      split; [ | apply Hframe].
      eexists. split; [rewrite !lookup_insert_ne by discriminate; apply lookup_insert_eq | ].
      right. eexists. split; [reflexivity | ].
      split; [rewrite !replace_char_length; reflexivity | ].
      split.
      * apply replace_char_keeps_out; [discriminate | ].
        apply replace_char_removes. discriminate.
      * apply replace_char_removes. discriminate.
  - destruct (String.eqb_spec email "") as [E0 | E0]; cbn [negb andb].
    + split; [reflexivity | ]. split; [reflexivity | left; exact E0].
    + destruct (String.eqb_spec password "") as [P0 | P0]; cbn [negb andb].
      * split; [reflexivity | ]. split; [reflexivity | right; exact P0].
      * split; [reflexivity | ]. split; [exact E0 | ]. split; [exact P0 | ].
        split; [rewrite lookup_insert_ne by discriminate; apply lookup_insert_eq | ].
        split; [ | apply Hframe].
        eexists. split; [rewrite !lookup_insert_ne by discriminate; apply lookup_insert_eq | ].
        right. eexists. split; [reflexivity | ].
        split; [rewrite !replace_char_length; reflexivity | ].
        split.
        -- apply replace_char_keeps_out; [discriminate | ].
           apply replace_char_removes. discriminate.
        -- apply replace_char_removes. discriminate.
Qed.

(** X23. The guard of the routes behind the login. Without a user id in
    the session, the profile update answers 401 and the analytics and
    settings pages redirect to the login, and neither the session nor
    the store is changed. With a user id, a page is never a redirect: it
    is rendered, with at most one [page_visit] activity logged and
    nothing else written, or the exception of a file that cannot be
    opened leaves the view with the store unchanged. In no case does a
    guarded route add or remove the user id. *)
Theorem guarded_routes (logging : faults) (now : Z) (sess : session) (t : tables)
    (data : profile_body) (descr template : string) :
  (sess !! "user_id"%string = None ->
     api_update_profile strip logging now sess t data
       = (ProfileReply 401 false "Not authenticated" None, sess, t) /\
     guarded_page descr template logging now sess t = (Redirect "login", t)) /\
  (sess !! "user_id"%string <> None ->
     match guarded_page descr template logging now sess t with
     | (Redirect _, _) => False
     | (Render tpl, t') =>
         tpl = template /\ analyses t' = analyses t /\ chats t' = chats t /\
         (activities t' = activities t \/
          exists row, activities t' = activities t ++ [row] /\
            activity_type row = "page_visit"%string /\ description row = descr)
     | (PageFailure e, t') => open_fault logging = Some e /\ t' = t
     end) /\
  (snd (fst (api_update_profile strip logging now sess t data))) !! "user_id"%string
    = sess !! "user_id"%string.
Proof.
  unfold api_update_profile, guarded_page. split; [ | split].
  - intros ->. split; reflexivity.
  - intros Hin. destruct (sess !! "user_id"%string) as [uid | ]; [ | contradiction].
    destruct (log_activity logging now t "page_visit" descr None) as [[out t'] | e] eqn:El.
    + destruct (log_activity_inv _ _ _ _ _ _ _ _ El) as (Ha & Hc & Hcase).
      split; [reflexivity | ]. split; [exact Ha | ]. split; [exact Hc | ].
      destruct Hcase as [[_ ->] | (row & _ & _ & Hrow & Ht & Hd & _)];
        [left; reflexivity | right; exists row; repeat split; assumption].
    + split; [ | reflexivity].
      revert El. unfold log_activity, get_db_connection, connect. cbn [open_error].
      destruct (open_fault logging) as [e' | ]; cbn [mbind res_bind]; [congruence | ].
      match goal with |- match ?m with _ => _ end = _ -> _ => destruct m end; discriminate.
  - destruct (sess !! "user_id"%string) as [uid | ] eqn:E; [ | exact E].
    destruct (String.eqb _ "" || String.eqb _ ""); [exact E | ].
    destruct (log_activity logging now t _ _ _) as [[out t'] | e]; cbn [fst snd];
      rewrite !lookup_insert_ne by discriminate; exact E.
Qed.

(** X24. Login, use, logout. After a successful login, whatever the
    session was before, the analytics page is not a redirect and a
    profile update with non-blank fields on a healthy file answers 200
    with the stripped name and email, which the session then holds;
    after a logout the session is empty, the pages redirect to the login
    again and the profile update answers 401. *)
Theorem login_use_logout (sess sess' : session) (data : login_body) (message : string)
    (now : Z) (t : tables) (pdata : profile_body) :
  api_login strip title sess data = (LoginSuccess 200 message, sess') ->
  strip (default ""%string (profile_username pdata)) <> ""%string ->
  strip (default ""%string (profile_email pdata)) <> ""%string ->
  (forall old, In old (activities t) -> activity_id old < 2 ^ 63 - 1) ->
  (forall logging, exists out t',
     analytics_page logging now sess' t = (out, t') /\ out <> Redirect "login") /\
  (exists sess'' t',
     api_update_profile strip no_faults now sess' t pdata
       = (ProfileReply 200 true "Profile updated successfully"
            (Some (strip (default ""%string (profile_username pdata)),
                   strip (default ""%string (profile_email pdata)))), sess'', t') /\
     sess'' !! "username"%string = Some (strip (default ""%string (profile_username pdata))) /\
     sess'' !! "email"%string = Some (strip (default ""%string (profile_email pdata))) /\
     sess'' !! "user_id"%string = sess' !! "user_id"%string) /\
  (forall logging,
     analytics_page logging now (snd (logout sess')) t = (Redirect "login", t) /\
     settings_page logging now (snd (logout sess')) t = (Redirect "login", t) /\
     api_update_profile strip logging now (snd (logout sess')) t pdata
       = (ProfileReply 401 false "Not authenticated" None, ∅, t)).
Proof.
  intros Hlogin Hu He Hids.
  assert (Huid : exists uid, sess' !! "user_id"%string = Some uid).
  { revert Hlogin. unfold api_login.
    destruct (String.eqb _ "demo@dmart.com" && String.eqb _ "demo123").
    - intros [= _ <-]. eexists.
      rewrite !lookup_insert_ne by discriminate. apply lookup_insert_eq.
    - destruct (negb (String.eqb _ "") && negb (String.eqb _ "")); [ | discriminate].
      intros [= _ <-]. eexists.
      rewrite !lookup_insert_ne by discriminate. apply lookup_insert_eq. }
  destruct Huid as [uid Huid].
  split; [ | split].
  - intros logging. unfold analytics_page, guarded_page. rewrite Huid.
    destruct (log_activity logging now t _ _ _) as [[out t'] | e];
      eexists _, _; (split; [reflexivity | discriminate]).
  - unfold api_update_profile. rewrite Huid.
    destruct (String.eqb_spec (strip (default ""%string (profile_username pdata))) "")
      as [E | _]; [contradiction | ].
    destruct (String.eqb_spec (strip (default ""%string (profile_email pdata))) "")
      as [E | _]; [contradiction | ].
    cbn [orb].
    destruct (next_rowid_ok activity_id (activities t) Hids) as [n Hn].
    unfold log_activity, get_db_connection, connect, execute.
    cbn [no_faults open_fault statement_fault open_error query_error mbind res_bind].
    rewrite Hn. cbn [mbind res_bind].
    eexists _, _. split; [reflexivity | ].
    split; [rewrite lookup_insert_ne by discriminate; apply lookup_insert_eq | ].
    split; [apply lookup_insert_eq | ].
    rewrite !lookup_insert_ne by discriminate. exact Huid.
  - intros logging. unfold analytics_page, settings_page, guarded_page, api_update_profile, logout.
    cbn [snd]. rewrite lookup_empty. repeat split.
Qed.

End RouteFacts.

Lemma login_accepts_non_blank_witness :
  fst (api_login plain plain ∅ visitor) = LoginSuccess 200 "Logged in successfully" /\
  visitor_session !! "user_id"%string = Some "user_ravi_k_shop_in"%string /\
  visitor_session !! "email"%string = Some "ravi.k@shop.in"%string.
Proof.
  assert (E : api_login plain plain ∅ visitor
              = (LoginSuccess 200 "Logged in successfully", visitor_session))
    by (vm_compute; reflexivity).
  pose proof (login_accepts_non_blank plain plain ∅ visitor) as H.
  rewrite E in H. destruct H as (_ & _ & _ & Hemail & _).
  split; [rewrite E; reflexivity | ]. split; [ | exact Hemail].
  vm_compute. reflexivity.
Defined.

Lemma guarded_routes_witness :
  (∅ : session) !! "user_id"%string = None /\
  guarded_page "User visited settings page" "settings.html" no_faults 5 ∅ no_tables
    = (Redirect "login", no_tables).
Proof.
  split; [reflexivity | ].
  exact (proj2 (proj1 (guarded_routes plain no_faults 5 ∅ no_tables
                          {| profile_username := None; profile_email := None |}
                          "User visited settings page" "settings.html") eq_refl)).
Defined.

Lemma login_use_logout_witness :
  (api_login plain plain ∅ visitor
     = (LoginSuccess 200 "Logged in successfully", visitor_session) /\
   plain (default ""%string (Some "Ravi"%string)) <> ""%string /\
   plain (default ""%string (Some "ravi@shop.in"%string)) <> ""%string /\
   (forall old, In old (activities no_tables) -> activity_id old < 2 ^ 63 - 1)) /\
  settings_page no_faults 9 (snd (logout visitor_session)) no_tables
    = (Redirect "login", no_tables).
Proof.
  assert (H1 : api_login plain plain ∅ visitor
               = (LoginSuccess 200 "Logged in successfully", visitor_session))
    by (vm_compute; reflexivity).
  assert (H2 : plain (default ""%string (Some "Ravi"%string)) <> ""%string) by discriminate.
  assert (H3 : plain (default ""%string (Some "ravi@shop.in"%string)) <> ""%string)
    by discriminate.
  assert (H4 : forall old, In old (activities no_tables) -> activity_id old < 2 ^ 63 - 1)
    by (intros old []).
  split; [exact (conj H1 (conj H2 (conj H3 H4))) | ].
  destruct (login_use_logout plain plain ∅ visitor_session visitor _ 9 no_tables
              {| profile_username := Some "Ravi"%string;
                 profile_email := Some "ravi@shop.in"%string |} H1 H2 H3 H4)
    as (_ & _ & Hout).
  exact (proj1 (proj2 (Hout no_faults))).
Defined.

End AuthFacts.
